(** * Security scanners and quality gate of anarqq-ecosystem-core

    A shallow embedding of the security scripts under [scripts/security]:

    - [docker-compose-security.py]   (module [Compose])
    - [github-actions-security.py]   (module [Actions])
    - the severity mappings of the report generators (module [Adapters]),
      their ranking (module [Ranking]) and the NPM and OSV adapters of
      [generate-dependency-report.py] (module [DependencyReport])
    - [security-quality-gate.py]     (module [Gate], on a configuration
      whose entries have the expected types, and module [GateDoc], on the
      configuration document itself)

    The scripts are Python: they walk documents produced by
    [yaml.safe_load] / [json.load], append to a list of issues held by the
    scanner object, and rely on exceptions for malformed shapes.  The
    embedding keeps all three: documents are values of [Py.value], the issue
    list is threaded as explicit state, and every operation that can raise in
    Python returns an [outcome]. *)

From Stdlib Require Import ZArith List String Ascii Bool Lia.
From Stdlib Require Import DecimalString Permutation.
Import ListNotations.
Open Scope string_scope.
Open Scope list_scope.
Set Warnings "-register-all".

(* ===================================================================== *)
(** ** Python strings *)
(* ===================================================================== *)

(** A text is kept as the sequence of its bytes in UTF-8; a character of
    ASCII text is one byte.  Prefix, containment and splitting at an ASCII
    separator are the same on the bytes as on the characters.  The case
    conversions and the digit test are Python's on ASCII text ([isascii]):
    what [str.lower], [str.upper] and [str.isdigit] do to the characters
    outside ASCII is not modelled, and the properties that depend on it are
    stated for ASCII text. *)
Module PyStr.

Definition is_upper (c : ascii) : bool :=
  let n := nat_of_ascii c in (65 <=? n)%nat && (n <=? 90)%nat.

Definition is_lower (c : ascii) : bool :=
  let n := nat_of_ascii c in (97 <=? n)%nat && (n <=? 122)%nat.

Definition lower_char (c : ascii) : ascii :=
  if is_upper c then ascii_of_nat (nat_of_ascii c + 32) else c.

Definition upper_char (c : ascii) : ascii :=
  if is_lower c then ascii_of_nat (nat_of_ascii c - 32) else c.

(** [s.lower()] *)
Fixpoint lower (s : string) : string :=
  match s with
  | EmptyString => EmptyString
  | String c t => String (lower_char c) (lower t)
  end.

(** [s.upper()] *)
Fixpoint upper (s : string) : string :=
  match s with
  | EmptyString => EmptyString
  | String c t => String (upper_char c) (upper t)
  end.

(** [s.startswith(p)] *)
Definition startswith (s p : string) : bool := String.prefix p s.

(** [needle in hay], substring containment *)
Fixpoint contains (needle hay : string) : bool :=
  String.prefix needle hay ||
  match hay with
  | EmptyString => false
  | String _ t => contains needle t
  end.

(** [s.split(sep)] for a one-character separator *)
Fixpoint split (sep : ascii) (s : string) : list string :=
  match s with
  | EmptyString => [EmptyString]
  | String c t =>
      if Ascii.eqb c sep then EmptyString :: split sep t
      else match split sep t with
           | [] => [String c EmptyString]
           | h :: r => String c h :: r
           end
  end.

(** [c.isdigit()] *)
Definition isdigit (c : ascii) : bool :=
  let n := nat_of_ascii c in (48 <=? n)%nat && (n <=? 57)%nat.

(** [all(p(c) for c in s)] *)
Definition all_chars (p : ascii -> bool) (s : string) : bool :=
  forallb p (list_ascii_of_string s).

(** [s.isascii()] *)
Definition isascii (s : string) : bool :=
  all_chars (fun c => (nat_of_ascii c <? 128)%nat) s.

(** [sep.join(l)] *)
Definition join (sep : string) (l : list string) : string := String.concat sep l.

(** [str(n)] for an integer *)
Definition str_int (z : Z) : string := NilZero.string_of_int (Z.to_int z).

Definition dquote : ascii := ascii_of_nat 34.
Definition squote : ascii := ascii_of_nat 39.
Definition backslash : ascii := ascii_of_nat 92.

Definition has_char (c : ascii) (s : string) : bool :=
  existsb (Ascii.eqb c) (list_ascii_of_string s).

Definition hex_digit (n : nat) : ascii :=
  if (n <? 10)%nat then ascii_of_nat (48 + n) else ascii_of_nat (87 + n).

(** One character of [repr(s)], for the quote [q] chosen for the string. *)
Definition repr_char (q c : ascii) : string :=
  let n := nat_of_ascii c in
  if Ascii.eqb c q || Ascii.eqb c backslash then String backslash (String c EmptyString)
  else if (n =? 9)%nat then String backslash "t"
  else if (n =? 10)%nat then String backslash "n"
  else if (n =? 13)%nat then String backslash "r"
  else if (n <? 32)%nat || (n =? 127)%nat then
    String backslash (String "x" (String (hex_digit (n / 16)) (String (hex_digit (n mod 16)) EmptyString)))
  else String c EmptyString.

Fixpoint repr_chars (q : ascii) (s : string) : string :=
  match s with
  | EmptyString => EmptyString
  | String c t => (repr_char q c ++ repr_chars q t)%string
  end.

(** [repr(s)] of a string: single quotes, unless the text has a single
    quote and no double quote. *)
Definition repr_str (s : string) : string :=
  let q := if has_char squote s && negb (has_char dquote s) then dquote else squote in
  String q (repr_chars q s ++ String q EmptyString)%string.

End PyStr.

(* ===================================================================== *)
(** ** Python values, exceptions and the scanner monad *)
(* ===================================================================== *)

Module Py.
Import PyStr.

(** What [yaml.safe_load] and [json.load] return, for documents made of
    null, booleans, integers, strings, sequences and mappings with string
    keys.  A mapping keeps its entries in document order, the order in
    which [dict.items()] yields them. *)
Inductive value : Type :=
| VNone
| VBool (b : bool)
| VInt (z : Z)
| VStr (s : string)
| VList (l : list value)
| VDict (d : list (string * value)).

Inductive exn : Type :=
| AttributeError (type_name attr : string)
| TypeError (type_name : string)
| IndexError
| KeyError (key : string)
| LoadError (msg : string).

Inductive outcome (A : Type) : Type :=
| Ok (a : A)
| Raise (e : exn).
Arguments Ok {A} a.
Arguments Raise {A} e.

(** An f-string whose hole is [str(e)] of a caught exception is kept with
    its hole. *)
Inductive text : Type :=
| Text (s : string)
| TextExn (prefix : string) (e : exn).

Definition type_name (v : value) : string :=
  match v with
  | VNone => "NoneType"
  | VBool _ => "bool"
  | VInt _ => "int"
  | VStr _ => "str"
  | VList _ => "list"
  | VDict _ => "dict"
  end.

(** [bool(v)] *)
Definition truthy (v : value) : bool :=
  match v with
  | VNone => false
  | VBool b => b
  | VInt z => negb (z =? 0)%Z
  | VStr s => negb (String.eqb s EmptyString)
  | VList l => match l with [] => false | _ => true end
  | VDict d => match d with [] => false | _ => true end
  end.

Fixpoint lookup {A : Type} (k : string) (d : list (string * A)) : option A :=
  match d with
  | [] => None
  | (k', v) :: r => if String.eqb k' k then Some v else lookup k r
  end.

Definition has_key {A : Type} (k : string) (d : list (string * A)) : bool :=
  match lookup k d with Some _ => true | None => false end.

(** [v == s] for a string literal [s] *)
Definition eq_str (v : value) (s : string) : bool :=
  match v with
  | VStr t => String.eqb t s
  | _ => false
  end.

(** [v == n] for an integer literal [n]; a boolean compares as 0 or 1 *)
Definition eq_int (v : value) (n : Z) : bool :=
  match v with
  | VInt z => (z =? n)%Z
  | VBool b => ((if b then 1 else 0) =? n)%Z
  | _ => false
  end.

(** [v.get(k, default)] *)
Definition get (v : value) (k : string) (default : value) : outcome value :=
  match v with
  | VDict d => Ok (match lookup k d with Some x => x | None => default end)
  | _ => Raise (AttributeError (type_name v) "get")
  end.

(** [v[k]] for a string key *)
Definition subscript (v : value) (k : string) : outcome value :=
  match v with
  | VDict d => match lookup k d with Some x => Ok x | None => Raise (KeyError k) end
  | _ => Raise (TypeError (type_name v))
  end.

(** [v.items()] *)
Definition items (v : value) : outcome (list (string * value)) :=
  match v with
  | VDict d => Ok d
  | _ => Raise (AttributeError (type_name v) "items")
  end.

(** The elements a [for] loop over [v] visits. *)
Definition iter (v : value) : outcome (list value) :=
  match v with
  | VList l => Ok l
  | VDict d => Ok (map (fun kv => VStr (fst kv)) d)
  | VStr s => Ok (map (fun c => VStr (String c EmptyString)) (list_ascii_of_string s))
  | _ => Raise (TypeError (type_name v))
  end.

(** [needle in v] for a string [needle] *)
Definition contains_str (needle : string) (v : value) : outcome bool :=
  match v with
  | VStr s => Ok (contains needle s)
  | VList l => Ok (existsb (fun x => eq_str x needle) l)
  | VDict d => Ok (has_key needle d)
  | _ => Raise (TypeError (type_name v))
  end.

(** The receiver of a string method [attr]. *)
Definition as_str (v : value) (attr : string) : outcome string :=
  match v with
  | VStr s => Ok s
  | _ => Raise (AttributeError (type_name v) attr)
  end.

(** [repr(v)] *)
Fixpoint repr (v : value) : string :=
  match v with
  | VNone => "None"
  | VBool b => if b then "True" else "False"
  | VInt z => str_int z
  | VStr s => repr_str s
  | VList l => ("[" ++ join ", " (map repr l) ++ "]")%string
  | VDict d =>
      ("{" ++ join ", " (map (fun kv => match kv with
                                        | (k, x) => repr_str k ++ ": " ++ repr x
                                        end) d) ++ "}")%string
  end.

(** [str(v)], as an f-string formats it *)
Definition str (v : value) : string :=
  match v with
  | VStr s => s
  | _ => repr v
  end.

(** *** State and exceptions *)

(** A method of an object with fields of type [S]: it runs on the fields,
    returns or raises, and leaves the fields as they were at that point. *)
Definition M (S A : Type) : Type := S -> outcome A * S.

Definition ret {S A : Type} (a : A) : M S A := fun s => (Ok a, s).

Definition bind {S A B : Type} (m : M S A) (k : A -> M S B) : M S B :=
  fun s => match m s with
           | (Ok a, s') => k a s'
           | (Raise e, s') => (Raise e, s')
           end.

Definition lift {S A : Type} (o : outcome A) : M S A := fun s => (o, s).

Definition raise {S A : Type} (e : exn) : M S A := fun s => (Raise e, s).

Definition modify {S : Type} (f : S -> S) : M S unit := fun s => (Ok tt, f s).

Definition read {S A : Type} (f : S -> A) : M S A := fun s => (Ok (f s), s).

Definition when {S : Type} (b : bool) (m : M S unit) : M S unit :=
  if b then m else ret tt.

(** [for x in l: body(x)] *)
Fixpoint for_each {S A : Type} (l : list A) (body : A -> M S unit) : M S unit :=
  match l with
  | [] => ret tt
  | x :: r => bind (body x) (fun _ => for_each r body)
  end.

(** [try: m / except Exception as e: handler(e)] *)
Definition try_except {S A : Type} (m : M S A) (handler : exn -> M S A) : M S A :=
  fun s => match m s with
           | (Ok a, s') => (Ok a, s')
           | (Raise e, s') => handler e s'
           end.

(** [enumerate(l)] *)
Fixpoint enumerate_from {A : Type} (i : Z) (l : list A) : list (Z * A) :=
  match l with
  | [] => []
  | x :: r => (i, x) :: enumerate_from (i + 1) r
  end.

Definition enumerate {A : Type} (l : list A) : list (Z * A) := enumerate_from 0 l.

(** *** Specifications of methods *)

(** [steps R m]: whatever [m] does, returning or raising, it takes the
    fields from [s] to a state related to [s] by [R]. *)
Definition steps {S A : Type} (R : S -> S -> Prop) (m : M S A) : Prop :=
  forall s, R s (snd (m s)).

(** [returns m]: [m] never raises. *)
Definition returns {S A : Type} (m : M S A) : Prop :=
  forall s, exists a, fst (m s) = Ok a.

(** The relation of a method that only appends entries satisfying [P]. *)
Definition appends {I : Type} (P : I -> Prop) (s s' : list I) : Prop :=
  exists added, s' = s ++ added /\ Forall P added.

(** The relation of a method that does not look at the entries it finds:
    run on [s], it does what it does on the empty list, after [s]. *)
Definition framed {I A : Type} (m : M (list I) A) : Prop :=
  forall s, m s = (fst (m []), s ++ snd (m [])).

End Py.

Declare Scope py_scope.
Delimit Scope py_scope with py.
Notation "x <- m ;; k" := (Py.bind m (fun x => k))
  (at level 61, m at next level, right associativity) : py_scope.
Notation "m ;; k" := (Py.bind m (fun _ => k))
  (at level 61, right associativity) : py_scope.

(* ===================================================================== *)
(** ** docker-compose-security.py *)
(* ===================================================================== *)

Module Compose.
Import PyStr Py.
Local Open Scope py_scope.

(** One entry of [self.issues]. *)
Record issue : Type := mk_issue {
  file : string;
  service : string;
  rule : string;
  severity : string;
  description : text;
  recommendation : string
}.

Record rule_info : Type := mk_rule {
  rule_severity : string;
  rule_description : string;
  rule_recommendation : string
}.

(** [self.security_rules] *)
Definition security_rules : list (string * rule_info) :=
  [ ("privileged_containers",
     mk_rule "critical" "Container running in privileged mode"
       "Remove privileged: true or use specific capabilities instead");
    ("host_network",
     mk_rule "high" "Container using host network mode"
       "Use bridge network mode and expose specific ports");
    ("host_pid",
     mk_rule "high" "Container sharing host PID namespace"
       "Remove pid: host unless absolutely necessary");
    ("host_ipc",
     mk_rule "high" "Container sharing host IPC namespace"
       "Remove ipc: host unless absolutely necessary");
    ("docker_socket_mount",
     mk_rule "critical" "Docker socket mounted in container"
       "Avoid mounting /var/run/docker.sock unless absolutely necessary");
    ("root_filesystem_writable",
     mk_rule "medium" "Container root filesystem is writable"
       "Set read_only: true for container filesystem");
    ("no_user_specified",
     mk_rule "medium" "Container running as root user"
       "Specify non-root user with user: directive");
    ("insecure_capabilities",
     mk_rule "high" "Container has dangerous capabilities"
       "Remove dangerous capabilities like SYS_ADMIN, NET_ADMIN");
    ("host_port_binding",
     mk_rule "low" "Service binding to all interfaces (0.0.0.0)"
       "Bind to specific interfaces when possible");
    ("default_secrets",
     mk_rule "high" "Potential default or weak secrets detected"
       "Use strong, unique secrets and avoid defaults");
    ("insecure_environment",
     mk_rule "medium" "Potentially sensitive data in environment variables"
       "Use secrets or external configuration for sensitive data") ].

(** The dictionary [_add_issue] appends. *)
Definition new_issue (file_path service_name rule_name : string) : issue :=
  let rule := lookup rule_name security_rules in
  {| file := file_path;
     service := service_name;
     rule := rule_name;
     severity := match rule with Some r => rule_severity r | None => "unknown" end;
     description := Text (match rule with
                          | Some r => rule_description r
                          | None => "Unknown security issue"
                          end);
     recommendation := match rule with
                       | Some r => rule_recommendation r
                       | None => "Review configuration"
                       end |}.

Definition _add_issue (file_path service_name rule_name : string) : M (list issue) unit :=
  modify (fun issues => issues ++ [new_issue file_path service_name rule_name]).

Definition dangerous_caps : list string :=
  ["SYS_ADMIN"; "NET_ADMIN"; "SYS_PTRACE"; "SYS_MODULE"; "DAC_OVERRIDE"].

Definition sensitive_patterns : list string :=
  ["password"; "secret"; "key"; "token"; "api_key"; "private"].

Definition weak_values : list string :=
  ["123"; "password"; "secret"; "admin"; "root"].

(** Body of [for volume in volumes]. *)
Definition scan_volume (file_path service_name : string) (volume : value)
  : M (list issue) unit :=
  match volume with
  | VStr s =>
      when (contains "/var/run/docker.sock" s)
        (_add_issue file_path service_name "docker_socket_mount")
  | VDict _ =>
      source <- lift (get volume "source" VNone) ;;
      when (eq_str source "/var/run/docker.sock")
        (_add_issue file_path service_name "docker_socket_mount")
  | _ => ret tt
  end.

(** Body of [for cap in cap_add]; [cap in dangerous_caps] compares with
    [==] against each literal. *)
Definition scan_cap (file_path service_name : string) (cap : value)
  : M (list issue) unit :=
  when (existsb (eq_str cap) dangerous_caps)
    (_add_issue file_path service_name "insecure_capabilities").

(** Body of [for port in ports]. *)
Definition scan_port (file_path service_name : string) (port : value)
  : M (list issue) unit :=
  match port with
  | VStr s =>
      when (startswith s "0.0.0.0:")
        (_add_issue file_path service_name "host_port_binding")
  | _ => ret tt
  end.

(** [any(weak in env_lower for weak in [...])] *)
Definition has_weak_value (env_lower : string) : bool :=
  existsb (fun weak => contains weak env_lower) weak_values.

(** [for pattern in sensitive_patterns: if pattern in env_lower: ...; break] *)
Fixpoint scan_patterns (file_path service_name env_lower : string)
    (patterns : list string) : M (list issue) unit :=
  match patterns with
  | [] => ret tt
  | pattern :: rest =>
      if contains pattern env_lower then
        if has_weak_value env_lower
        then _add_issue file_path service_name "default_secrets"
        else _add_issue file_path service_name "insecure_environment"
      else scan_patterns file_path service_name env_lower rest
  end.

(** Body of [for env_var in env_vars]. *)
Definition scan_env_var (file_path service_name : string) (env_var : value)
  : M (list issue) unit :=
  s <- lift (as_str env_var "lower") ;;
  scan_patterns file_path service_name (lower s) sensitive_patterns.

(** [env_vars]: the list itself, or the [K=V] strings of a mapping. *)
Definition env_vars_of (environment : value) : outcome (list value) :=
  match environment with
  | VList l => Ok l
  | _ =>
      match items environment with
      | Ok kvs => Ok (map (fun kv => match kv with
                                     | (k, v) => VStr (k ++ "=" ++ str v)%string
                                     end) kvs)
      | Raise e => Raise e
      end
  end.

Definition _scan_service (file_path service_name : string) (service_config : value)
  : M (list issue) unit :=
  privileged <- lift (get service_config "privileged" VNone) ;;
  when (truthy privileged)
    (_add_issue file_path service_name "privileged_containers") ;;
  network_mode <- lift (get service_config "network_mode" VNone) ;;
  when (eq_str network_mode "host")
    (_add_issue file_path service_name "host_network") ;;
  pid <- lift (get service_config "pid" VNone) ;;
  when (eq_str pid "host")
    (_add_issue file_path service_name "host_pid") ;;
  ipc <- lift (get service_config "ipc" VNone) ;;
  when (eq_str ipc "host")
    (_add_issue file_path service_name "host_ipc") ;;
  volumes <- lift (get service_config "volumes" (VList [])) ;;
  vs <- lift (iter volumes) ;;
  for_each vs (scan_volume file_path service_name) ;;
  read_only <- lift (get service_config "read_only" VNone) ;;
  when (negb (truthy read_only))
    (_add_issue file_path service_name "root_filesystem_writable") ;;
  user <- lift (get service_config "user" VNone) ;;
  when (negb (truthy user))
    (_add_issue file_path service_name "no_user_specified") ;;
  cap_add <- lift (get service_config "cap_add" (VList [])) ;;
  caps <- lift (iter cap_add) ;;
  for_each caps (scan_cap file_path service_name) ;;
  ports <- lift (get service_config "ports" (VList [])) ;;
  ps <- lift (iter ports) ;;
  for_each ps (scan_port file_path service_name) ;;
  environment <- lift (get service_config "environment" (VDict [])) ;;
  env_vars <- lift (env_vars_of environment) ;;
  for_each env_vars (scan_env_var file_path service_name).

(** The issue appended by the [except Exception as e] branch. *)
Definition parse_error_issue (file_path : string) (e : exn) : issue :=
  {| file := file_path;
     service := "N/A";
     rule := "parse_error";
     severity := "high";
     description := TextExn "Failed to parse Docker Compose file: " e;
     recommendation := "Fix YAML syntax errors in Docker Compose file" |}.

(** [scan_compose_file]; [loaded] is what opening the file and
    [yaml.safe_load] give: the document, or the exception they raise. *)
Definition scan_compose_file (file_path : string) (loaded : outcome value)
  : M (list issue) unit :=
  try_except
    (compose_data <- lift loaded ;;
     if negb (truthy compose_data) then ret tt
     else
       has_services <- lift (contains_str "services" compose_data) ;;
       if negb has_services then ret tt
       else
         services <- lift (subscript compose_data "services") ;;
         svcs <- lift (items services) ;;
         for_each svcs (fun sc => match sc with
                                  | (service_name, service_config) =>
                                      _scan_service file_path service_name service_config
                                  end))
    (fun e => modify (fun issues => issues ++ [parse_error_issue file_path e])).

(** *** Vocabulary of the properties *)

(** What a finding is known by: its scope, rule and severity. *)
Definition summary_of (i : issue) : string * string * string :=
  (service i, rule i, severity i).

(** The service of the example: [privileged: true], [cap_add: [SYS_ADMIN]],
    nothing else. *)
Definition privileged_service : value :=
  VDict [("privileged", VBool true); ("cap_add", VList [VStr "SYS_ADMIN"])].

(** [env_lower] has one of the sensitive patterns. *)
Definition has_sensitive_pattern (env_lower : string) : bool :=
  existsb (fun pattern => contains pattern env_lower) sensitive_patterns.

(** [_scan_service] up to the loop over the ports: what the scan of a
    service does before it reads the [environment] key. *)
Definition before_environment (file_path service_name : string) (service_config : value)
  : M (list issue) unit :=
  privileged <- lift (get service_config "privileged" VNone) ;;
  when (truthy privileged)
    (_add_issue file_path service_name "privileged_containers") ;;
  network_mode <- lift (get service_config "network_mode" VNone) ;;
  when (eq_str network_mode "host")
    (_add_issue file_path service_name "host_network") ;;
  pid <- lift (get service_config "pid" VNone) ;;
  when (eq_str pid "host")
    (_add_issue file_path service_name "host_pid") ;;
  ipc <- lift (get service_config "ipc" VNone) ;;
  when (eq_str ipc "host")
    (_add_issue file_path service_name "host_ipc") ;;
  volumes <- lift (get service_config "volumes" (VList [])) ;;
  vs <- lift (iter volumes) ;;
  for_each vs (scan_volume file_path service_name) ;;
  read_only <- lift (get service_config "read_only" VNone) ;;
  when (negb (truthy read_only))
    (_add_issue file_path service_name "root_filesystem_writable") ;;
  user <- lift (get service_config "user" VNone) ;;
  when (negb (truthy user))
    (_add_issue file_path service_name "no_user_specified") ;;
  cap_add <- lift (get service_config "cap_add" (VList [])) ;;
  caps <- lift (iter cap_add) ;;
  for_each caps (scan_cap file_path service_name) ;;
  ports <- lift (get service_config "ports" (VList [])) ;;
  ps <- lift (iter ports) ;;
  for_each ps (scan_port file_path service_name).

(** A service with an image and three environment variables, given as a
    mapping. *)
Definition db_service : list (string * value) :=
  [("image", VStr "postgres:16");
   ("environment", VDict [("POSTGRES_DB", VStr "orders");
                          ("POSTGRES_PASSWORD", VStr "admin123");
                          ("API_TOKEN", VStr "x9f")])].

(** *** The results of a scan *)

(** The dictionary [_get_summary] returns. *)
Record severity_counts : Type := mk_counts {
  critical : Z;
  high : Z;
  medium : Z;
  low : Z
}.

(** Body of [for issue in self.issues]:
    [if severity in summary: summary[severity] += 1]. *)
Definition count_issue (summary : severity_counts) (i : issue) : severity_counts :=
  if String.eqb (severity i) "critical" then
    mk_counts (critical summary + 1) (high summary) (medium summary) (low summary)
  else if String.eqb (severity i) "high" then
    mk_counts (critical summary) (high summary + 1) (medium summary) (low summary)
  else if String.eqb (severity i) "medium" then
    mk_counts (critical summary) (high summary) (medium summary + 1) (low summary)
  else if String.eqb (severity i) "low" then
    mk_counts (critical summary) (high summary) (medium summary) (low summary + 1)
  else summary.

Definition _get_summary (issues : list issue) : severity_counts :=
  fold_left count_issue issues (mk_counts 0 0 0 0).

(** The dictionary [get_results] returns; its [timestamp] is the wall
    clock and is left out. *)
Record results : Type := mk_results {
  tool : string;
  total_issues : Z;
  issues : list issue;
  summary : severity_counts
}.

Definition get_results (self_issues : list issue) : results :=
  {| tool := "Docker Compose Security Scanner";
     total_issues := Z.of_nat (List.length self_issues);
     issues := self_issues;
     summary := _get_summary self_issues |}.

(** The rules of the catalogue with their severities, and the entry of the
    exception handler. *)
Definition catalogue : list (string * string) :=
  map (fun entry => (fst entry, rule_severity (snd entry))) security_rules
  ++ [("parse_error", "high")].

(** An issue of the catalogue. *)
Definition catalogued (i : issue) : Prop := In (rule i, severity i) catalogue.

(** The findings of rule [rule_name] among [l]. *)
Definition findings_of (rule_name : string) (l : list issue) : list issue :=
  filter (fun i => String.eqb (rule i) rule_name) l.

(** The issues a summary counts. *)
Definition sum_counts (c : severity_counts) : Z :=
  critical c + high c + medium c + low c.

(** The loop of [scan_compose_file] over the services [svcs]. *)
Definition scan_services (file_path : string) (svcs : list (string * value))
  : M (list issue) unit :=
  for_each svcs (fun sc => match sc with
                           | (service_name, service_config) =>
                               _scan_service file_path service_name service_config
                           end).

(** [cap in dangerous_caps] *)
Definition is_dangerous (cap : value) : bool := existsb (eq_str cap) dangerous_caps.

(** A compose document with three services, the second with nothing under
    its name. *)
Definition three_services : list (string * value) :=
  [("version", VStr "3.8");
   ("services", VDict [("web", privileged_service);
                       ("db", VNone);
                       ("cache", privileged_service)])].

End Compose.

(* ===================================================================== *)
(** ** github-actions-security.py *)
(* ===================================================================== *)

Module Actions.
Import PyStr Py.
Local Open Scope py_scope.

(** One entry of [self.issues].  [step] is whatever the step's [name] key
    holds, hence a value. *)
Record issue : Type := mk_issue {
  file : string;
  job : string;
  step : value;
  rule : string;
  severity : string;
  description : text;
  recommendation : string
}.

Record rule_info : Type := mk_rule {
  rule_severity : string;
  rule_description : string;
  rule_recommendation : string
}.

(** [self.security_rules] *)
Definition security_rules : list (string * rule_info) :=
  [ ("pull_request_target_checkout",
     mk_rule "critical" "pull_request_target with checkout of PR code"
       "Use pull_request trigger or checkout specific ref");
    ("script_injection",
     mk_rule "critical" "Potential script injection vulnerability"
       "Use environment variables instead of direct interpolation");
    ("third_party_action_no_pin",
     mk_rule "high" "Third-party action not pinned to specific version"
       "Pin actions to specific commit SHA or version tag");
    ("secrets_in_environment",
     mk_rule "high" "Secrets exposed in environment variables"
       "Use secrets context only when necessary");
    ("write_permissions_broad",
     mk_rule "medium" "Broad write permissions granted"
       "Use minimal required permissions");
    ("self_hosted_runner",
     mk_rule "medium" "Using self-hosted runners"
       "Ensure self-hosted runners are properly secured");
    ("artifact_upload_no_retention",
     mk_rule "low" "Artifact upload without retention policy"
       "Set appropriate retention period for artifacts");
    ("cache_key_predictable",
     mk_rule "low" "Predictable cache keys may lead to cache poisoning"
       "Use unique, unpredictable cache keys") ].

Definition new_issue (file_path job_name : string) (step_name : value)
    (rule_name : string) : issue :=
  let rule := lookup rule_name security_rules in
  {| file := file_path;
     job := job_name;
     step := step_name;
     rule := rule_name;
     severity := match rule with Some r => rule_severity r | None => "unknown" end;
     description := Text (match rule with
                          | Some r => rule_description r
                          | None => "Unknown security issue"
                          end);
     recommendation := match rule with
                       | Some r => rule_recommendation r
                       | None => "Review configuration"
                       end |}.

Definition _add_issue (file_path job_name : string) (step_name : value)
    (rule_name : string) : M (list issue) unit :=
  modify (fun issues => issues ++ [new_issue file_path job_name step_name rule_name]).

Definition _check_triggers (file_path : string) (triggers : value)
  : M (list issue) unit :=
  has <- lift (contains_str "pull_request_target" triggers) ;;
  when has
    (_add_issue file_path "trigger" (VStr "pull_request_target")
       "pull_request_target_checkout").

(** [len(version_part) == 40 and
     all(c in '0123456789abcdef' for c in version_part.lower())] *)
Definition is_sha (version_part : string) : bool :=
  (String.length version_part =? 40)%nat &&
  all_chars (fun c => contains (String c EmptyString) "0123456789abcdef")
            (lower version_part).

(** The condition of the inner [if], evaluated left to right with the
    short cuts of [and]: [version_part[0]] is reached only when the two
    tests before it are true, and raises on the empty string. *)
Definition not_pinned (version_part : string) : outcome bool :=
  if negb (is_sha version_part) then
    if negb (startswith version_part "v") then
      match version_part with
      | EmptyString => Raise IndexError
      | String c _ => Ok (negb (isdigit c))
      end
    else Ok false
  else Ok false.

(** [uses.split('@')[1]] *)
Definition version_part_of (uses : string) : outcome string :=
  match nth_error (split "@" uses) 1 with
  | Some v => Ok v
  | None => Raise IndexError
  end.

(** [uses and not uses.startswith('./') and not uses.startswith('docker://')] *)
Definition is_external (uses : value) : outcome bool :=
  if truthy uses then
    match as_str uses "startswith" with
    | Ok u => Ok (negb (startswith u "./") && negb (startswith u "docker://"))
    | Raise e => Raise e
    end
  else Ok false.

(** The version-pinning check of [_scan_step]. *)
Definition check_pin (file_path job_name : string) (step_name uses : value)
  : M (list issue) unit :=
  ext <- lift (is_external uses) ;;
  when ext
    (has_at <- lift (contains_str "@" uses) ;;
     if has_at then
       u <- lift (as_str uses "split") ;;
       version_part <- lift (version_part_of u) ;;
       flag <- lift (not_pinned version_part) ;;
       when flag (_add_issue file_path job_name step_name "third_party_action_no_pin")
     else _add_issue file_path job_name step_name "third_party_action_no_pin").

Definition dangerous_contexts : list string :=
  ["github.event."; "github.head_ref"; "github.base_ref"].

(** [for context in dangerous_contexts: if context in run_command: ...; break] *)
Fixpoint scan_contexts (file_path job_name : string) (step_name run_command : value)
    (contexts : list string) : M (list issue) unit :=
  match contexts with
  | [] => ret tt
  | context :: rest =>
      found <- lift (contains_str context run_command) ;;
      if found then _add_issue file_path job_name step_name "script_injection"
      else scan_contexts file_path job_name step_name run_command rest
  end.

Definition check_injection (file_path job_name : string) (step_name run_command : value)
  : M (list issue) unit :=
  templated <- (if truthy run_command
                then lift (contains_str "${{" run_command)
                else ret false) ;;
  when templated
    (scan_contexts file_path job_name step_name run_command dangerous_contexts).

(** Body of [for env_name, env_value in env.items()]. *)
Definition scan_env (file_path job_name : string) (step_name : value)
    (entry : string * value) : M (list issue) unit :=
  match entry with
  | (env_name, VStr env_value) =>
      when (contains "secrets." env_value)
        (when (existsb (fun keyword => contains keyword (lower env_name))
                 ["url"; "endpoint"; "host"])
           (_add_issue file_path job_name step_name "secrets_in_environment"))
  | _ => ret tt
  end.

(** [any(var in key for var in vars)] *)
Fixpoint any_in (vars : list string) (key : value) : outcome bool :=
  match vars with
  | [] => Ok false
  | var :: rest =>
      match contains_str var key with
      | Ok true => Ok true
      | Ok false => any_in rest key
      | Raise e => Raise e
      end
  end.

Definition check_artifact (file_path job_name : string) (step_name uses step_config : value)
  : M (list issue) unit :=
  u <- lift (as_str uses "startswith") ;;
  when (startswith u "actions/upload-artifact")
    (with_config <- lift (get step_config "with" (VDict [])) ;;
     has <- lift (contains_str "retention-days" with_config) ;;
     when (negb has)
       (_add_issue file_path job_name step_name "artifact_upload_no_retention")).

Definition check_cache (file_path job_name : string) (step_name uses step_config : value)
  : M (list issue) unit :=
  u <- lift (as_str uses "startswith") ;;
  when (startswith u "actions/cache")
    (with_config <- lift (get step_config "with" (VDict [])) ;;
     key <- lift (get with_config "key" (VStr EmptyString)) ;;
     when (truthy key)
       (dynamic <- lift (any_in ["${{"; "hashFiles"; "runner.os"] key) ;;
        when (negb dynamic)
          (_add_issue file_path job_name step_name "cache_key_predictable"))).

Definition _scan_step (file_path job_name : string) (step_index : Z)
    (step_config : value) : M (list issue) unit :=
  step_name <- lift (get step_config "name"
                       (VStr ("step-" ++ str_int step_index)%string)) ;;
  uses <- lift (get step_config "uses" (VStr EmptyString)) ;;
  check_pin file_path job_name step_name uses ;;
  run_command <- lift (get step_config "run" (VStr EmptyString)) ;;
  check_injection file_path job_name step_name run_command ;;
  env <- lift (get step_config "env" (VDict [])) ;;
  entries <- lift (items env) ;;
  for_each entries (scan_env file_path job_name step_name) ;;
  check_artifact file_path job_name step_name uses step_config ;;
  check_cache file_path job_name step_name uses step_config.

Definition _scan_job (file_path job_name : string) (job_config : value)
  : M (list issue) unit :=
  permissions <- lift (get job_config "permissions" (VDict [])) ;;
  match permissions with
  | VDict d =>
      let write_perms := filter (fun kv => eq_str (snd kv) "write") d in
      when (3 <? List.length write_perms)%nat
        (_add_issue file_path job_name (VStr "permissions") "write_permissions_broad")
  | _ => ret tt
  end ;;
  runs_on <- lift (get job_config "runs-on" (VStr EmptyString)) ;;
  match runs_on with
  | VStr s =>
      when (contains "self-hosted" s)
        (_add_issue file_path job_name (VStr "runner") "self_hosted_runner")
  | _ => ret tt
  end ;;
  steps <- lift (get job_config "steps" (VList [])) ;;
  ss <- lift (iter steps) ;;
  for_each (enumerate ss)
    (fun ist => match ist with
                | (i, step_config) => _scan_step file_path job_name i step_config
                end).

(** The issue appended by the [except Exception as e] branch. *)
Definition parse_error_issue (file_path : string) (e : exn) : issue :=
  {| file := file_path;
     job := "N/A";
     step := VStr "N/A";
     rule := "parse_error";
     severity := "high";
     description := TextExn "Failed to parse workflow file: " e;
     recommendation := "Fix YAML syntax errors in workflow file" |}.

(** [scan_workflow_file]; [loaded] is what opening the file and
    [yaml.safe_load] give: the document, or the exception they raise. *)
Definition scan_workflow_file (file_path : string) (loaded : outcome value)
  : M (list issue) unit :=
  try_except
    (workflow_data <- lift loaded ;;
     if negb (truthy workflow_data) then ret tt
     else
       triggers <- lift (get workflow_data "on" (VDict [])) ;;
       _check_triggers file_path triggers ;;
       jobs <- lift (get workflow_data "jobs" (VDict [])) ;;
       js <- lift (items jobs) ;;
       for_each js (fun jc => match jc with
                              | (job_name, job_config) =>
                                  _scan_job file_path job_name job_config
                              end))
    (fun e => modify (fun issues => issues ++ [parse_error_issue file_path e])).

(** [scan_workflows_directory]; [workflow_files] is the list the two globs
    give, each path with what loading it gives. *)
Definition scan_workflows_directory (workflow_files : list (string * outcome value))
  : M (list issue) unit :=
  for_each workflow_files
    (fun wf => match wf with
               | (workflow_file, loaded) => scan_workflow_file workflow_file loaded
               end).

(** *** Vocabulary of the properties *)

Definition summary_of (i : issue) : string * value * string * string :=
  (job i, step i, rule i, severity i).

Definition pin_rule : string := "third_party_action_no_pin".

(** The findings of the version-pinning rule among [l]. *)
Definition pin_findings (l : list issue) : list issue :=
  filter (fun i => String.eqb (rule i) pin_rule) l.

(** [step_config.get('name', f'step-{step_index}')] for a mapping [d] *)
Definition step_name_of (step_index : Z) (d : list (string * value)) : value :=
  match lookup "name" d with
  | Some x => x
  | None => VStr ("step-" ++ str_int step_index)%string
  end.

(** A finding of another rule. *)
Definition other_rule (i : issue) : Prop := rule i <> pin_rule.

(** A hexadecimal digit, in either case. *)
Definition is_hex_digit (c : ascii) : bool :=
  has_char c "0123456789abcdefABCDEF".

(** One of the ten digits. *)
Definition is_decimal_digit (c : ascii) : bool :=
  has_char c "0123456789".

(** A pinned version, in the words of the rule: 40 hexadecimal digits, or a
    text that begins with [v] or a digit. *)
Definition pinned_version (v : string) : bool :=
  ((String.length v =? 40)%nat && all_chars is_hex_digit v)
  || startswith v "v"
  || match v with
     | String c _ => is_decimal_digit c
     | EmptyString => false
     end.

(** A workflow with one job, on a self-hosted runner, whose only step uses
    the action [uses]. *)
Definition workflow_using (uses : string) : value :=
  VDict [("name", VStr "ci");
         ("jobs", VDict [("build", VDict [("runs-on", VStr "self-hosted");
                                          ("steps", VList [VDict [("uses", VStr uses)]])])])].

(** *** The results of a scan *)

(** The dictionary [_get_summary] returns. *)
Record severity_counts : Type := mk_counts {
  critical : Z;
  high : Z;
  medium : Z;
  low : Z
}.

(** Body of [for issue in self.issues]:
    [if severity in summary: summary[severity] += 1]. *)
Definition count_issue (summary : severity_counts) (i : issue) : severity_counts :=
  if String.eqb (severity i) "critical" then
    mk_counts (critical summary + 1) (high summary) (medium summary) (low summary)
  else if String.eqb (severity i) "high" then
    mk_counts (critical summary) (high summary + 1) (medium summary) (low summary)
  else if String.eqb (severity i) "medium" then
    mk_counts (critical summary) (high summary) (medium summary + 1) (low summary)
  else if String.eqb (severity i) "low" then
    mk_counts (critical summary) (high summary) (medium summary) (low summary + 1)
  else summary.

Definition _get_summary (issues : list issue) : severity_counts :=
  fold_left count_issue issues (mk_counts 0 0 0 0).

(** The dictionary [get_results] returns; its [timestamp] is the wall
    clock and is left out. *)
Record results : Type := mk_results {
  tool : string;
  total_issues : Z;
  issues : list issue;
  summary : severity_counts
}.

Definition get_results (self_issues : list issue) : results :=
  {| tool := "GitHub Actions Security Scanner";
     total_issues := Z.of_nat (List.length self_issues);
     issues := self_issues;
     summary := _get_summary self_issues |}.

(** The rules of the catalogue with their severities, and the entry of the
    exception handler. *)
Definition catalogue : list (string * string) :=
  map (fun entry => (fst entry, rule_severity (snd entry))) security_rules
  ++ [("parse_error", "high")].

(** An issue of the catalogue. *)
Definition catalogued (i : issue) : Prop := In (rule i, severity i) catalogue.

(** The rules a step can be flagged with. *)
Definition step_rules : list string :=
  ["third_party_action_no_pin"; "script_injection"; "secrets_in_environment";
   "artifact_upload_no_retention"; "cache_key_predictable"].

(** An issue of a step rule, with the severity of the catalogue. *)
Definition step_issue (i : issue) : Prop :=
  In (rule i) step_rules /\ catalogued i.

(** The findings of rule [rule_name] among [l]. *)
Definition findings_of (rule_name : string) (l : list issue) : list issue :=
  filter (fun i => String.eqb (rule i) rule_name) l.

(** The issues a summary counts. *)
Definition sum_counts (c : severity_counts) : Z :=
  critical c + high c + medium c + low c.

(** The issues the scan of one file gives on its own. *)
Definition issues_of_file (wf : string * outcome value) : list issue :=
  snd (scan_workflow_file (fst wf) (snd wf) []).

(** [any(context in run_command for context in dangerous_contexts)] *)
Definition has_dangerous_context (run_command : string) : bool :=
  existsb (fun context => contains context run_command) dangerous_contexts.

(** A cache key with one of the tokens that make it count as dynamic. *)
Definition is_dynamic_key (key : string) : bool :=
  contains "${{" key || contains "hashFiles" key || contains "runner.os" key.

(** The entries of a [permissions] mapping that grant [write]. *)
Definition write_perms (permissions : list (string * value)) : list (string * value) :=
  filter (fun kv => eq_str (snd kv) "write") permissions.

Definition permissions_rule : string := "write_permissions_broad".

(** A finding of another rule than [write_permissions_broad]. *)
Definition not_permissions (i : issue) : Prop := rule i <> permissions_rule.

(** Two workflow files: one that loads, one that does not. *)
Definition two_files : list (string * outcome value) :=
  [("ci.yml", Ok (workflow_using "actions/checkout@main"));
   ("broken.yml", Raise (LoadError "mapping values are not allowed here"))].

End Actions.

(* ===================================================================== *)
(** ** Severity mappings of the report generators *)
(* ===================================================================== *)

Module Adapters.
Import PyStr Py.

(** [self.summary] of a report generator. *)
Record summary : Type := mk_summary {
  critical : Z;
  high : Z;
  medium : Z;
  low : Z;
  info : Z;
  total : Z
}.

Inductive level : Type := Critical | High | Medium | Low | Info.

(** [self.summary[l] += 1; self.summary['total'] += 1] *)
Definition count (l : level) (s : summary) : summary :=
  match l with
  | Critical => mk_summary (critical s + 1) (high s) (medium s) (low s) (info s) (total s + 1)
  | High => mk_summary (critical s) (high s + 1) (medium s) (low s) (info s) (total s + 1)
  | Medium => mk_summary (critical s) (high s) (medium s + 1) (low s) (info s) (total s + 1)
  | Low => mk_summary (critical s) (high s) (medium s) (low s + 1) (info s) (total s + 1)
  | Info => mk_summary (critical s) (high s) (medium s) (low s) (info s + 1) (total s + 1)
  end.

(** generate-dependency-report.py *)
Module Dependency.

Definition mapping : list (string * string) :=
  [("CRITICAL", "critical"); ("HIGH", "high"); ("MODERATE", "medium"); ("LOW", "low")].

(** [mapping.get(severity.upper(), 'medium')] *)
Definition _map_osv_severity (severity : value) : outcome string :=
  match as_str severity "upper" with
  | Ok s => Ok (match lookup (upper s) mapping with Some x => x | None => "medium" end)
  | Raise e => Raise e
  end.

(** The branch [_update_summary] takes. *)
Definition bucket (severity : string) : level :=
  let severity_lower := lower severity in
  if String.eqb severity_lower "critical" then Critical
  else if String.eqb severity_lower "high" then High
  else if existsb (String.eqb severity_lower) ["medium"; "moderate"] then Medium
  else if String.eqb severity_lower "low" then Low
  else Info.

Definition _update_summary (severity : string) (s : summary) : summary :=
  count (bucket severity) s.

End Dependency.

(** generate-iac-report.py *)
Module IaC.

Definition mapping : list (string * string) :=
  [("CRITICAL", "critical"); ("HIGH", "high"); ("MEDIUM", "medium"); ("LOW", "low");
   ("INFO", "info")].

(** [mapping.get(severity.upper(), 'medium')] *)
Definition _map_checkov_severity (severity : value) : outcome string :=
  match as_str severity "upper" with
  | Ok s => Ok (match lookup (upper s) mapping with Some x => x | None => "medium" end)
  | Raise e => Raise e
  end.

Definition bucket (severity : string) : level :=
  let severity_lower := lower severity in
  if String.eqb severity_lower "critical" then Critical
  else if String.eqb severity_lower "high" then High
  else if String.eqb severity_lower "medium" then Medium
  else if String.eqb severity_lower "low" then Low
  else Info.

Definition _update_summary (severity : string) (s : summary) : summary :=
  count (bucket severity) s.

End IaC.

(** generate-dast-report.py *)
Module DAST.

Definition mapping : list (string * string) :=
  [("critical", "Critical"); ("high", "High"); ("medium", "Medium"); ("low", "Low");
   ("info", "Informational")].

(** [mapping.get(severity.lower(), 'Unknown')] *)
Definition _map_nuclei_severity (severity : value) : outcome string :=
  match as_str severity "lower" with
  | Ok s => Ok (match lookup (lower s) mapping with Some x => x | None => "Unknown" end)
  | Raise e => Raise e
  end.

Definition bucket (risk : string) : level :=
  let risk_lower := lower risk in
  if contains "critical" risk_lower then Critical
  else if contains "high" risk_lower then High
  else if contains "medium" risk_lower then Medium
  else if contains "low" risk_lower then Low
  else Info.

Definition _update_summary (risk : string) (s : summary) : summary :=
  count (bucket risk) s.

End DAST.

End Adapters.

(* ===================================================================== *)
(** ** Ranking of the findings in the reports *)
(* ===================================================================== *)

(** The keys the report generators sort their findings by, highest first. *)
Module Ranking.
Import PyStr Py Adapters.

(** generate-dependency-report.py *)
Module Dependency.

Definition priorities : list (string * Z) :=
  [("critical", 5%Z); ("high", 4%Z); ("medium", 3%Z); ("moderate", 3%Z);
   ("low", 2%Z); ("info", 1%Z)].

(** [priorities.get(severity.lower(), 0)] *)
Definition _get_severity_priority (severity : value) : outcome Z :=
  match as_str severity "lower" with
  | Ok s => Ok (match lookup (lower s) priorities with Some p => p | None => 0%Z end)
  | Raise e => Raise e
  end.

End Dependency.

(** generate-iac-report.py *)
Module IaC.

Definition priorities : list (string * Z) :=
  [("critical", 5%Z); ("high", 4%Z); ("medium", 3%Z); ("low", 2%Z); ("info", 1%Z)].

(** [priorities.get(severity.lower(), 0)] *)
Definition _get_severity_priority (severity : value) : outcome Z :=
  match as_str severity "lower" with
  | Ok s => Ok (match lookup (lower s) priorities with Some p => p | None => 0%Z end)
  | Raise e => Raise e
  end.

End IaC.

(** generate-dast-report.py *)
Module DAST.

Definition priorities : list (string * Z) :=
  [("critical", 5%Z); ("high", 4%Z); ("medium", 3%Z); ("low", 2%Z);
   ("informational", 1%Z); ("info", 1%Z)].

(** [priorities.get(risk.lower(), 0)] *)
Definition _get_risk_priority (risk : value) : outcome Z :=
  match as_str risk "lower" with
  | Ok s => Ok (match lookup (lower s) priorities with Some p => p | None => 0%Z end)
  | Raise e => Raise e
  end.

End DAST.

(** *** Vocabulary of the properties *)

(** The rank the generators give a level. *)
Definition rank (l : level) : Z :=
  match l with
  | Critical => 5
  | High => 4
  | Medium => 3
  | Low => 2
  | Info => 1
  end.

(** The level a severity names, whatever its case. *)
Definition named_level (severity : string) : level :=
  let s := lower severity in
  if String.eqb s "critical" then Critical
  else if String.eqb s "high" then High
  else if String.eqb s "medium" then Medium
  else if String.eqb s "low" then Low
  else Info.

(** The severities of OSV and the levels they name. *)
Definition osv_names : list (string * level) :=
  [("CRITICAL", Critical); ("HIGH", High); ("MODERATE", Medium); ("LOW", Low)].

(** The severities of Checkov and the levels they name. *)
Definition checkov_names : list (string * level) :=
  [("CRITICAL", Critical); ("HIGH", High); ("MEDIUM", Medium); ("LOW", Low);
   ("INFO", Info)].

(** The level [name] names in [levels], [default] when it names none. *)
Definition level_in (levels : list (string * level)) (name : string) (default : level)
  : level :=
  match lookup name levels with
  | Some l => l
  | None => default
  end.

End Ranking.

(* ===================================================================== *)
(** ** generate-dependency-report.py: the NPM and OSV adapters *)
(* ===================================================================== *)

Module DependencyReport.
Import PyStr Py Adapters.
Local Open Scope py_scope.

(** One entry of [self.vulnerabilities]. *)
Record vulnerability : Type := mk_vulnerability {
  tool : string;
  type : string;
  package : value;
  severity : value;
  title : value;
  description : value;
  recommendation : value;
  reference : value;
  versions : value;
  patched_versions : value;
  module : value
}.

(** The fields of a [DependencyReportGenerator]; [modules_scanned] is a
    set, kept as the list of its elements in the order they came in. *)
Record generator : Type := mk_generator {
  vulnerabilities : list vulnerability;
  summary : Adapters.summary;
  modules_scanned : list value
}.

(** [__init__] *)
Definition new_generator : generator :=
  mk_generator [] (mk_summary 0 0 0 0 0 0) [].

(** [self.vulnerabilities.append(v)] *)
Definition append_vulnerability (v : vulnerability) : M generator unit :=
  modify (fun g => mk_generator (vulnerabilities g ++ [v]) (summary g) (modules_scanned g)).

(** [self._update_summary(severity)]: [severity.lower()], then the count. *)
Definition _update_summary (severity : value) : M generator unit :=
  s <- lift (as_str severity "lower") ;;
  modify (fun g => mk_generator (vulnerabilities g)
                     (Adapters.Dependency._update_summary s (summary g))
                     (modules_scanned g)).

(** Lists and mappings cannot be set elements. *)
Definition hashable (v : value) : bool :=
  match v with
  | VList _ | VDict _ => false
  | _ => true
  end.

(** [a == b] for set elements; a boolean is equal to 0 or 1. *)
Definition key_eqb (a b : value) : bool :=
  match a, b with
  | VNone, VNone => true
  | VStr s, VStr t => String.eqb s t
  | VInt x, VInt y => (x =? y)%Z
  | VBool x, VBool y => Bool.eqb x y
  | VBool x, VInt y => ((if x then 1 else 0) =? y)%Z
  | VInt x, VBool y => (x =? (if y then 1 else 0))%Z
  | _, _ => false
  end.

(** [self.modules_scanned.add(m)] *)
Definition add_module (m : value) : M generator unit :=
  if hashable m then
    modify (fun g =>
      if existsb (key_eqb m) (modules_scanned g) then g
      else mk_generator (vulnerabilities g) (summary g) (modules_scanned g ++ [m]))
  else raise (TypeError (type_name m)).

(** [os.path.basename(path)]: the text after the last [/]. *)
Definition basename (path : string) : string :=
  last (split "/" path) EmptyString.

(** [s.replace(old, '')] for a non-empty [old]: [s] without the
    occurrences of [old], taken from the left; [skip] characters of an
    occurrence are still to be dropped. *)
Fixpoint remove_from (old : string) (skip : nat) (s : string) : string :=
  match s with
  | EmptyString => EmptyString
  | String c t =>
      match skip with
      | S k => remove_from old k t
      | O => if String.prefix old s
             then remove_from old (String.length old - 1) t
             else String c (remove_from old 0 t)
      end
  end.

Definition remove (old s : string) : string := remove_from old 0 s.

(** [os.path.basename(audit_dir).replace('npm-audit-', '')] *)
Definition module_of (audit_dir : string) : string :=
  remove "npm-audit-" (basename audit_dir).

(** Body of [for package, vuln_data in data['vulnerabilities'].items()]. *)
Definition npm_vulnerability (audit_dir package : string) (vuln_data : value)
  : M generator unit :=
  listed <- lift (get vuln_data "severity" VNone) ;;
  when (existsb (eq_str listed) ["moderate"; "high"; "critical"])
    (sev <- lift (get vuln_data "severity" (VStr "unknown")) ;;
     ttl <- lift (get vuln_data "title" (VStr ("Vulnerability in " ++ package)%string)) ;;
     overview <- lift (get vuln_data "overview" (VStr EmptyString)) ;;
     rec <- lift (get vuln_data "recommendation" (VStr EmptyString)) ;;
     url <- lift (get vuln_data "url" (VStr EmptyString)) ;;
     range <- lift (get vuln_data "range" (VStr EmptyString)) ;;
     patched <- lift (get vuln_data "patched_versions" (VStr EmptyString)) ;;
     let vuln :=
       {| tool := "NPM Audit";
          type := "Dependency";
          package := VStr package;
          severity := sev;
          title := ttl;
          description := overview;
          recommendation := rec;
          reference := url;
          versions := range;
          patched_versions := patched;
          module := VStr (module_of audit_dir) |} in
     append_vulnerability vuln ;;
     _update_summary (severity vuln) ;;
     add_module (module vuln)).

(** Body of [for audit_file in glob.glob(...)], with its [try]/[except]. *)
Definition parse_npm_audit_file (audit_dir : string) (loaded : outcome value)
  : M generator unit :=
  try_except
    (data <- lift loaded ;;
     has <- lift (contains_str "vulnerabilities" data) ;;
     when has
       (vulns <- lift (subscript data "vulnerabilities") ;;
        entries <- lift (items vulns) ;;
        for_each entries
          (fun entry => npm_vulnerability audit_dir (fst entry) (snd entry))))
    (fun _ => ret tt).

(** [parse_npm_audit_results]; [audit_dirs] is what the glob over the
    directories gives, each directory with its [*.json] files and what
    [json.load] gives for each. *)
Definition parse_npm_audit_results
    (audit_dirs : list (string * list (string * outcome value))) : M generator unit :=
  for_each audit_dirs
    (fun dir => for_each (snd dir)
                  (fun audit_file => parse_npm_audit_file (fst dir) (snd audit_file))).

(** [v[0]] *)
Definition first_item (v : value) : outcome value :=
  match v with
  | VList (x :: _) => Ok x
  | VList [] => Raise IndexError
  | VStr (String c _) => Ok (VStr (String c EmptyString))
  | VStr EmptyString => Raise IndexError
  | VDict _ => Raise (KeyError "0")
  | _ => Raise (TypeError (type_name v))
  end.

(** Body of [for vuln in package.get('vulnerabilities', [])]. *)
Definition osv_vulnerability (result pkg vuln : value) : M generator unit :=
  p <- lift (get pkg "package" (VDict [])) ;;
  name <- lift (get p "name" (VStr "unknown")) ;;
  specific <- lift (get vuln "database_specific" (VDict [])) ;;
  raw <- lift (get specific "severity" (VStr "MODERATE")) ;;
  sev <- lift (Adapters.Dependency._map_osv_severity raw) ;;
  id <- lift (get vuln "id" (VStr EmptyString)) ;;
  ttl <- lift (get vuln "summary" id) ;;
  details <- lift (get vuln "details" (VStr EmptyString)) ;;
  refs <- lift (get vuln "references" VNone) ;;
  url <- (if truthy refs then
            refs' <- lift (get vuln "references" (VList [VDict []])) ;;
            ref <- lift (first_item refs') ;;
            lift (get ref "url" (VStr EmptyString))
          else ret (VStr EmptyString)) ;;
  p' <- lift (get pkg "package" (VDict [])) ;;
  version <- lift (get p' "version" (VStr EmptyString)) ;;
  source <- lift (get result "source" (VDict [])) ;;
  path <- lift (get source "path" (VStr "unknown")) ;;
  let vulnerability :=
    {| tool := "OSV Scanner";
       type := "Dependency";
       package := name;
       severity := VStr sev;
       title := ttl;
       description := details;
       recommendation := VStr "Update to a patched version";
       reference := url;
       versions := version;
       patched_versions := VStr "See reference for details";
       module := path |} in
  append_vulnerability vulnerability ;;
  _update_summary (severity vulnerability) ;;
  add_module (module vulnerability).

(** Body of [for package in result.get('packages', [])]. *)
Definition osv_package (result pkg : value) : M generator unit :=
  vulns <- lift (get pkg "vulnerabilities" (VList [])) ;;
  vs <- lift (iter vulns) ;;
  for_each vs (osv_vulnerability result pkg).

(** Body of [for result in data.get('results', [])]. *)
Definition osv_result (result : value) : M generator unit :=
  packages <- lift (get result "packages" (VList [])) ;;
  ps <- lift (iter packages) ;;
  for_each ps (osv_package result).

(** [parse_osv_results]; [osv_file] is [None] when [osv-results.json] does
    not exist, otherwise what [json.load] gives. *)
Definition parse_osv_results (osv_file : option (outcome value)) : M generator unit :=
  try_except
    (match osv_file with
     | None => ret tt
     | Some loaded =>
         data <- lift loaded ;;
         results <- lift (get data "results" (VList [])) ;;
         rs <- lift (iter results) ;;
         for_each rs osv_result
     end)
    (fun _ => ret tt).

(** *** Vocabulary of the properties *)

(** What the NPM adapter does to a generator: it appends vulnerabilities
    of the tool, each with one of the three severities it keeps and counted
    once, and counts nothing under low or info. *)
Definition npm_step (g g' : generator) : Prop :=
  exists added,
    vulnerabilities g' = vulnerabilities g ++ added /\
    Forall (fun v => tool v = "NPM Audit" /\
                     In (severity v) [VStr "moderate"; VStr "high"; VStr "critical"])
           added /\
    total (summary g') = (total (summary g) + Z.of_nat (List.length added))%Z /\
    low (summary g') = low (summary g) /\
    info (summary g') = info (summary g).

(** What the OSV adapter does to a generator: it appends vulnerabilities
    of the tool, each with one of the four severities of the mapping and
    counted once, and counts nothing under info. *)
Definition osv_step (g g' : generator) : Prop :=
  exists added,
    vulnerabilities g' = vulnerabilities g ++ added /\
    Forall (fun v => tool v = "OSV Scanner" /\
                     In (severity v) [VStr "critical"; VStr "high"; VStr "medium"; VStr "low"])
           added /\
    total (summary g') = (total (summary g) + Z.of_nat (List.length added))%Z /\
    info (summary g') = info (summary g).

(** An NPM audit directory with one file: a low, a moderate and a critical
    vulnerability. *)
Definition sample_audit : list (string * list (string * outcome value)) :=
  [("artifacts/npm-audit-core",
    [("artifacts/npm-audit-core/audit.json",
      Ok (VDict [("vulnerabilities",
                  VDict [("debug", VDict [("severity", VStr "low")]);
                         ("minimist", VDict [("severity", VStr "moderate")]);
                         ("lodash", VDict [("severity", VStr "critical");
                                           ("title", VStr "Prototype Pollution")])])]))])].

End DependencyReport.

(* ===================================================================== *)
(** ** security-quality-gate.py *)
(* ===================================================================== *)

Module Gate.
Import PyStr Py.
Local Open Scope py_scope.
Local Open Scope Z_scope.

(** *** The configuration document

    [self.config] is the gate configuration loaded from YAML.  Each key the
    script reads is a field; [None] is a key missing from the document, the
    case [dict.get] covers with its default and [dict[...]] answers with
    [KeyError].  The fields have the types the script expects of them;
    [GateDoc] below is the script on every document, and
    [GateDocFacts.run_all_checks_refines] shows that the two agree on the
    documents these records describe. *)

Record ToolConfig : Type := mk_tool {
  enabled : option bool;
  fail_on_critical : option bool;
  fail_on_high : option bool;
  max_issues : option Z;
  max_critical : option Z;
  max_high : option Z
}.

Record CategoryConfig : Type := mk_category {
  category_enabled : option bool;
  tools : option (list (string * ToolConfig))
}.

Record Scoring : Type := mk_scoring {
  scoring_critical : option Z;
  scoring_high : option Z;
  scoring_medium : option Z;
  scoring_low : option Z;
  scoring_info : option Z
}.

Record DebtConfig : Type := mk_debt {
  scoring : option Scoring;
  max_total_debt : option Z
}.

Record GlobalConfig : Type := mk_global {
  global_fail_on_critical : option bool;
  fail_on_high_threshold : option Z
}.

Record Config : Type := mk_config {
  sast : option CategoryConfig;
  dependencies : option CategoryConfig;
  containers : option CategoryConfig;
  iac : option CategoryConfig;
  secrets : option CategoryConfig;
  security_debt_config : option DebtConfig;
  global : option GlobalConfig
}.

(** [d.get(k, default)] on a field *)
Definition get_or {A : Type} (o : option A) (default : A) : A :=
  match o with Some a => a | None => default end.

(** *** The result files the checks read *)

Record Inputs : Type := mk_inputs {
  (** [eslint-security-results.json]: [None] when the file does not exist,
      otherwise what [json.load] gives *)
  eslint_results : option (outcome value);
  (** the [npm-audit-*.json] files [os.walk] finds, each with what
      [json.load] gives *)
  audit_files : list (string * outcome value)
}.

(** *** [self.results] *)

(** An entry of [failed_gates] / [passed_gates]; its [timestamp] is the
    wall clock and is left out. *)
Record gate_entry : Type := mk_gate {
  gate : string;
  reason : string
}.

Record results : Type := mk_results {
  passed : bool;
  total_issues : Z;
  critical_issues : Z;
  high_issues : Z;
  medium_issues : Z;
  low_issues : Z;
  security_debt : Z;
  failed_gates : list gate_entry;
  passed_gates : list gate_entry;
  exempted_issues : Z
}.

(** [__init__] *)
Definition initial_results : results :=
  {| passed := true;
     total_issues := 0;
     critical_issues := 0;
     high_issues := 0;
     medium_issues := 0;
     low_issues := 0;
     security_debt := 0;
     failed_gates := [];
     passed_gates := [];
     exempted_issues := 0 |}.

Definition _fail_gate (gate_name reason : string) : M results unit :=
  modify (fun r =>
    {| passed := false;
       total_issues := total_issues r;
       critical_issues := critical_issues r;
       high_issues := high_issues r;
       medium_issues := medium_issues r;
       low_issues := low_issues r;
       security_debt := security_debt r;
       failed_gates := failed_gates r ++ [mk_gate gate_name reason];
       passed_gates := passed_gates r;
       exempted_issues := exempted_issues r |}).

Definition _pass_gate (gate_name reason : string) : M results unit :=
  modify (fun r =>
    {| passed := passed r;
       total_issues := total_issues r;
       critical_issues := critical_issues r;
       high_issues := high_issues r;
       medium_issues := medium_issues r;
       low_issues := low_issues r;
       security_debt := security_debt r;
       failed_gates := failed_gates r;
       passed_gates := passed_gates r ++ [mk_gate gate_name reason];
       exempted_issues := exempted_issues r |}).

(** [self.results['critical_issues'] += n] *)
Definition add_critical (n : Z) : M results unit :=
  modify (fun r =>
    {| passed := passed r;
       total_issues := total_issues r;
       critical_issues := critical_issues r + n;
       high_issues := high_issues r;
       medium_issues := medium_issues r;
       low_issues := low_issues r;
       security_debt := security_debt r;
       failed_gates := failed_gates r;
       passed_gates := passed_gates r;
       exempted_issues := exempted_issues r |}).

(** [self.results['high_issues'] += n] *)
Definition add_high (n : Z) : M results unit :=
  modify (fun r =>
    {| passed := passed r;
       total_issues := total_issues r;
       critical_issues := critical_issues r;
       high_issues := high_issues r + n;
       medium_issues := medium_issues r;
       low_issues := low_issues r;
       security_debt := security_debt r;
       failed_gates := failed_gates r;
       passed_gates := passed_gates r;
       exempted_issues := exempted_issues r |}).

(** [self.results['security_debt'] = debt] *)
Definition set_security_debt (debt : Z) : M results unit :=
  modify (fun r =>
    {| passed := passed r;
       total_issues := total_issues r;
       critical_issues := critical_issues r;
       high_issues := high_issues r;
       medium_issues := medium_issues r;
       low_issues := low_issues r;
       security_debt := debt;
       failed_gates := failed_gates r;
       passed_gates := passed_gates r;
       exempted_issues := exempted_issues r |}).

(** *** Reading the configuration *)

(** [self.config.get(cat, {}).get('enabled', True)] *)
Definition is_enabled (c : option CategoryConfig) : bool :=
  match c with
  | Some c => get_or (category_enabled c) true
  | None => true
  end.

(** [self.config[cat].get('tools', {})] *)
Definition tools_of (cat : string) (c : option CategoryConfig)
  : outcome (list (string * ToolConfig)) :=
  match c with
  | Some c => Ok (get_or (tools c) [])
  | None => Raise (KeyError cat)
  end.

(** [tools.get(name, {}).get('enabled', True)] *)
Definition tool_enabled (ts : list (string * ToolConfig)) (name : string) : bool :=
  match lookup name ts with
  | Some t => get_or (enabled t) true
  | None => true
  end.

(** [self.config[cat]['tools'][name]] *)
Definition tool_config (cat : string) (c : option CategoryConfig) (name : string)
  : outcome ToolConfig :=
  match c with
  | None => Raise (KeyError cat)
  | Some c =>
      match tools c with
      | None => Raise (KeyError "tools")
      | Some ts =>
          match lookup name ts with
          | Some t => Ok t
          | None => Raise (KeyError name)
          end
      end
  end.

(** *** SAST checks *)

(** The inner loop of [_check_eslint_security]:
    [for message in result.get('messages', [])]. *)
Fixpoint count_messages (messages : list value) (high_count : Z) : outcome Z :=
  match messages with
  | [] => Ok high_count
  | message :: rest =>
      match get message "severity" (VInt 1) with
      | Ok severity =>
          count_messages rest (if eq_int severity 2 then high_count + 1 else high_count)
      | Raise e => Raise e
      end
  end.

(** The outer loop: [for result in data]. *)
Fixpoint count_results (rs : list value) (high_count : Z) : outcome Z :=
  match rs with
  | [] => Ok high_count
  | result :: rest =>
      match get result "messages" (VList []) with
      | Ok messages =>
          match iter messages with
          | Ok ms =>
              match count_messages ms high_count with
              | Ok n => count_results rest n
              | Raise e => Raise e
              end
          | Raise e => Raise e
          end
      | Raise e => Raise e
      end
  end.

Definition _check_eslint_security (cfg : Config) (inp : Inputs) : M results unit :=
  match eslint_results inp with
  | None => ret tt
  | Some loaded =>
      try_except
        (data <- lift loaded ;;
         let critical_count := 0 in
         rs <- lift (iter data) ;;
         high_count <- lift (count_results rs 0) ;;
         config <- lift (tool_config "sast" (sast cfg) "eslint_security") ;;
         let gate_name := "ESLint Security" in
         (if get_or (fail_on_critical config) false && (0 <? critical_count) then
            _fail_gate gate_name
              ("Critical issues found: " ++ str_int critical_count)%string
          else if get_or (fail_on_high config) false && (0 <? high_count) then
            _fail_gate gate_name
              ("High severity issues found: " ++ str_int high_count)%string
          else if get_or (max_issues config) 0 <? high_count then
            _fail_gate gate_name
              ("Issues exceed threshold: " ++ str_int high_count ++ " > "
                 ++ str_int (get_or (max_issues config) 0))%string
          else
            _pass_gate gate_name
              ("Issues within threshold: " ++ str_int high_count)%string) ;;
         add_high high_count)
        (fun _ => ret tt)
  end.

Definition _check_semgrep : M results unit :=
  _pass_gate "Semgrep" "No critical issues found".

Definition _check_codeql : M results unit :=
  _pass_gate "CodeQL" "No critical issues found".

Definition _check_sonarcloud : M results unit :=
  _pass_gate "SonarCloud" "Quality gate passed".

Definition check_sast_gates (cfg : Config) (inp : Inputs) : M results unit :=
  if negb (is_enabled (sast cfg)) then ret tt
  else
    sast_tools <- lift (tools_of "sast" (sast cfg)) ;;
    when (tool_enabled sast_tools "eslint_security") (_check_eslint_security cfg inp) ;;
    when (tool_enabled sast_tools "semgrep") _check_semgrep ;;
    when (tool_enabled sast_tools "codeql") _check_codeql ;;
    when (tool_enabled sast_tools "sonarcloud") _check_sonarcloud.

(** *** Dependency checks *)

(** Body of [for package, vuln_data in vulnerabilities.items()]; the state is
    the pair of locals [(total_critical, total_high)]. *)
Definition count_vulnerability (entry : string * value) : M (Z * Z) unit :=
  sev <- lift (get (snd entry) "severity" (VStr EmptyString)) ;;
  s <- lift (as_str sev "lower") ;;
  let severity := lower s in
  if String.eqb severity "critical" then
    modify (fun t => (fst t + 1, snd t))
  else if String.eqb severity "high" then
    modify (fun t => (fst t, snd t + 1))
  else ret tt.

(** Body of [for audit_file in audit_files], with its [try]/[except]. *)
Definition count_audit_file (audit_file : string * outcome value) : M (Z * Z) unit :=
  try_except
    (data <- lift (snd audit_file) ;;
     vulnerabilities <- lift (get data "vulnerabilities" (VDict [])) ;;
     vs <- lift (items vulnerabilities) ;;
     for_each vs count_vulnerability)
    (fun _ => ret tt).

Definition _check_npm_audit (cfg : Config) (inp : Inputs) : M results unit :=
  match audit_files inp with
  | [] => ret tt
  | _ =>
      let totals := snd (for_each (audit_files inp) count_audit_file (0, 0)) in
      let total_critical := fst totals in
      let total_high := snd totals in
      config <- lift (tool_config "dependencies" (dependencies cfg) "npm_audit") ;;
      let gate_name := "NPM Audit" in
      (if get_or (fail_on_critical config) false
          && (get_or (max_critical config) 0 <? total_critical) then
         _fail_gate gate_name
           ("Critical vulnerabilities: " ++ str_int total_critical ++ " > "
              ++ str_int (get_or (max_critical config) 0))%string
       else if get_or (fail_on_high config) false
               && (get_or (max_high config) 0 <? total_high) then
         _fail_gate gate_name
           ("High vulnerabilities: " ++ str_int total_high ++ " > "
              ++ str_int (get_or (max_high config) 0))%string
       else
         _pass_gate gate_name
           ("Vulnerabilities within threshold: C:" ++ str_int total_critical
              ++ ", H:" ++ str_int total_high)%string) ;;
      add_critical total_critical ;;
      add_high total_high
  end.

Definition _check_snyk : M results unit :=
  _pass_gate "Snyk" "No critical vulnerabilities found".

Definition _check_osv_scanner : M results unit :=
  _pass_gate "OSV Scanner" "No critical vulnerabilities found".

Definition check_dependency_gates (cfg : Config) (inp : Inputs) : M results unit :=
  if negb (is_enabled (dependencies cfg)) then ret tt
  else
    dep_tools <- lift (tools_of "dependencies" (dependencies cfg)) ;;
    when (tool_enabled dep_tools "npm_audit") (_check_npm_audit cfg inp) ;;
    when (tool_enabled dep_tools "snyk") _check_snyk ;;
    when (tool_enabled dep_tools "osv_scanner") _check_osv_scanner.

(** *** Container, IaC and secrets checks *)

Definition _check_trivy : M results unit :=
  _pass_gate "Trivy" "No critical container vulnerabilities found".

Definition _check_grype : M results unit :=
  _pass_gate "Grype" "No critical container vulnerabilities found".

Definition check_container_gates (cfg : Config) : M results unit :=
  if negb (is_enabled (containers cfg)) then ret tt
  else
    container_tools <- lift (tools_of "containers" (containers cfg)) ;;
    when (tool_enabled container_tools "trivy") _check_trivy ;;
    when (tool_enabled container_tools "grype") _check_grype.

Definition _check_checkov : M results unit :=
  _pass_gate "Checkov" "No critical IaC issues found".

Definition _check_kics : M results unit :=
  _pass_gate "KICS" "No critical IaC issues found".

Definition _check_hadolint : M results unit :=
  _pass_gate "Hadolint" "No critical Dockerfile issues found".

Definition check_iac_gates (cfg : Config) : M results unit :=
  if negb (is_enabled (iac cfg)) then ret tt
  else
    iac_tools <- lift (tools_of "iac" (iac cfg)) ;;
    when (tool_enabled iac_tools "checkov") _check_checkov ;;
    when (tool_enabled iac_tools "kics") _check_kics ;;
    when (tool_enabled iac_tools "hadolint") _check_hadolint.

Definition _check_trufflehog : M results unit :=
  _pass_gate "TruffleHog" "No verified secrets found".

Definition check_secrets_gates (cfg : Config) : M results unit :=
  if negb (is_enabled (secrets cfg)) then ret tt
  else
    secrets_tools <- lift (tools_of "secrets" (secrets cfg)) ;;
    when (tool_enabled secrets_tools "trufflehog") _check_trufflehog.

(** *** Debt and global thresholds *)

(** [scoring.get(k, default)], where [scoring] is the configured table or,
    without one, the table of defaults. *)
Definition weight (cfg : Config) (field : Scoring -> option Z) (default : Z) : Z :=
  match security_debt_config cfg with
  | Some d =>
      match scoring d with
      | Some s => get_or (field s) default
      | None => default
      end
  | None => default
  end.

(** The sum [calculate_security_debt] computes. *)
Definition debt_of (cfg : Config) (r : results) : Z :=
  critical_issues r * weight cfg scoring_critical 50 +
  high_issues r * weight cfg scoring_high 20 +
  medium_issues r * weight cfg scoring_medium 5 +
  low_issues r * weight cfg scoring_low 1.

(** [self.config.get('security_debt', {}).get('max_total_debt', 100)] *)
Definition max_debt_of (cfg : Config) : Z :=
  match security_debt_config cfg with
  | Some d => get_or (max_total_debt d) 100
  | None => 100
  end.

Definition calculate_security_debt (cfg : Config) : M results unit :=
  debt <- read (debt_of cfg) ;;
  set_security_debt debt ;;
  let max_debt := max_debt_of cfg in
  if max_debt <? debt then
    _fail_gate "Security Debt"
      ("Total debt " ++ str_int debt ++ " exceeds maximum " ++ str_int max_debt)%string
  else
    _pass_gate "Security Debt"
      ("Total debt " ++ str_int debt ++ " within limit " ++ str_int max_debt)%string.

Definition check_global_thresholds (cfg : Config) : M results unit :=
  let fail_on_crit :=
    match global cfg with
    | Some g => get_or (global_fail_on_critical g) true
    | None => true
    end in
  critical <- read critical_issues ;;
  when (fail_on_crit && (0 <? critical))
    (_fail_gate "Global Critical Threshold"
       ("Critical issues found: " ++ str_int critical)%string) ;;
  let high_threshold :=
    match global cfg with
    | Some g => get_or (fail_on_high_threshold g) 5
    | None => 5
    end in
  high <- read high_issues ;;
  when (high_threshold <? high)
    (_fail_gate "Global High Threshold"
       ("High issues " ++ str_int high ++ " exceed threshold "
          ++ str_int high_threshold)%string).

(** [run_all_checks]: the checks in the order of the script, then the
    verdict [self.results['passed']].  The report written on the way reads
    the results and does not change them. *)
Definition run_all_checks (cfg : Config) (inp : Inputs) : M results bool :=
  check_sast_gates cfg inp ;;
  check_dependency_gates cfg inp ;;
  check_container_gates cfg ;;
  check_iac_gates cfg ;;
  check_secrets_gates cfg ;;
  calculate_security_debt cfg ;;
  check_global_thresholds cfg ;;
  read passed.

(** A run of the script, as [main] makes it: a fresh [SecurityQualityGate],
    then [run_all_checks]. *)
Definition run (cfg : Config) (inp : Inputs) : outcome bool * results :=
  run_all_checks cfg inp initial_results.

(** *** The report and the exit status *)

Definition _generate_recommendations (r : results) : list string :=
  (if 0 <? critical_issues r
   then ["Address all critical security issues immediately"] else [])
  ++ (if 5 <? high_issues r
      then ["Prioritize fixing high severity security issues"] else [])
  ++ (if 50 <? security_debt r
      then ["Implement security debt reduction plan"] else [])
  ++ (if (0 <? List.length (failed_gates r))%nat
      then ["Review and fix failed security quality gates"] else []).

(** The dictionary [generate_report] builds, writes and returns; its
    [timestamp] is the wall clock and is left out. *)
Record report : Type := mk_report {
  repository : option string;
  run_id : option string;
  pr_number : option string;
  overall_result : string;
  report_summary : results;
  recommendations : list string
}.

Definition generate_report (repo run pr : option string) (r : results) : report :=
  {| repository := repo;
     run_id := run;
     pr_number := pr;
     overall_result := if passed r then "PASSED" else "FAILED";
     report_summary := r;
     recommendations := _generate_recommendations r |}.

(** The exit status of [main]: 1 from [sys.exit(1)] when the verdict is
    false, 0 from [sys.exit(0)] when it is true, and 1 when an exception
    leaves [run_all_checks], as the interpreter does for an exception nothing
    catches.  The write of the report file is taken to succeed. *)
Definition main (cfg : Config) (inp : Inputs) : Z :=
  match fst (run cfg inp) with
  | Ok true => 0
  | Ok false => 1
  | Raise _ => 1
  end.

(** *** Vocabulary of the properties *)

(** One gate evaluation, as the checks make them. *)
Inductive evaluation : Type :=
| Passes (gate_name reason : string)
| Fails (gate_name reason : string).

Definition evaluate (ev : evaluation) : M results unit :=
  match ev with
  | Passes gate_name reason => _pass_gate gate_name reason
  | Fails gate_name reason => _fail_gate gate_name reason
  end.

Definition is_pass (ev : evaluation) : bool :=
  match ev with Passes _ _ => true | Fails _ _ => false end.

Definition no_gate (l : list gate_entry) : bool :=
  match l with [] => true | _ => false end.

(** How any part of a run changes the results: the medium and low counters
    stay, the two gate lists only grow, and the verdict is the former
    verdict unless a failed gate was added. *)
Definition evolves (r r' : results) : Prop :=
  medium_issues r' = medium_issues r /\
  low_issues r' = low_issues r /\
  (exists failed, failed_gates r' = failed_gates r ++ failed /\
                  passed r' = passed r && no_gate failed) /\
  (exists pass, passed_gates r' = passed_gates r ++ pass).

(** The counters and the debt are the same. *)
Definition same_counts (r r' : results) : Prop :=
  critical_issues r' = critical_issues r /\
  high_issues r' = high_issues r /\
  medium_issues r' = medium_issues r /\
  low_issues r' = low_issues r /\
  security_debt r' = security_debt r.

(** The checks that read no result file, each with the name of its gate. *)
Definition simulated_checks : list (M results unit * string) :=
  [ (_check_semgrep, "Semgrep"); (_check_codeql, "CodeQL");
    (_check_sonarcloud, "SonarCloud"); (_check_snyk, "Snyk");
    (_check_osv_scanner, "OSV Scanner"); (_check_trivy, "Trivy");
    (_check_grype, "Grype"); (_check_checkov, "Checkov"); (_check_kics, "KICS");
    (_check_hadolint, "Hadolint"); (_check_trufflehog, "TruffleHog") ].

(** A configuration with every category present and nothing else: every
    tool is enabled, every threshold is the default. *)
Definition all_enabled : Config :=
  let category := Some (mk_category None None) in
  mk_config category category category category category None None.

(** The same, with Trivy configured by name: enabled, failing on critical
    and high findings, no issue tolerated. *)
Definition trivy_configured : Config :=
  let category := Some (mk_category None None) in
  let strict := mk_tool (Some true) (Some true) (Some true) (Some 0) None None in
  mk_config category category
            (Some (mk_category (Some true) (Some [("trivy", strict)])))
            category category None None.

(** No result file at all. *)
Definition no_results : Inputs := mk_inputs None [].

(** A configuration with thresholds for ESLint Security and NPM Audit. *)
Definition sample_config : Config :=
  let category := Some (mk_category None None) in
  let lenient := mk_tool None None None (Some 10) None None in
  mk_config (Some (mk_category None (Some [("eslint_security", lenient)])))
            (Some (mk_category None (Some [("npm_audit", lenient)])))
            category category category None None.

(** An ESLint result file with two errors and a warning, and one NPM audit
    file with a critical and a moderate vulnerability. *)
Definition sample_results : Inputs :=
  mk_inputs
    (Some (Ok (VList [VDict [("filePath", VStr "src/index.js");
                             ("messages",
                              VList [VDict [("ruleId", VStr "security/detect-eval");
                                            ("severity", VInt 2)];
                                     VDict [("severity", VInt 1)];
                                     VDict [("severity", VInt 2)]])]])))
    [("./npm-audit-core.json",
      Ok (VDict [("vulnerabilities",
                  VDict [("lodash", VDict [("severity", VStr "critical")]);
                         ("minimist", VDict [("severity", VStr "moderate")])])]))].

(** Results with one critical and two high issues counted. *)
Definition one_critical_two_high : results :=
  {| passed := true;
     total_issues := 0;
     critical_issues := 1;
     high_issues := 2;
     medium_issues := 0;
     low_issues := 0;
     security_debt := 0;
     failed_gates := [];
     passed_gates := [];
     exempted_issues := 0 |}.

(** A message [_check_eslint_security] counts: a mapping whose [severity],
    1 when missing, is 2. *)
Definition is_error (message : value) : bool :=
  match message with
  | VDict d => eq_int (match lookup "severity" d with Some x => x | None => VInt 1 end) 2
  | _ => false
  end.

Definition is_mapping (v : value) : bool :=
  match v with VDict _ => true | _ => false end.

(** The messages of a result of the shape ESLint writes: a mapping whose
    [messages], when present, is a list of mappings. *)
Definition messages_of (result : value) : option (list value) :=
  match result with
  | VDict d =>
      match lookup "messages" d with
      | Some (VList ms) => if forallb is_mapping ms then Some ms else None
      | Some _ => None
      | None => Some []
      end
  | _ => None
  end.

(** The ESLint gate fails: [fail_on_high] with an error, or more errors
    than [max_issues]. *)
Definition eslint_fails (config : ToolConfig) (high_count : Z) : bool :=
  (get_or (fail_on_high config) false && (0 <? high_count))
  || (get_or (max_issues config) 0 <? high_count).

(** The configuration has its five category sections. *)
Definition has_all_sections (cfg : Config) : bool :=
  match sast cfg, dependencies cfg, containers cfg, iac cfg, secrets cfg with
  | Some _, Some _, Some _, Some _, Some _ => true
  | _, _, _, _, _ => false
  end.

(** A configuration without the [iac] section. *)
Definition without_iac : Config :=
  let category := Some (mk_category None None) in
  mk_config category category category None category None None.

(** The NPM audit check has what it needs: no audit file to read, or its
    entry in the configuration. *)
Definition npm_audit_ready (cfg : Config) (inp : Inputs) : bool :=
  match audit_files inp with
  | [] => true
  | _ => match tool_config "dependencies" (dependencies cfg) "npm_audit" with
         | Ok _ => true
         | Raise _ => false
         end
  end.

(** [global_config.get('fail_on_critical', True)] *)
Definition fails_on_critical (cfg : Config) : bool :=
  match global cfg with
  | Some g => get_or (global_fail_on_critical g) true
  | None => true
  end.

(** [global_config.get('fail_on_high_threshold', 5)] *)
Definition high_threshold_of (cfg : Config) : Z :=
  match global cfg with
  | Some g => get_or (fail_on_high_threshold g) 5
  | None => 5
  end.

(** What no part of a run changes, and what it only increases. *)
Definition bookkeeping (r r' : results) : Prop :=
  total_issues r' = total_issues r /\
  exempted_issues r' = exempted_issues r /\
  critical_issues r <= critical_issues r' /\
  high_issues r <= high_issues r'.

(** The two locals of [_check_npm_audit] only grow. *)
Definition totals_grow (t t' : Z * Z) : Prop :=
  fst t <= fst t' /\ snd t <= snd t'.

End Gate.

(* ===================================================================== *)
(** ** Arithmetic and comparison of Python values *)
(* ===================================================================== *)

(** The operators the gate applies to entries of its configuration, on
    every value a document can hold.  The [TypeError] of an operator carries
    the type of its right operand. *)
Module PyArith.
Import PyStr Py.
Local Open Scope Z_scope.

(** The integer a number is; a boolean is 0 or 1. *)
Definition as_int (v : value) : option Z :=
  match v with
  | VInt z => Some z
  | VBool b => Some (if b then 1 else 0)
  | _ => None
  end.

(** [a == b]: numbers by value, strings and lists element by element,
    mappings by their keys, whatever the order. *)
Fixpoint eq (a b : value) {struct a} : bool :=
  match a, b with
  | VNone, VNone => true
  | VBool x, VBool y => Bool.eqb x y
  | VBool x, VInt y => (if x then 1 else 0) =? y
  | VInt x, VBool y => x =? (if y then 1 else 0)
  | VInt x, VInt y => x =? y
  | VStr s, VStr t => String.eqb s t
  | VList l, VList m =>
      (fix all2 (l m : list value) {struct l} : bool :=
         match l, m with
         | [], [] => true
         | x :: l', y :: m' => eq x y && all2 l' m'
         | _, _ => false
         end) l m
  | VDict d, VDict e =>
      (List.length d =? List.length e)%nat &&
      (fix all_in (d : list (string * value)) {struct d} : bool :=
         match d with
         | [] => true
         | (k, x) :: d' =>
             match lookup k e with
             | Some y => eq x y
             | None => false
             end && all_in d'
         end) d
  | _, _ => false
  end.

(** [a > b]: numbers by value, strings in the order of their characters,
    lists at their first difference or by length; [TypeError] for any other
    pair. *)
Fixpoint gt (a b : value) {struct a} : outcome bool :=
  match a, b with
  | VList l, VList m =>
      (fix first_difference (l m : list value) {struct l} : outcome bool :=
         match l, m with
         | x :: l', y :: m' => if eq x y then first_difference l' m' else gt x y
         | _ :: _, [] => Ok true
         | [], _ => Ok false
         end) l m
  | VStr s, VStr t => Ok (String.ltb t s)
  | _, _ =>
      match as_int a, as_int b with
      | Some x, Some y => Ok (y <? x)
      | _, _ => Raise (TypeError (type_name b))
      end
  end.

(** [s * n] for a string *)
Fixpoint repeat_string (s : string) (n : nat) : string :=
  match n with
  | O => EmptyString
  | S k => (s ++ repeat_string s k)%string
  end.

(** [n * v] for an integer [n]: a product, or the repetition of a string
    or of a list, empty when [n] is not positive. *)
Definition mul_int (n : Z) (v : value) : outcome value :=
  match v with
  | VInt z => Ok (VInt (n * z))
  | VBool b => Ok (VInt (n * (if b then 1 else 0)))
  | VStr s => Ok (VStr (repeat_string s (Z.to_nat n)))
  | VList l => Ok (VList (List.concat (repeat l (Z.to_nat n))))
  | _ => Raise (TypeError (type_name v))
  end.

(** [a + b]: a sum of numbers, or the concatenation of two strings or of
    two lists. *)
Definition add (a b : value) : outcome value :=
  match as_int a, as_int b with
  | Some x, Some y => Ok (VInt (x + y))
  | _, _ =>
      match a, b with
      | VStr s, VStr t => Ok (VStr (s ++ t)%string)
      | VList l, VList m => Ok (VList (l ++ m))
      | _, _ => Raise (TypeError (type_name b))
      end
  end.

End PyArith.

(* ===================================================================== *)
(** ** security-quality-gate.py on the configuration document *)
(* ===================================================================== *)

(** [Gate] reads a configuration whose entries have the types the script
    expects.  [GateDoc] is the same script on the configuration document
    itself, the value [yaml.safe_load] returns for it: a section, a tool or
    a threshold can be missing, null or of any other type, and the checks
    raise where Python raises.  The result files are read as in [Gate].
    [GateDoc.decode] reads a document whose entries have the expected types
    into a [Gate.Config], and on those documents the two agree. *)
Module GateDoc.
Import PyStr Py PyArith.
Local Open Scope py_scope.
Local Open Scope Z_scope.

(** *** [self.results]

    The counters are integers whatever the configuration; the debt is what
    the arithmetic on the configured weights gives. *)
Record results : Type := mk_results {
  passed : bool;
  total_issues : Z;
  critical_issues : Z;
  high_issues : Z;
  medium_issues : Z;
  low_issues : Z;
  security_debt : value;
  failed_gates : list Gate.gate_entry;
  passed_gates : list Gate.gate_entry;
  exempted_issues : Z
}.

(** [__init__] *)
Definition initial_results : results :=
  {| passed := true;
     total_issues := 0;
     critical_issues := 0;
     high_issues := 0;
     medium_issues := 0;
     low_issues := 0;
     security_debt := VInt 0;
     failed_gates := [];
     passed_gates := [];
     exempted_issues := 0 |}.

Definition _fail_gate (gate_name reason : string) : M results unit :=
  modify (fun r =>
    {| passed := false;
       total_issues := total_issues r;
       critical_issues := critical_issues r;
       high_issues := high_issues r;
       medium_issues := medium_issues r;
       low_issues := low_issues r;
       security_debt := security_debt r;
       failed_gates := failed_gates r ++ [Gate.mk_gate gate_name reason];
       passed_gates := passed_gates r;
       exempted_issues := exempted_issues r |}).

Definition _pass_gate (gate_name reason : string) : M results unit :=
  modify (fun r =>
    {| passed := passed r;
       total_issues := total_issues r;
       critical_issues := critical_issues r;
       high_issues := high_issues r;
       medium_issues := medium_issues r;
       low_issues := low_issues r;
       security_debt := security_debt r;
       failed_gates := failed_gates r;
       passed_gates := passed_gates r ++ [Gate.mk_gate gate_name reason];
       exempted_issues := exempted_issues r |}).

(** [self.results['critical_issues'] += n] *)
Definition add_critical (n : Z) : M results unit :=
  modify (fun r =>
    {| passed := passed r;
       total_issues := total_issues r;
       critical_issues := critical_issues r + n;
       high_issues := high_issues r;
       medium_issues := medium_issues r;
       low_issues := low_issues r;
       security_debt := security_debt r;
       failed_gates := failed_gates r;
       passed_gates := passed_gates r;
       exempted_issues := exempted_issues r |}).

(** [self.results['high_issues'] += n] *)
Definition add_high (n : Z) : M results unit :=
  modify (fun r =>
    {| passed := passed r;
       total_issues := total_issues r;
       critical_issues := critical_issues r;
       high_issues := high_issues r + n;
       medium_issues := medium_issues r;
       low_issues := low_issues r;
       security_debt := security_debt r;
       failed_gates := failed_gates r;
       passed_gates := passed_gates r;
       exempted_issues := exempted_issues r |}).

(** [self.results['security_debt'] = debt] *)
Definition set_security_debt (debt : value) : M results unit :=
  modify (fun r =>
    {| passed := passed r;
       total_issues := total_issues r;
       critical_issues := critical_issues r;
       high_issues := high_issues r;
       medium_issues := medium_issues r;
       low_issues := low_issues r;
       security_debt := debt;
       failed_gates := failed_gates r;
       passed_gates := passed_gates r;
       exempted_issues := exempted_issues r |}).

(** *** Reading the configuration *)

(** [self.config.get(cat, {}).get('enabled', True)], as a condition *)
Definition category_enabled (config : value) (cat : string) : outcome bool :=
  match get config cat (VDict []) with
  | Ok section =>
      match get section "enabled" (VBool true) with
      | Ok enabled => Ok (truthy enabled)
      | Raise e => Raise e
      end
  | Raise e => Raise e
  end.

(** [self.config[cat].get('tools', {})] *)
Definition tools_of (config : value) (cat : string) : outcome value :=
  match subscript config cat with
  | Ok section => get section "tools" (VDict [])
  | Raise e => Raise e
  end.

(** [tools.get(name, {}).get('enabled', True)], as a condition *)
Definition tool_enabled (tools : value) (name : string) : outcome bool :=
  match get tools name (VDict []) with
  | Ok tool =>
      match get tool "enabled" (VBool true) with
      | Ok enabled => Ok (truthy enabled)
      | Raise e => Raise e
      end
  | Raise e => Raise e
  end.

(** [self.config[cat]['tools'][name]] *)
Definition tool_config (config : value) (cat name : string) : outcome value :=
  match subscript config cat with
  | Ok section =>
      match subscript section "tools" with
      | Ok tools => subscript tools name
      | Raise e => Raise e
      end
  | Raise e => Raise e
  end.

(** *** SAST checks *)

Definition _check_eslint_security (config : value) (inp : Gate.Inputs) : M results unit :=
  match Gate.eslint_results inp with
  | None => ret tt
  | Some loaded =>
      try_except
        (data <- lift loaded ;;
         let critical_count := 0 in
         rs <- lift (iter data) ;;
         high_count <- lift (Gate.count_results rs 0) ;;
         tool <- lift (tool_config config "sast" "eslint_security") ;;
         let gate_name := "ESLint Security" in
         fail_on_critical <- lift (get tool "fail_on_critical" VNone) ;;
         (if truthy fail_on_critical && (0 <? critical_count) then
            _fail_gate gate_name
              ("Critical issues found: " ++ str_int critical_count)%string
          else
            fail_on_high <- lift (get tool "fail_on_high" VNone) ;;
            if truthy fail_on_high && (0 <? high_count) then
              _fail_gate gate_name
                ("High severity issues found: " ++ str_int high_count)%string
            else
              max_issues <- lift (get tool "max_issues" (VInt 0)) ;;
              exceeds <- lift (gt (VInt high_count) max_issues) ;;
              if exceeds then
                shown <- lift (get tool "max_issues" (VInt 0)) ;;
                _fail_gate gate_name
                  ("Issues exceed threshold: " ++ str_int high_count ++ " > "
                     ++ str shown)%string
              else
                _pass_gate gate_name
                  ("Issues within threshold: " ++ str_int high_count)%string) ;;
         add_high high_count)
        (fun _ => ret tt)
  end.

Definition _check_semgrep : M results unit :=
  _pass_gate "Semgrep" "No critical issues found".

Definition _check_codeql : M results unit :=
  _pass_gate "CodeQL" "No critical issues found".

Definition _check_sonarcloud : M results unit :=
  _pass_gate "SonarCloud" "Quality gate passed".

Definition check_sast_gates (config : value) (inp : Gate.Inputs) : M results unit :=
  enabled <- lift (category_enabled config "sast") ;;
  if negb enabled then ret tt
  else
    sast_tools <- lift (tools_of config "sast") ;;
    eslint_security <- lift (tool_enabled sast_tools "eslint_security") ;;
    when eslint_security (_check_eslint_security config inp) ;;
    semgrep <- lift (tool_enabled sast_tools "semgrep") ;;
    when semgrep _check_semgrep ;;
    codeql <- lift (tool_enabled sast_tools "codeql") ;;
    when codeql _check_codeql ;;
    sonarcloud <- lift (tool_enabled sast_tools "sonarcloud") ;;
    when sonarcloud _check_sonarcloud.

(** *** Dependency checks *)

Definition _check_npm_audit (config : value) (inp : Gate.Inputs) : M results unit :=
  match Gate.audit_files inp with
  | [] => ret tt
  | _ =>
      let totals := snd (for_each (Gate.audit_files inp) Gate.count_audit_file (0, 0)) in
      let total_critical := fst totals in
      let total_high := snd totals in
      tool <- lift (tool_config config "dependencies" "npm_audit") ;;
      let gate_name := "NPM Audit" in
      fail_on_critical <- lift (get tool "fail_on_critical" VNone) ;;
      critical_exceeds <-
        (if truthy fail_on_critical then
           max_critical <- lift (get tool "max_critical" (VInt 0)) ;;
           lift (gt (VInt total_critical) max_critical)
         else ret false) ;;
      (if critical_exceeds then
         shown <- lift (get tool "max_critical" (VInt 0)) ;;
         _fail_gate gate_name
           ("Critical vulnerabilities: " ++ str_int total_critical ++ " > "
              ++ str shown)%string
       else
         fail_on_high <- lift (get tool "fail_on_high" VNone) ;;
         high_exceeds <-
           (if truthy fail_on_high then
              max_high <- lift (get tool "max_high" (VInt 0)) ;;
              lift (gt (VInt total_high) max_high)
            else ret false) ;;
         if high_exceeds then
           shown <- lift (get tool "max_high" (VInt 0)) ;;
           _fail_gate gate_name
             ("High vulnerabilities: " ++ str_int total_high ++ " > "
                ++ str shown)%string
         else
           _pass_gate gate_name
             ("Vulnerabilities within threshold: C:" ++ str_int total_critical
                ++ ", H:" ++ str_int total_high)%string) ;;
      add_critical total_critical ;;
      add_high total_high
  end.

Definition _check_snyk : M results unit :=
  _pass_gate "Snyk" "No critical vulnerabilities found".

Definition _check_osv_scanner : M results unit :=
  _pass_gate "OSV Scanner" "No critical vulnerabilities found".

Definition check_dependency_gates (config : value) (inp : Gate.Inputs) : M results unit :=
  enabled <- lift (category_enabled config "dependencies") ;;
  if negb enabled then ret tt
  else
    dep_tools <- lift (tools_of config "dependencies") ;;
    npm_audit <- lift (tool_enabled dep_tools "npm_audit") ;;
    when npm_audit (_check_npm_audit config inp) ;;
    snyk <- lift (tool_enabled dep_tools "snyk") ;;
    when snyk _check_snyk ;;
    osv_scanner <- lift (tool_enabled dep_tools "osv_scanner") ;;
    when osv_scanner _check_osv_scanner.

(** *** Container, IaC and secrets checks *)

Definition _check_trivy : M results unit :=
  _pass_gate "Trivy" "No critical container vulnerabilities found".

Definition _check_grype : M results unit :=
  _pass_gate "Grype" "No critical container vulnerabilities found".

Definition check_container_gates (config : value) : M results unit :=
  enabled <- lift (category_enabled config "containers") ;;
  if negb enabled then ret tt
  else
    container_tools <- lift (tools_of config "containers") ;;
    trivy <- lift (tool_enabled container_tools "trivy") ;;
    when trivy _check_trivy ;;
    grype <- lift (tool_enabled container_tools "grype") ;;
    when grype _check_grype.

Definition _check_checkov : M results unit :=
  _pass_gate "Checkov" "No critical IaC issues found".

Definition _check_kics : M results unit :=
  _pass_gate "KICS" "No critical IaC issues found".

Definition _check_hadolint : M results unit :=
  _pass_gate "Hadolint" "No critical Dockerfile issues found".

Definition check_iac_gates (config : value) : M results unit :=
  enabled <- lift (category_enabled config "iac") ;;
  if negb enabled then ret tt
  else
    iac_tools <- lift (tools_of config "iac") ;;
    checkov <- lift (tool_enabled iac_tools "checkov") ;;
    when checkov _check_checkov ;;
    kics <- lift (tool_enabled iac_tools "kics") ;;
    when kics _check_kics ;;
    hadolint <- lift (tool_enabled iac_tools "hadolint") ;;
    when hadolint _check_hadolint.

Definition _check_trufflehog : M results unit :=
  _pass_gate "TruffleHog" "No verified secrets found".

Definition check_secrets_gates (config : value) : M results unit :=
  enabled <- lift (category_enabled config "secrets") ;;
  if negb enabled then ret tt
  else
    secrets_tools <- lift (tools_of config "secrets") ;;
    trufflehog <- lift (tool_enabled secrets_tools "trufflehog") ;;
    when trufflehog _check_trufflehog.

(** *** Debt and global thresholds *)

(** The table of weights [calculate_security_debt] takes when the
    configuration has none. *)
Definition scoring_defaults : value :=
  VDict [("critical", VInt 50); ("high", VInt 20); ("medium", VInt 5);
         ("low", VInt 1); ("info", VInt 0)].

Definition calculate_security_debt (config : value) : M results unit :=
  section <- lift (get config "security_debt" (VDict [])) ;;
  scoring <- lift (get section "scoring" scoring_defaults) ;;
  critical <- read critical_issues ;;
  critical_weight <- lift (get scoring "critical" (VInt 50)) ;;
  critical_debt <- lift (mul_int critical critical_weight) ;;
  high <- read high_issues ;;
  high_weight <- lift (get scoring "high" (VInt 20)) ;;
  high_debt <- lift (mul_int high high_weight) ;;
  debt2 <- lift (add critical_debt high_debt) ;;
  medium <- read medium_issues ;;
  medium_weight <- lift (get scoring "medium" (VInt 5)) ;;
  medium_debt <- lift (mul_int medium medium_weight) ;;
  debt3 <- lift (add debt2 medium_debt) ;;
  low <- read low_issues ;;
  low_weight <- lift (get scoring "low" (VInt 1)) ;;
  low_debt <- lift (mul_int low low_weight) ;;
  debt <- lift (add debt3 low_debt) ;;
  set_security_debt debt ;;
  section' <- lift (get config "security_debt" (VDict [])) ;;
  max_debt <- lift (get section' "max_total_debt" (VInt 100)) ;;
  exceeds <- lift (gt debt max_debt) ;;
  if exceeds then
    _fail_gate "Security Debt"
      ("Total debt " ++ str debt ++ " exceeds maximum " ++ str max_debt)%string
  else
    _pass_gate "Security Debt"
      ("Total debt " ++ str debt ++ " within limit " ++ str max_debt)%string.

Definition check_global_thresholds (config : value) : M results unit :=
  global_config <- lift (get config "global" (VDict [])) ;;
  fail_on_critical <- lift (get global_config "fail_on_critical" (VBool true)) ;;
  critical <- read critical_issues ;;
  when (truthy fail_on_critical && (0 <? critical))
    (_fail_gate "Global Critical Threshold"
       ("Critical issues found: " ++ str_int critical)%string) ;;
  high_threshold <- lift (get global_config "fail_on_high_threshold" (VInt 5)) ;;
  high <- read high_issues ;;
  exceeds <- lift (gt (VInt high) high_threshold) ;;
  when exceeds
    (_fail_gate "Global High Threshold"
       ("High issues " ++ str_int high ++ " exceed threshold "
          ++ str high_threshold)%string).

(** *** The report *)

(** [_generate_recommendations]; the comparison of the debt with 50 raises
    when the debt is no number. *)
Definition _generate_recommendations : M results (list string) :=
  r <- read (fun r => r) ;;
  debt_above_50 <- lift (gt (security_debt r) (VInt 50)) ;;
  ret ((if 0 <? critical_issues r
        then ["Address all critical security issues immediately"] else [])
       ++ (if 5 <? high_issues r
           then ["Prioritize fixing high severity security issues"] else [])
       ++ (if debt_above_50
           then ["Implement security debt reduction plan"] else [])
       ++ (if (0 <? List.length (failed_gates r))%nat
           then ["Review and fix failed security quality gates"] else [])).

(** The dictionary [generate_report] builds, writes and returns.  Its
    [repository], [run_id] and [pr_number] are the arguments of the
    constructor and its [timestamp] is the wall clock; they are left out.
    The write of the report file is taken to succeed. *)
Record report : Type := mk_report {
  overall_result : string;
  report_summary : results;
  recommendations : list string
}.

Definition generate_report : M results report :=
  r <- read (fun r => r) ;;
  recs <- _generate_recommendations ;;
  ret {| overall_result := if passed r then "PASSED" else "FAILED";
         report_summary := r;
         recommendations := recs |}.

(** [run_all_checks]: the checks in the order of the script, the report,
    then the verdict [self.results['passed']]. *)
Definition run_all_checks (config : value) (inp : Gate.Inputs) : M results bool :=
  check_sast_gates config inp ;;
  check_dependency_gates config inp ;;
  check_container_gates config ;;
  check_iac_gates config ;;
  check_secrets_gates config ;;
  calculate_security_debt config ;;
  check_global_thresholds config ;;
  report <- generate_report ;;
  read passed.

(** A run of the script: a fresh [SecurityQualityGate] on the loaded
    configuration, then [run_all_checks]. *)
Definition run (config : value) (inp : Gate.Inputs) : outcome bool * results :=
  run_all_checks config inp initial_results.

(** *** Vocabulary of the properties *)

(** [d.get(k, default)] for the entries [d] of a mapping *)
Definition entry (d : list (string * value)) (k : string) (default : value) : value :=
  match lookup k d with
  | Some x => x
  | None => default
  end.

(** The results of [Gate] as results of the script: the debt is an
    integer. *)
Definition of_gate (r : Gate.results) : results :=
  {| passed := Gate.passed r;
     total_issues := Gate.total_issues r;
     critical_issues := Gate.critical_issues r;
     high_issues := Gate.high_issues r;
     medium_issues := Gate.medium_issues r;
     low_issues := Gate.low_issues r;
     security_debt := VInt (Gate.security_debt r);
     failed_gates := Gate.failed_gates r;
     passed_gates := Gate.passed_gates r;
     exempted_issues := Gate.exempted_issues r |}.

(** An entry that is a boolean when present. *)
Definition opt_bool (o : option value) : option (option bool) :=
  match o with
  | None => Some None
  | Some (VBool b) => Some (Some b)
  | Some _ => None
  end.

(** An entry that is an integer when present. *)
Definition opt_int (o : option value) : option (option Z) :=
  match o with
  | None => Some None
  | Some (VInt z) => Some (Some z)
  | Some _ => None
  end.

(** The entry of a tool: a mapping with boolean switches and integer
    thresholds. *)
Definition decode_tool (v : value) : option Gate.ToolConfig :=
  match v with
  | VDict t =>
      match opt_bool (lookup "enabled" t), opt_bool (lookup "fail_on_critical" t),
            opt_bool (lookup "fail_on_high" t), opt_int (lookup "max_issues" t),
            opt_int (lookup "max_critical" t), opt_int (lookup "max_high" t) with
      | Some e, Some fc, Some fh, Some mi, Some mc, Some mh =>
          Some (Gate.mk_tool e fc fh mi mc mh)
      | _, _, _, _, _, _ => None
      end
  | _ => None
  end.

Fixpoint decode_tools (ts : list (string * value))
  : option (list (string * Gate.ToolConfig)) :=
  match ts with
  | [] => Some []
  | (name, v) :: rest =>
      match decode_tool v, decode_tools rest with
      | Some t, Some rest' => Some ((name, t) :: rest')
      | _, _ => None
      end
  end.

(** The [tools] of a category: a mapping of tool entries when present. *)
Definition opt_tools (o : option value) : option (option (list (string * Gate.ToolConfig))) :=
  match o with
  | None => Some None
  | Some (VDict ts) =>
      match decode_tools ts with
      | Some ts' => Some (Some ts')
      | None => None
      end
  | Some _ => None
  end.

(** A category section: a mapping when present. *)
Definition opt_category (o : option value) : option (option Gate.CategoryConfig) :=
  match o with
  | None => Some None
  | Some (VDict c) =>
      match opt_bool (lookup "enabled" c), opt_tools (lookup "tools" c) with
      | Some e, Some ts => Some (Some (Gate.mk_category e ts))
      | _, _ => None
      end
  | Some _ => None
  end.

(** The [scoring] table: a mapping of integer weights when present. *)
Definition opt_scoring (o : option value) : option (option Gate.Scoring) :=
  match o with
  | None => Some None
  | Some (VDict s) =>
      match opt_int (lookup "critical" s), opt_int (lookup "high" s),
            opt_int (lookup "medium" s), opt_int (lookup "low" s),
            opt_int (lookup "info" s) with
      | Some c, Some h, Some m, Some l, Some i => Some (Some (Gate.mk_scoring c h m l i))
      | _, _, _, _, _ => None
      end
  | Some _ => None
  end.

(** The [security_debt] section. *)
Definition opt_debt (o : option value) : option (option Gate.DebtConfig) :=
  match o with
  | None => Some None
  | Some (VDict d) =>
      match opt_scoring (lookup "scoring" d), opt_int (lookup "max_total_debt" d) with
      | Some s, Some m => Some (Some (Gate.mk_debt s m))
      | _, _ => None
      end
  | Some _ => None
  end.

(** The [global] section. *)
Definition opt_global (o : option value) : option (option Gate.GlobalConfig) :=
  match o with
  | None => Some None
  | Some (VDict g) =>
      match opt_bool (lookup "fail_on_critical" g),
            opt_int (lookup "fail_on_high_threshold" g) with
      | Some c, Some h => Some (Some (Gate.mk_global c h))
      | _, _ => None
      end
  | Some _ => None
  end.

(** The configuration a document is, when each of its entries has the type
    the script expects: sections and tool entries are mappings, switches
    are booleans, thresholds and weights are integers. *)
Definition decode (config : value) : option Gate.Config :=
  match config with
  | VDict d =>
      match opt_category (lookup "sast" d), opt_category (lookup "dependencies" d),
            opt_category (lookup "containers" d), opt_category (lookup "iac" d),
            opt_category (lookup "secrets" d), opt_debt (lookup "security_debt" d),
            opt_global (lookup "global" d) with
      | Some sa, Some de, Some co, Some ia, Some se, Some sd, Some gl =>
          Some (Gate.mk_config sa de co ia se sd gl)
      | _, _, _, _, _, _, _ => None
      end
  | _ => None
  end.

(** [m] on the document does what [m'] does on the configuration. *)
Definition refines {A : Type} (m : M results A) (m' : M Gate.results A) : Prop :=
  forall r, m (of_gate r) = (fst (m' r), of_gate (snd (m' r))).

(** A configuration document with its five sections, thresholds for ESLint
    Security and NPM Audit, and a debt ceiling. *)
Definition sample_document : value :=
  VDict [("sast", VDict [("enabled", VBool true);
                         ("tools", VDict [("eslint_security",
                                           VDict [("fail_on_high", VBool false);
                                                  ("max_issues", VInt 10)])])]);
         ("dependencies", VDict [("tools", VDict [("npm_audit",
                                                   VDict [("fail_on_critical", VBool true);
                                                          ("max_critical", VInt 0)])])]);
         ("containers", VDict []);
         ("iac", VDict []);
         ("secrets", VDict [("enabled", VBool false)]);
         ("security_debt", VDict [("max_total_debt", VInt 100)])].

(** The same sections, with a null entry for Semgrep. *)
Definition null_tool_document : value :=
  VDict [("sast", VDict [("tools", VDict [("semgrep", VNone)])]);
         ("dependencies", VDict []);
         ("containers", VDict []);
         ("iac", VDict []);
         ("secrets", VDict [])].

(** A document with a debt ceiling and nothing else. *)
Definition debt_ceiling (max_total_debt : Z) : list (string * value) :=
  [("security_debt", VDict [("max_total_debt", VInt max_total_debt)])].

(** A document with a table of weights for critical and high. *)
Definition doubled_weights : list (string * value) :=
  [("security_debt", VDict [("scoring", VDict [("critical", VInt 100);
                                               ("high", VInt 40)])])].

End GateDoc.

(* ===================================================================== *)
(** * Properties *)
(* ===================================================================== *)

(** ** Strings *)

Module PyStrFacts.
Import PyStr.

Lemma contains_prefix needle hay :
  String.prefix needle hay = true -> contains needle hay = true.
Proof.
  intros H. destruct hay; cbn [contains]; rewrite H; reflexivity.
Qed.

Lemma contains_cons needle c hay :
  contains needle hay = true -> contains needle (String c hay) = true.
Proof.
  intros H. cbn [contains]. rewrite H. apply orb_true_r.
Qed.

Lemma has_char_false_split sep s :
  has_char sep s = false -> split sep s = [s].
Proof.
  unfold has_char.
  induction s as [|c t IH]; simpl; intros H; [reflexivity|].
  apply orb_false_elim in H. destruct H as [Hc Ht].
  rewrite Ascii.eqb_sym, Hc. rewrite (IH Ht). reflexivity.
Qed.

(** Splitting [a ++ sep ++ b] when [a] has no separator. *)
Lemma split_first sep a b :
  has_char sep a = false ->
  split sep (a ++ String sep b)%string = a :: split sep b.
Proof.
  unfold has_char.
  induction a as [|c t IH]; simpl; intros H.
  - rewrite Ascii.eqb_refl. reflexivity.
  - apply orb_false_elim in H. destruct H as [Hc Ht].
    rewrite Ascii.eqb_sym, Hc. rewrite (IH Ht). reflexivity.
Qed.

Lemma split_nonempty sep s : split sep s <> [].
Proof.
  destruct s as [|c t]; cbn [split]; [discriminate|].
  destruct (Ascii.eqb c sep); [discriminate|].
  destruct (split sep t); discriminate.
Qed.

(** A text with the separator splits in two parts at least. *)
Lemma split_second sep s :
  has_char sep s = true -> exists h x r, split sep s = h :: x :: r.
Proof.
  unfold has_char.
  induction s as [|c t IH]; cbn [list_ascii_of_string existsb split]; [discriminate|].
  intros H. rewrite (Ascii.eqb_sym sep c) in H.
  destruct (Ascii.eqb c sep) eqn:E.
  - pose proof (split_nonempty sep t) as Hn.
    destruct (split sep t) as [|x r]; [contradiction|].
    exists EmptyString, x, r. reflexivity.
  - cbn [orb] in H. destruct (IH H) as [h [x [r Hs]]].
    rewrite Hs. exists (String c h), x, r. reflexivity.
Qed.

Lemma contains_char_has_char c s :
  contains (String c EmptyString) s = has_char c s.
Proof.
  unfold has_char.
  induction s as [|d t IH]; simpl; [reflexivity|].
  rewrite IH. rewrite (Ascii.eqb_sym c d).
  destruct (Ascii.eqb d c) eqn:E.
  - apply Ascii.eqb_eq in E. subst d.
    destruct (Ascii.ascii_dec c c) as [_|n]; [|contradiction].
    destruct t; reflexivity.
  - apply Ascii.eqb_neq in E.
    destruct (Ascii.ascii_dec c d) as [e|_]; [symmetry in e; contradiction|].
    reflexivity.
Qed.

End PyStrFacts.

(** ** The monad *)

Module PyFacts.
Import Py.

Section Steps.
Context {S : Type} (R : S -> S -> Prop).
Hypothesis R_refl : forall s, R s s.
Hypothesis R_trans : forall a b c, R a b -> R b c -> R a c.

Lemma steps_ret {A} (a : A) : steps R (ret a).
Proof. intros s. apply R_refl. Qed.

Lemma steps_lift {A} (o : outcome A) : steps R (lift o).
Proof. intros s. apply R_refl. Qed.

Lemma steps_raise {A} (e : exn) : steps R (@raise S A e).
Proof. intros s. apply R_refl. Qed.

Lemma steps_read {A} (f : S -> A) : steps R (read f).
Proof. intros s. apply R_refl. Qed.

Lemma steps_modify (f : S -> S) : (forall s, R s (f s)) -> steps R (modify f).
Proof. intros H s. apply H. Qed.

Lemma steps_bind {A B} (m : M S A) (k : A -> M S B) :
  steps R m -> (forall a, steps R (k a)) -> steps R (bind m k).
Proof.
  intros Hm Hk s. unfold bind.
  specialize (Hm s). destruct (m s) as [[a|e] s']; simpl in *.
  - eapply R_trans; [exact Hm | apply Hk].
  - exact Hm.
Qed.

Lemma steps_when (b : bool) (m : M S unit) : steps R m -> steps R (when b m).
Proof. intros H. destruct b; simpl; [exact H | apply steps_ret]. Qed.

Lemma steps_for_each {A} (l : list A) (body : A -> M S unit) :
  (forall x, steps R (body x)) -> steps R (for_each l body).
Proof.
  intros H. induction l as [|x r IH]; simpl.
  - apply steps_ret.
  - apply steps_bind; [apply H | intros _; exact IH].
Qed.

Lemma steps_try_except {A} (m : M S A) (handler : exn -> M S A) :
  steps R m -> (forall e, steps R (handler e)) -> steps R (try_except m handler).
Proof.
  intros Hm Hh s. unfold try_except.
  specialize (Hm s). destruct (m s) as [[a|e] s']; simpl in *.
  - exact Hm.
  - eapply R_trans; [exact Hm | apply Hh].
Qed.
End Steps.

(** A loop over [l1 ++ l2] runs the loop over [l1], then the one over [l2]
    unless the first raised. *)
Lemma for_each_app {S A} (l1 l2 : list A) (body : A -> M S unit) (s : S) :
  for_each (l1 ++ l2) body s =
  match for_each l1 body s with
  | (Ok _, s') => for_each l2 body s'
  | (Raise e, s') => (Raise e, s')
  end.
Proof.
  revert s. induction l1 as [|x r IH]; intros s; simpl.
  - reflexivity.
  - unfold bind. destruct (body x s) as [[[]|e] s']; [apply IH | reflexivity].
Qed.

Lemma returns_for_each {S A} (l : list A) (body : A -> M S unit) :
  (forall x, returns (body x)) -> returns (for_each l body).
Proof.
  intros H. induction l as [|x r IH]; intros s; simpl.
  - exists tt. reflexivity.
  - unfold bind. destruct (H x s) as [a Ha].
    destruct (body x s) as [[b|e] s']; simpl in Ha; [apply IH | discriminate].
Qed.

Lemma returns_try_except {S A} (m : M S A) (handler : exn -> M S A) :
  (forall e, returns (handler e)) -> returns (try_except m handler).
Proof.
  intros H s. unfold try_except.
  destruct (m s) as [[a|e] s']; [exists a; reflexivity | apply H].
Qed.

Lemma appends_refl {I} (P : I -> Prop) (s : list I) : appends P s s.
Proof. exists []. split; [symmetry; apply app_nil_r | constructor]. Qed.

Lemma appends_trans {I} (P : I -> Prop) (a b c : list I) :
  appends P a b -> appends P b c -> appends P a c.
Proof.
  intros [x [-> Hx]] [y [-> Hy]]. exists (x ++ y). split.
  - symmetry. apply app_assoc.
  - apply Forall_app. split; assumption.
Qed.

Lemma appends_one {I} (P : I -> Prop) (s : list I) (x : I) :
  P x -> appends P s (s ++ [x]).
Proof. intros H. exists [x]. split; [reflexivity | repeat constructor; exact H]. Qed.

(** Walks a method built from the combinators, for a relation with the
    reflexivity and transitivity lemmas [refl] and [trans], and calls [leaf]
    on the methods it does not know. *)
Ltac steps_with refl trans leaf :=
  repeat (intros; cbv beta zeta;
    lazymatch goal with
    | |- steps _ (bind _ _) => apply steps_bind; [apply trans | | ]
    | |- steps _ (lift _) => apply steps_lift; apply refl
    | |- steps _ (ret _) => apply steps_ret; apply refl
    | |- steps _ (read _) => apply steps_read; apply refl
    | |- steps _ (when _ _) => apply steps_when; [apply refl | ]
    | |- steps _ (for_each _ _) => apply steps_for_each; [apply refl | apply trans | ]
    | |- steps _ (try_except _ _) => apply steps_try_except; [apply trans | | ]
    | |- steps _ (if ?b then _ else _) => destruct b
    | |- _ => leaf
    end).

(** *** Methods that do not look at the entries they find *)

Lemma framed_ret {I A} (a : A) : framed (@ret (list I) A a).
Proof. intros s. unfold ret. simpl. rewrite app_nil_r. reflexivity. Qed.

Lemma framed_lift {I A} (o : outcome A) : framed (@lift (list I) A o).
Proof. intros s. unfold lift. simpl. rewrite app_nil_r. reflexivity. Qed.

Lemma framed_append {I} (x : I) : framed (modify (fun l => l ++ [x])).
Proof. intros s. reflexivity. Qed.

Lemma framed_bind {I A B} (m : M (list I) A) (k : A -> M (list I) B) :
  framed m -> (forall a, framed (k a)) -> framed (bind m k).
Proof.
  intros Hm Hk s. unfold bind. rewrite (Hm s).
  destruct (m []) as [[a|e] x]; simpl.
  - rewrite (Hk a (s ++ x)), (Hk a x). simpl. rewrite app_assoc. reflexivity.
  - reflexivity.
Qed.

Lemma framed_when {I} (b : bool) (m : M (list I) unit) : framed m -> framed (when b m).
Proof. intros H. destruct b; simpl; [exact H | apply framed_ret]. Qed.

Lemma framed_for_each {I A} (l : list A) (body : A -> M (list I) unit) :
  (forall x, framed (body x)) -> framed (for_each l body).
Proof.
  intros H. induction l as [|x r IH]; simpl.
  - apply framed_ret.
  - apply framed_bind; [apply H | intros _; exact IH].
Qed.

Lemma framed_try_except {I A} (m : M (list I) A) (handler : exn -> M (list I) A) :
  framed m -> (forall e, framed (handler e)) -> framed (try_except m handler).
Proof.
  intros Hm Hh s. unfold try_except. rewrite (Hm s).
  destruct (m []) as [[a|e] x]; simpl.
  - reflexivity.
  - rewrite (Hh e (s ++ x)), (Hh e x). simpl. rewrite app_assoc. reflexivity.
Qed.

(** Walks a method built from the combinators and calls [leaf] on the
    methods it does not know. *)
Ltac framed_with leaf :=
  repeat (intros; cbv beta zeta;
    lazymatch goal with
    | |- framed (bind _ _) => apply framed_bind
    | |- framed (lift _) => apply framed_lift
    | |- framed (ret _) => apply framed_ret
    | |- framed (when _ _) => apply framed_when
    | |- framed (for_each _ _) => apply framed_for_each
    | |- framed (try_except _ _) => apply framed_try_except
    | |- framed (modify (fun _ => _ ++ [_])) => apply framed_append
    | |- framed (if ?b then _ else _) => destruct b
    | |- _ => leaf
    end).

(** The state after a loop of framed bodies that return. *)
Lemma for_each_framed_concat {I A} (l : list A) (body : A -> M (list I) unit) :
  (forall x, framed (body x)) -> (forall x, returns (body x)) ->
  forall s, for_each l body s = (Ok tt, s ++ List.concat (map (fun x => snd (body x [])) l)).
Proof.
  intros Hf Hr. induction l as [|x r IH]; intros s; simpl.
  - unfold ret. rewrite app_nil_r. reflexivity.
  - unfold bind. rewrite (Hf x s).
    destruct (Hr x []) as [[] Hx]. rewrite Hx.
    rewrite IH, app_assoc. reflexivity.
Qed.

(** *** Methods that return *)

Lemma returns_ret {S A} (a : A) : returns (@ret S A a).
Proof. intros s. exists a. reflexivity. Qed.

Lemma returns_lift_ok {S A} (a : A) : returns (@lift S A (Ok a)).
Proof. intros s. exists a. reflexivity. Qed.

Lemma returns_read {S A} (f : S -> A) : returns (read f).
Proof. intros s. exists (f s). reflexivity. Qed.

Lemma returns_modify {S} (f : S -> S) : returns (modify f).
Proof. intros s. exists tt. reflexivity. Qed.

Lemma returns_bind {S A B} (m : M S A) (k : A -> M S B) :
  returns m -> (forall a, returns (k a)) -> returns (bind m k).
Proof.
  intros Hm Hk s. unfold bind. destruct (Hm s) as [a Ha].
  destruct (m s) as [[a'|e] s']; simpl in Ha; [apply Hk | discriminate].
Qed.

Lemma returns_when {S} (b : bool) (m : M S unit) : returns m -> returns (when b m).
Proof. intros H. destruct b; simpl; [exact H | apply returns_ret]. Qed.

Ltac returns_with leaf :=
  repeat (intros; cbv beta zeta;
    lazymatch goal with
    | |- returns (bind _ _) => apply returns_bind
    | |- returns (ret _) => apply returns_ret
    | |- returns (lift (Ok _)) => apply returns_lift_ok
    | |- returns (read _) => apply returns_read
    | |- returns (when _ _) => apply returns_when
    | |- returns (if ?b then _ else _) => destruct b
    | |- _ => leaf
    end).

(** A value that was computed without the state: the rest of the method
    is only run on what the computation returned. *)
Lemma steps_bind_lift {S A B} (R : S -> S -> Prop) (o : outcome A) (k : A -> M S B) :
  (forall s, R s s) ->
  (forall a, o = Ok a -> steps R (k a)) -> steps R (bind (lift o) k).
Proof.
  intros Hrefl H s. unfold bind, lift.
  destruct o as [a|e]; [apply (H a eq_refl) | apply Hrefl].
Qed.

End PyFacts.

(** ** docker-compose-security.py *)

Module ComposeFacts.
Import PyStr Py Compose.

(** C1, as stated, fails: with [privileged: true], no [user],
    [cap_add: [SYS_ADMIN]] and no other key, the scan of the service emits
    four findings, not three; [root_filesystem_writable] is the fourth. *)
Lemma scan_service_privileged_counterexample :
  let found := snd (_scan_service "docker-compose.yml" "web" privileged_service []) in
  List.length found <> 3%nat /\
  map summary_of found =
    [("web", "privileged_containers", "critical");
     ("web", "root_filesystem_writable", "medium");
     ("web", "no_user_specified", "medium");
     ("web", "insecure_capabilities", "high")].
Proof.
  vm_compute. split; [discriminate | reflexivity].
Qed.

(** C1 (amended): a service with [privileged: true], no [user] key,
    [cap_add: [SYS_ADMIN]] and none of the keys [network_mode], [pid],
    [ipc], [volumes], [ports], [environment] yields, when [read_only] is set
    to a true value, exactly the three findings [privileged_containers]
    (critical), [no_user_specified] (medium) and [insecure_capabilities]
    (high), in this order; when [read_only] is missing or false,
    [root_filesystem_writable] (medium) is emitted as well, after the
    first. *)
Theorem scan_service_privileged_no_user_sys_admin
    (file_path service_name : string) (d : list (string * value)) (issues : list issue) :
  lookup "privileged" d = Some (VBool true) ->
  lookup "user" d = None ->
  lookup "cap_add" d = Some (VList [VStr "SYS_ADMIN"]) ->
  lookup "network_mode" d = None ->
  lookup "pid" d = None ->
  lookup "ipc" d = None ->
  lookup "volumes" d = None ->
  lookup "ports" d = None ->
  lookup "environment" d = None ->
  exists found,
    _scan_service file_path service_name (VDict d) issues = (Ok tt, issues ++ found) /\
    map summary_of found =
      if truthy (match lookup "read_only" d with Some ro => ro | None => VNone end)
      then [(service_name, "privileged_containers", "critical");
            (service_name, "no_user_specified", "medium");
            (service_name, "insecure_capabilities", "high")]
      else [(service_name, "privileged_containers", "critical");
            (service_name, "root_filesystem_writable", "medium");
            (service_name, "no_user_specified", "medium");
            (service_name, "insecure_capabilities", "high")].
Proof.
  intros Hpriv Huser Hcap Hnet Hpid Hipc Hvol Hports Henv.
  unfold _scan_service, bind, lift, get.
  rewrite Hpriv, Huser, Hcap, Hnet, Hpid, Hipc, Hvol, Hports, Henv.
  destruct (truthy match lookup "read_only" d with Some ro => ro | None => VNone end) eqn:Hro.
  - eexists. split.
    + cbn. rewrite <- !app_assoc. reflexivity.
    + reflexivity.
  - eexists. split.
    + cbn. rewrite <- !app_assoc. reflexivity.
    + reflexivity.
Qed.

(** The theorem at the example service with [read_only: true] added. *)
Lemma scan_service_privileged_no_user_sys_admin_witness :
  exists found,
    _scan_service "docker-compose.yml" "web"
      (VDict [("privileged", VBool true); ("read_only", VBool true);
              ("cap_add", VList [VStr "SYS_ADMIN"])]) [] = (Ok tt, [] ++ found) /\
    map summary_of found =
      [("web", "privileged_containers", "critical");
       ("web", "no_user_specified", "medium");
       ("web", "insecure_capabilities", "high")].
Proof.
  apply (scan_service_privileged_no_user_sys_admin "docker-compose.yml" "web"
           [("privileged", VBool true); ("read_only", VBool true);
            ("cap_add", VList [VStr "SYS_ADMIN"])] []); reflexivity.
Defined.

(** An entry with a sensitive pattern and a weak value gets one finding. *)
Lemma scan_env_var_default_secrets
    (file_path service_name env_var : string) (issues : list issue) :
  has_sensitive_pattern (lower env_var) = true ->
  has_weak_value (lower env_var) = true ->
  scan_env_var file_path service_name (VStr env_var) issues =
    (Ok tt, issues ++ [new_issue file_path service_name "default_secrets"]).
Proof.
  intros Hsens Hweak.
  unfold scan_env_var, bind, lift, as_str.
  unfold has_sensitive_pattern, sensitive_patterns in Hsens.
  unfold sensitive_patterns. cbn [scan_patterns existsb] in *.
  rewrite Hweak. revert Hsens.
  repeat match goal with
         | |- context [contains ?p (lower env_var)] =>
             destruct (contains p (lower env_var))
         end; intros Hsens; try reflexivity; discriminate Hsens.
Qed.

(** *** What the scan appends *)

Ltac in_list := simpl; repeat first [left; reflexivity | right].

Lemma compose_add_issue_steps (P : issue -> Prop) file_path service_name rule_name :
  P (new_issue file_path service_name rule_name) ->
  steps (appends P) (_add_issue file_path service_name rule_name).
Proof.
  intros H s. apply PyFacts.appends_one. exact H.
Qed.

Ltac catalogued_leaf :=
  idtac;
  lazymatch goal with
  | |- steps _ (_add_issue _ _ _) =>
      apply compose_add_issue_steps; unfold catalogued; in_list
  end.

Ltac catalogued_steps :=
  PyFacts.steps_with (@PyFacts.appends_refl) (@PyFacts.appends_trans) catalogued_leaf.

Lemma scan_volume_catalogued file_path service_name volume :
  steps (appends catalogued) (scan_volume file_path service_name volume).
Proof. unfold scan_volume. destruct volume; catalogued_steps. Qed.

Lemma scan_cap_catalogued file_path service_name cap :
  steps (appends catalogued) (scan_cap file_path service_name cap).
Proof. unfold scan_cap. catalogued_steps. Qed.

Lemma scan_port_catalogued file_path service_name port :
  steps (appends catalogued) (scan_port file_path service_name port).
Proof. unfold scan_port. destruct port; catalogued_steps. Qed.

Lemma scan_patterns_catalogued file_path service_name env_lower patterns :
  steps (appends catalogued) (scan_patterns file_path service_name env_lower patterns).
Proof.
  induction patterns as [|p r IH]; cbn [scan_patterns].
  - catalogued_steps.
  - destruct (contains p env_lower); [catalogued_steps | exact IH].
Qed.

Lemma scan_env_var_catalogued file_path service_name env_var :
  steps (appends catalogued) (scan_env_var file_path service_name env_var).
Proof.
  unfold scan_env_var.
  apply PyFacts.steps_bind; [apply PyFacts.appends_trans | catalogued_steps | intros s].
  apply scan_patterns_catalogued.
Qed.

Ltac service_leaf :=
  idtac;
  lazymatch goal with
  | |- steps _ (_add_issue _ _ _) =>
      apply compose_add_issue_steps; unfold catalogued; in_list
  | |- steps _ (scan_volume _ _ _) => apply scan_volume_catalogued
  | |- steps _ (scan_cap _ _ _) => apply scan_cap_catalogued
  | |- steps _ (scan_port _ _ _) => apply scan_port_catalogued
  | |- steps _ (scan_env_var _ _ _) => apply scan_env_var_catalogued
  end.

Lemma scan_service_catalogued file_path service_name service_config :
  steps (appends catalogued) (_scan_service file_path service_name service_config).
Proof.
  unfold _scan_service.
  PyFacts.steps_with (@PyFacts.appends_refl) (@PyFacts.appends_trans) service_leaf.
Qed.

Lemma scan_compose_file_catalogued file_path loaded :
  steps (appends catalogued) (scan_compose_file file_path loaded).
Proof.
  unfold scan_compose_file.
  apply PyFacts.steps_try_except; [apply PyFacts.appends_trans | | ].
  - PyFacts.steps_with (@PyFacts.appends_refl) (@PyFacts.appends_trans)
      ltac:(idtac; lazymatch goal with
                   | |- steps _ (match ?x with (_, _) => _ end) =>
                       destruct x; apply scan_service_catalogued
                   end).
  - intros e. apply PyFacts.steps_modify. intros s.
    apply PyFacts.appends_one. unfold catalogued. in_list.
Qed.

(** The severity of a catalogued issue is one of the four the summary
    counts. *)
Lemma compose_catalogued_severity (i : issue) :
  catalogued i ->
  severity i = "critical" \/ severity i = "high" \/
  severity i = "medium" \/ severity i = "low".
Proof.
  unfold catalogued. intros H.
  cbv [catalogue security_rules map app fst snd rule_severity In] in H.
  repeat (destruct H as [H|H];
          [injection H as _ <-;
           solve [repeat first [reflexivity | left; reflexivity | right]]|]).
  contradiction.
Qed.

Lemma compose_count_issue_sum (c : severity_counts) (i : issue) :
  catalogued i -> sum_counts (count_issue c i) = (sum_counts c + 1)%Z.
Proof.
  intros H. apply compose_catalogued_severity in H.
  unfold count_issue, sum_counts.
  destruct H as [-> | [-> | [-> | ->]]]; simpl; lia.
Qed.

Lemma compose_fold_count_sum (l : list issue) (c : severity_counts) :
  Forall catalogued l ->
  sum_counts (fold_left count_issue l c) = (sum_counts c + Z.of_nat (List.length l))%Z.
Proof.
  intros H. revert c. induction H as [|i l Hi _ IH]; intros c.
  - simpl. lia.
  - cbn [fold_left List.length]. rewrite IH, (compose_count_issue_sum c i Hi). lia.
Qed.

(** X1: whatever the file holds, each issue the scan of a compose file
    appends carries a rule of the catalogue (or [parse_error]) with the
    severity the catalogue gives it, never the [unknown] fallback; so the
    counts of [_get_summary] add up to [total_issues]: no issue escapes the
    summary of [get_results]. *)
Theorem compose_issues_catalogued_and_counted
    (file_path : string) (loaded : outcome value) :
  Forall catalogued (snd (scan_compose_file file_path loaded [])) /\
  sum_counts (summary (get_results (snd (scan_compose_file file_path loaded [])))) =
    total_issues (get_results (snd (scan_compose_file file_path loaded []))).
Proof.
  destruct (scan_compose_file_catalogued file_path loaded []) as [added [Hs Hc]].
  rewrite Hs. simpl app. split; [exact Hc|].
  unfold get_results, _get_summary. cbn [summary total_issues].
  rewrite (compose_fold_count_sum added (mk_counts 0 0 0 0) Hc). reflexivity.
Qed.

(** The scan of a service that is not a mapping raises at the first key it
    reads. *)
Lemma scan_service_not_mapping file_path service_name service_config issues :
  (forall d, service_config <> VDict d) ->
  _scan_service file_path service_name service_config issues =
    (Raise (AttributeError (type_name service_config) "get"), issues).
Proof.
  intros H. destruct service_config; try reflexivity.
  exfalso. eapply H. reflexivity.
Qed.

Lemma lookup_some_nonempty {A} (k : string) (d : list (string * A)) (x : A) :
  lookup k d = Some x -> d <> [].
Proof. intros H ->. discriminate. Qed.

(** X2: a service whose configuration is not a mapping (a service name
    with nothing under it, a string, a list) ends the scan of the file: the
    findings of the services before it stay, one [parse_error] reports the
    [AttributeError], and the services after it are not scanned. *)
Theorem malformed_service_ends_scan
    (file_path : string) (d : list (string * value))
    (before after : list (string * value)) (service_name : string)
    (service_config : value) (issues issues1 : list issue) :
  lookup "services" d = Some (VDict (before ++ (service_name, service_config) :: after)) ->
  (forall c, service_config <> VDict c) ->
  scan_services file_path before issues = (Ok tt, issues1) ->
  scan_compose_file file_path (Ok (VDict d)) issues =
    (Ok tt, issues1 ++ [parse_error_issue file_path
                          (AttributeError (type_name service_config) "get")]).
Proof.
  intros Hservices Hbad Hbefore.
  pose proof (lookup_some_nonempty _ _ _ Hservices) as Hd.
  unfold scan_compose_file, try_except.
  unfold bind at 1. unfold lift at 1.
  replace (truthy (VDict d)) with true by (destruct d; [contradiction | reflexivity]).
  cbn [negb].
  unfold bind at 1. unfold lift at 1. cbn [contains_str]. unfold has_key.
  rewrite Hservices. cbn [negb].
  unfold bind at 1. unfold lift at 1. cbn [subscript]. rewrite Hservices.
  unfold bind at 1. unfold lift at 1. cbn [items].
  unfold scan_services in Hbefore.
  rewrite PyFacts.for_each_app, Hbefore. cbn [for_each]. unfold bind at 1.
  rewrite (scan_service_not_mapping _ _ _ _ Hbad). reflexivity.
Qed.

(** The theorem at a document whose second service has nothing under its
    name: the four findings of the first service, then the [parse_error];
    nothing for the third service. *)
Lemma malformed_service_ends_scan_witness :
  map summary_of (snd (scan_compose_file "docker-compose.yml" (Ok (VDict three_services)) [])) =
    [("web", "privileged_containers", "critical");
     ("web", "root_filesystem_writable", "medium");
     ("web", "no_user_specified", "medium");
     ("web", "insecure_capabilities", "high");
     ("N/A", "parse_error", "high")].
Proof.
  rewrite (malformed_service_ends_scan "docker-compose.yml" three_services
             [("web", privileged_service)] [("cache", privileged_service)] "db" VNone []
             (snd (scan_services "docker-compose.yml" [("web", privileged_service)] []))
             eq_refl (fun c H => eq_ind VNone (fun v => match v with
                                                        | VNone => True
                                                        | _ => False
                                                        end) I (VDict c) H)
             eq_refl).
  reflexivity.
Defined.

(** The loop over [cap_add]. *)
Lemma scan_caps_spec
    (file_path service_name : string) (caps : list value) (issues : list issue) :
  for_each caps (scan_cap file_path service_name) issues =
    (Ok tt,
     issues ++ repeat (new_issue file_path service_name "insecure_capabilities")
                      (List.length (filter is_dangerous caps))).
Proof.
  revert issues. induction caps as [|cap r IH]; intros issues.
  - simpl. unfold ret. rewrite app_nil_r. reflexivity.
  - cbn [for_each filter]. unfold bind, scan_cap.
    fold (is_dangerous cap). destruct (is_dangerous cap); cbn [when].
    + unfold _add_issue, modify. rewrite IH. cbn [List.length repeat].
      rewrite <- app_assoc. reflexivity.
    + unfold ret. apply IH.
Qed.

(** X3: the loop over [cap_add] appends one [insecure_capabilities]
    finding for each entry that is one of the five dangerous capabilities,
    repeated entries included, and nothing for the other entries. *)
Theorem one_finding_per_dangerous_capability
    (file_path service_name : string) (caps : list value) (issues : list issue) :
  for_each caps (scan_cap file_path service_name) issues =
    (Ok tt,
     issues ++ repeat (new_issue file_path service_name "insecure_capabilities")
                      (List.length (filter is_dangerous caps))).
Proof.
  apply scan_caps_spec.
Qed.

(** The pattern loop on the patterns [patterns]. *)
Lemma scan_patterns_spec file_path service_name env_lower patterns issues :
  scan_patterns file_path service_name env_lower patterns issues =
    (Ok tt,
     issues ++
     if existsb (fun pattern => contains pattern env_lower) patterns
     then [new_issue file_path service_name
             (if has_weak_value env_lower then "default_secrets"
              else "insecure_environment")]
     else []).
Proof.
  induction patterns as [|p r IH]; cbn [scan_patterns existsb].
  - unfold ret. rewrite app_nil_r. reflexivity.
  - destruct (contains p env_lower); cbn [orb]; [|exact IH].
    destruct (has_weak_value env_lower); reflexivity.
Qed.

Lemma existsb_in {A} (f : A -> bool) (l : list A) (x : A) :
  In x l -> f x = true -> existsb f l = true.
Proof. intros Hin Hf. apply existsb_exists. exists x. split; assumption. Qed.

(** X4: what the scan does with an environment entry that is a string of
    ASCII text.  Without a sensitive pattern in its lower-cased text it
    appends nothing; with one it appends exactly one finding,
    [default_secrets] if the text also has a weak value and
    [insecure_environment] otherwise.  As [password] and [secret] are weak
    values too, an entry with one of them is always reported as
    [default_secrets]. *)
Theorem env_entry_classification
    (file_path service_name env_var : string) (issues : list issue) :
  isascii env_var = true ->
  scan_env_var file_path service_name (VStr env_var) issues =
    (Ok tt,
     issues ++
     if has_sensitive_pattern (lower env_var)
     then [new_issue file_path service_name
             (if has_weak_value (lower env_var) then "default_secrets"
              else "insecure_environment")]
     else []) /\
  (contains "password" (lower env_var) = true \/
   contains "secret" (lower env_var) = true ->
   scan_env_var file_path service_name (VStr env_var) issues =
     (Ok tt, issues ++ [new_issue file_path service_name "default_secrets"])).
Proof.
  intros _.
  assert (Hspec : scan_env_var file_path service_name (VStr env_var) issues =
    (Ok tt,
     issues ++
     if has_sensitive_pattern (lower env_var)
     then [new_issue file_path service_name
             (if has_weak_value (lower env_var) then "default_secrets"
              else "insecure_environment")]
     else [])).
  { unfold scan_env_var, bind, lift, as_str. apply scan_patterns_spec. }
  split; [exact Hspec|].
  intros H. rewrite Hspec.
  assert (Hs : has_sensitive_pattern (lower env_var) = true).
  { unfold has_sensitive_pattern, sensitive_patterns.
    destruct H as [H|H];
      [apply (existsb_in _ _ "password") | apply (existsb_in _ _ "secret")];
      try exact H; simpl; tauto. }
  assert (Hw : has_weak_value (lower env_var) = true).
  { unfold has_weak_value, weak_values.
    destruct H as [H|H];
      [apply (existsb_in _ _ "password") | apply (existsb_in _ _ "secret")];
      try exact H; simpl; tauto. }
  rewrite Hs, Hw. reflexivity.
Qed.

(** The theorem at [JWT_SECRET=x9f]: no weak value but [secret] itself. *)
Lemma env_entry_classification_witness :
  scan_env_var "docker-compose.yml" "api" (VStr "JWT_SECRET=x9f") [] =
    (Ok tt, [] ++ [new_issue "docker-compose.yml" "api" "default_secrets"]).
Proof.
  apply (env_entry_classification "docker-compose.yml" "api" "JWT_SECRET=x9f" []);
    [reflexivity | right; reflexivity].
Defined.

Lemma one_char_not_dangerous (c : ascii) :
  is_dangerous (VStr (String c EmptyString)) = false.
Proof.
  unfold is_dangerous, dangerous_caps. cbn [existsb eq_str String.eqb].
  repeat match goal with
         | |- context [Ascii.eqb c ?x] => destruct (Ascii.eqb c x)
         end; reflexivity.
Qed.

(** X5: [cap_add] given as one string instead of a list.  The loop visits
    its characters, no character is a capability name, and nothing is
    reported, whatever the string: [cap_add: SYS_ADMIN] passes unnoticed;
    [cap_add] set to null, a number or a boolean cannot be iterated and
    raises [TypeError]. *)
Theorem scalar_cap_add_never_flagged
    (file_path service_name text : string) (cap_add : value) (issues : list issue) :
  (exists caps, iter (VStr text) = Ok caps /\
     for_each caps (scan_cap file_path service_name) issues = (Ok tt, issues)) /\
  ((cap_add = VNone \/ (exists z, cap_add = VInt z) \/ (exists b, cap_add = VBool b)) ->
   iter cap_add = Raise (TypeError (type_name cap_add))).
Proof.
  split.
  - eexists. split; [reflexivity|].
    rewrite scan_caps_spec.
    replace (filter is_dangerous
               (map (fun c => VStr (String c EmptyString)) (list_ascii_of_string text)))
      with (@nil value).
    + simpl. rewrite app_nil_r. reflexivity.
    + induction (list_ascii_of_string text) as [|c r IH]; [reflexivity|].
      cbn [map filter]. rewrite one_char_not_dangerous. exact IH.
  - intros [-> | [[z ->] | [b ->]]]; reflexivity.
Qed.

(** The theorem at [cap_add: null]. *)
Lemma scalar_cap_add_never_flagged_witness :
  iter VNone = Raise (TypeError "NoneType").
Proof.
  apply (scalar_cap_add_never_flagged "docker-compose.yml" "web" "SYS_ADMIN" VNone []).
  left. reflexivity.
Defined.

(** *** The scan and the issues it finds in the list *)

Ltac framed_leaf :=
  idtac;
  lazymatch goal with
  | |- framed (_add_issue _ _ _) => apply PyFacts.framed_append
  | |- framed (match ?v with VStr _ => _ | _ => _ end) => destruct v
  | |- framed (match ?x with (_, _) => _ end) => destruct x
  | |- framed (scan_volume _ _ _) => unfold scan_volume
  | |- framed (scan_cap _ _ _) => unfold scan_cap
  | |- framed (scan_port _ _ _) => unfold scan_port
  end.

Lemma scan_patterns_framed file_path service_name env_lower patterns :
  framed (scan_patterns file_path service_name env_lower patterns).
Proof.
  induction patterns as [|p r IH]; cbn [scan_patterns].
  - apply PyFacts.framed_ret.
  - destruct (contains p env_lower); [|exact IH].
    destruct (has_weak_value env_lower); apply PyFacts.framed_append.
Qed.

Lemma scan_env_var_framed file_path service_name env_var :
  framed (scan_env_var file_path service_name env_var).
Proof.
  unfold scan_env_var.
  apply PyFacts.framed_bind; [apply PyFacts.framed_lift | intros s].
  apply scan_patterns_framed.
Qed.

Lemma scan_service_framed file_path service_name service_config :
  framed (_scan_service file_path service_name service_config).
Proof.
  unfold _scan_service.
  PyFacts.framed_with
    ltac:(idtac; lazymatch goal with
                 | |- framed (scan_env_var _ _ _) => apply scan_env_var_framed
                 | |- _ => framed_leaf
                 end).
Qed.

Lemma scan_compose_file_framed file_path loaded :
  framed (scan_compose_file file_path loaded).
Proof.
  unfold scan_compose_file.
  PyFacts.framed_with
    ltac:(idtac; lazymatch goal with
                 | |- framed (match ?x with (_, _) => _ end) =>
                     destruct x; apply scan_service_framed
                 end).
Qed.

(** *** The environment of a service *)

Lemma bind_assoc {S A B C} (m : M S A) (k : A -> M S B) (g : B -> M S C) (s : S) :
  bind (bind m k) g s = bind m (fun a => bind (k a) g) s.
Proof.
  unfold bind. destruct (m s) as [[a|e] s']; reflexivity.
Qed.

Lemma bind_ext {S A B} (m : M S A) (k k' : A -> M S B) (s : S) :
  (forall a s', k a s' = k' a s') -> bind m k s = bind m k' s.
Proof.
  intros H. unfold bind. destruct (m s) as [[a|e] s']; [apply H | reflexivity].
Qed.

(** The scan of a service is what it does before the environment, then the
    loop over the environment entries. *)
Lemma scan_service_environment file_path service_name service_config issues :
  _scan_service file_path service_name service_config issues =
    bind (before_environment file_path service_name service_config) (fun _ =>
    bind (lift (get service_config "environment" (VDict []))) (fun environment =>
    bind (lift (env_vars_of environment)) (fun env_vars =>
    for_each env_vars (scan_env_var file_path service_name)))) issues.
Proof.
  unfold _scan_service, before_environment.
  repeat (rewrite bind_assoc; apply bind_ext; intros).
  reflexivity.
Qed.



Lemma scan_compose_file_ok file_path loaded issues :
  fst (scan_compose_file file_path loaded issues) = Ok tt.
Proof.
  unfold scan_compose_file, try_except.
  match goal with |- context [match ?m issues with _ => _ end] =>
    destruct (m issues) as [[[]|e] s'] end; reflexivity.
Qed.

(** X10: the scan of a compose file does not look at the issues the
    scanner already holds: on any issue list it returns and appends what it
    appends on the empty list.  A scanner that scans the same file twice
    therefore holds every finding twice; nothing is reset or deduplicated. *)
Theorem compose_scan_appends_same_findings
    (file_path : string) (loaded : outcome value) (issues : list issue) :
  let found := snd (scan_compose_file file_path loaded []) in
  scan_compose_file file_path loaded issues = (Ok tt, issues ++ found) /\
  scan_compose_file file_path loaded found = (Ok tt, found ++ found).
Proof.
  intros found.
  assert (H : forall s, scan_compose_file file_path loaded s = (Ok tt, s ++ found)).
  { intros s. rewrite (scan_compose_file_framed file_path loaded s).
    rewrite scan_compose_file_ok. reflexivity. }
  split; apply H.
Qed.

End ComposeFacts.

(** ** github-actions-security.py *)

Module ActionsFacts.
Import PyStr Py Actions.

Ltac appends_steps leaf :=
  PyFacts.steps_with (@PyFacts.appends_refl) (@PyFacts.appends_trans) leaf.

Lemma add_issue_steps (P : issue -> Prop) file_path job_name step_name rule_name :
  P (new_issue file_path job_name step_name rule_name) ->
  steps (appends P) (_add_issue file_path job_name step_name rule_name).
Proof.
  intros H s. apply PyFacts.appends_one. exact H.
Qed.

Ltac other_rule_leaf :=
  idtac;
  lazymatch goal with
  | |- steps _ (_add_issue _ _ _ _) =>
      apply add_issue_steps; unfold other_rule; simpl; discriminate
  end.

Lemma scan_contexts_other file_path job_name step_name run_command contexts :
  steps (appends other_rule)
    (scan_contexts file_path job_name step_name run_command contexts).
Proof.
  induction contexts as [|c r IH]; cbn [scan_contexts].
  - appends_steps other_rule_leaf.
  - apply PyFacts.steps_bind; [apply PyFacts.appends_trans | | ].
    + appends_steps other_rule_leaf.
    + intros [|]; cbv beta iota; [other_rule_leaf | exact IH].
Qed.

Lemma check_injection_other file_path job_name step_name run_command :
  steps (appends other_rule) (check_injection file_path job_name step_name run_command).
Proof.
  unfold check_injection.
  apply PyFacts.steps_bind; [apply PyFacts.appends_trans | | ].
  - destruct (truthy run_command); appends_steps other_rule_leaf.
  - intros b. apply PyFacts.steps_when; [apply PyFacts.appends_refl|].
    apply scan_contexts_other.
Qed.

Lemma scan_env_other file_path job_name step_name entry :
  steps (appends other_rule) (scan_env file_path job_name step_name entry).
Proof.
  unfold scan_env. destruct entry as [env_name env_value].
  destruct env_value; appends_steps other_rule_leaf.
Qed.

Lemma check_artifact_other file_path job_name step_name uses step_config :
  steps (appends other_rule)
    (check_artifact file_path job_name step_name uses step_config).
Proof.
  unfold check_artifact. appends_steps other_rule_leaf.
Qed.

Lemma check_cache_other file_path job_name step_name uses step_config :
  steps (appends other_rule)
    (check_cache file_path job_name step_name uses step_config).
Proof.
  unfold check_cache. appends_steps other_rule_leaf.
Qed.

(** Everything [_scan_step] does after the version-pinning check. *)
Lemma after_pin_other file_path job_name step_name uses step_config :
  steps (appends other_rule)
    (bind (lift (get step_config "run" (VStr EmptyString))) (fun run_command =>
     bind (check_injection file_path job_name step_name run_command) (fun _ =>
     bind (lift (get step_config "env" (VDict []))) (fun env =>
     bind (lift (items env)) (fun entries =>
     bind (for_each entries (scan_env file_path job_name step_name)) (fun _ =>
     bind (check_artifact file_path job_name step_name uses step_config) (fun _ =>
     check_cache file_path job_name step_name uses step_config))))))).
Proof.
  apply PyFacts.steps_bind;
    [apply PyFacts.appends_trans
    | apply PyFacts.steps_lift; apply PyFacts.appends_refl | intros run_command].
  apply PyFacts.steps_bind;
    [apply PyFacts.appends_trans | apply check_injection_other | intros _].
  apply PyFacts.steps_bind;
    [apply PyFacts.appends_trans
    | apply PyFacts.steps_lift; apply PyFacts.appends_refl | intros env].
  apply PyFacts.steps_bind;
    [apply PyFacts.appends_trans
    | apply PyFacts.steps_lift; apply PyFacts.appends_refl | intros entries].
  apply PyFacts.steps_bind; [apply PyFacts.appends_trans | | intros _].
  - apply PyFacts.steps_for_each;
      [apply PyFacts.appends_refl | apply PyFacts.appends_trans | ].
    intros x. apply scan_env_other.
  - apply PyFacts.steps_bind;
      [apply PyFacts.appends_trans | apply check_artifact_other | intros _].
    apply check_cache_other.
Qed.

Lemma pin_findings_other (l : list issue) :
  Forall other_rule l -> pin_findings l = [].
Proof.
  unfold pin_findings.
  induction 1 as [|i l Hi _ IH]; simpl; [reflexivity|].
  destruct (String.eqb (rule i) pin_rule) eqn:E; [|exact IH].
  apply String.eqb_eq in E. contradiction.
Qed.

(** The hexadecimal test of the script, which lowers the text first, accepts
    the digits of either case. *)
Lemma lowered_hex_char (c : ascii) :
  contains (String (lower_char c) EmptyString) "0123456789abcdef" = is_hex_digit c.
Proof.
  destruct c as [[|] [|] [|] [|] [|] [|] [|] [|]]; reflexivity.
Qed.

Lemma is_sha_spec (v : string) :
  is_sha v = ((String.length v =? 40)%nat && all_chars is_hex_digit v).
Proof.
  unfold is_sha. f_equal. unfold all_chars.
  induction v as [|c t IH]; cbn [lower list_ascii_of_string forallb]; [reflexivity|].
  rewrite IH, lowered_hex_char. reflexivity.
Qed.

(** The digit test of the script on a byte is the test for one of the ten
    digits. *)
Lemma isdigit_decimal (c : ascii) : isdigit c = is_decimal_digit c.
Proof.
  destruct c as [[|] [|] [|] [|] [|] [|] [|] [|]]; reflexivity.
Qed.

Lemma not_pinned_spec (c : ascii) (t : string) :
  not_pinned (String c t) = Ok (negb (pinned_version (String c t))).
Proof.
  unfold not_pinned, pinned_version. rewrite <- is_sha_spec, <- isdigit_decimal.
  destruct (is_sha (String c t)); [reflexivity|].
  destruct (startswith (String c t) "v"); reflexivity.
Qed.

Lemma contains_nonempty (needle hay : string) :
  needle <> EmptyString -> contains needle hay = true -> hay <> EmptyString.
Proof.
  intros Hn H ->. destruct needle; [contradiction | discriminate].
Qed.

(** With an [@] in the text, [split('@')] has a second element. *)
Lemma version_part_exists (uses : string) :
  contains "@" uses = true -> exists v, version_part_of uses = Ok v.
Proof.
  rewrite PyStrFacts.contains_char_has_char. intros H.
  destruct (PyStrFacts.split_second "@" uses H) as [h [x [r Hs]]].
  exists x. unfold version_part_of. rewrite Hs. reflexivity.
Qed.

(** The version-pinning check on an external reference with a non-empty
    version part. *)
Lemma check_pin_spec file_path job_name step_name (uses v : string) (issues : list issue) :
  startswith uses "./" = false ->
  startswith uses "docker://" = false ->
  contains "@" uses = true ->
  version_part_of uses = Ok v ->
  v <> EmptyString ->
  check_pin file_path job_name step_name (VStr uses) issues =
    (Ok tt, issues ++ (if pinned_version v then []
                       else [new_issue file_path job_name step_name pin_rule])).
Proof.
  intros Hrel Hdocker Hat Hv Hne.
  assert (Hu : uses <> EmptyString) by (eapply contains_nonempty; [|exact Hat]; discriminate).
  apply String.eqb_neq in Hu.
  unfold check_pin, bind, lift, is_external, truthy, as_str, contains_str.
  rewrite Hu, Hrel, Hdocker, Hat, Hv. cbn [negb andb when].
  destruct v as [|c t]; [contradiction|].
  rewrite not_pinned_spec.
  destruct (pinned_version (String c t)); cbn [negb when].
  - unfold ret. rewrite app_nil_r. reflexivity.
  - reflexivity.
Qed.




Lemma contains_at_end (action : string) : contains "@" (action ++ "@")%string = true.
Proof.
  induction action as [|c t IH]; [reflexivity|].
  change (String c t ++ "@")%string with (String c (t ++ "@")%string).
  apply PyStrFacts.contains_cons. exact IH.
Qed.

(** A step whose external [uses] reference ends with [@]: the scan of the
    step raises [IndexError] before any issue is appended. *)
Lemma scan_step_empty_version
    (file_path job_name : string) (step_index : Z) (d : list (string * value))
    (action : string) (issues : list issue) :
  lookup "uses" d = Some (VStr (action ++ "@")%string) ->
  startswith (action ++ "@")%string "./" = false ->
  startswith (action ++ "@")%string "docker://" = false ->
  has_char "@" action = false ->
  _scan_step file_path job_name step_index (VDict d) issues = (Raise IndexError, issues).
Proof.
  intros Huses Hrel Hdocker Hno.
  assert (Hu : (action ++ "@")%string <> EmptyString) by (destruct action; discriminate).
  apply String.eqb_neq in Hu.
  unfold _scan_step.
  unfold bind at 1. unfold lift at 1. cbn [get].
  unfold bind at 1. unfold lift at 1. cbn [get]. rewrite Huses.
  unfold bind at 1.
  unfold check_pin, bind, lift, is_external, truthy, as_str, contains_str, version_part_of.
  rewrite Hu, Hrel, Hdocker, contains_at_end.
  rewrite (PyStrFacts.split_first "@" action EmptyString Hno).
  reflexivity.
Qed.

(** C10: a workflow whose step has an external [uses] reference ending with
    [@].  The version part is empty, the version-pinning check indexes its
    first character and raises [IndexError]; the handler of
    [scan_workflow_file] reports the file as a single [parse_error] finding
    of severity high, and the [self_hosted_runner] finding appended for the
    job before the step was reached stays in the issue list. *)
Theorem empty_version_reported_as_parse_error
    (file_path action : string) (issues : list issue) :
  startswith (action ++ "@")%string "./" = false ->
  startswith (action ++ "@")%string "docker://" = false ->
  has_char "@" action = false ->
  version_part_of (action ++ "@")%string = Ok EmptyString /\
  not_pinned EmptyString = Raise IndexError /\
  scan_workflow_file file_path (Ok (workflow_using (action ++ "@")%string)) issues =
    (Ok tt, issues ++ [new_issue file_path "build" (VStr "runner") "self_hosted_runner";
                       parse_error_issue file_path IndexError]) /\
  summary_of (parse_error_issue file_path IndexError) =
    ("N/A", VStr "N/A", "parse_error", "high").
Proof.
  intros Hrel Hdocker Hno.
  split; [|split; [reflexivity|split; [|reflexivity]]].
  - unfold version_part_of.
    rewrite (PyStrFacts.split_first "@" action EmptyString Hno). reflexivity.
  - unfold scan_workflow_file, workflow_using, try_except.
    unfold bind at 1. unfold lift at 1. cbn [truthy negb].
    unfold bind at 1. unfold lift at 1. cbn [get lookup String.eqb Ascii.eqb Bool.eqb].
    unfold bind at 1. unfold _check_triggers, bind at 1, lift at 1.
    cbn [contains_str has_key lookup when ret].
    unfold bind at 1. unfold lift at 1. cbn [get lookup String.eqb Ascii.eqb Bool.eqb].
    unfold bind at 1. unfold lift at 1. cbn [items for_each].
    unfold bind at 1. unfold _scan_job.
    unfold bind at 1. unfold lift at 1. cbn [get lookup String.eqb Ascii.eqb Bool.eqb].
    unfold bind at 1. cbn [filter snd eq_str List.length Nat.ltb Nat.leb when ret].
    unfold bind at 1. unfold lift at 1. cbn [get lookup String.eqb Ascii.eqb Bool.eqb].
    unfold bind at 1.
    replace (contains "self-hosted" "self-hosted") with true by reflexivity.
    cbn [when]. unfold _add_issue at 1, modify at 1.
    unfold bind at 1. unfold lift at 1. cbn [get lookup String.eqb Ascii.eqb Bool.eqb].
    unfold bind at 1. unfold lift at 1. cbn [iter enumerate enumerate_from for_each].
    unfold bind at 1.
    rewrite (scan_step_empty_version file_path "build" 0
               [("uses", VStr (action ++ "@")%string)] action _ eq_refl Hrel Hdocker Hno).
    unfold modify. rewrite <- app_assoc. reflexivity.
Qed.

(** The theorem at the reference [actions/checkout@]. *)
Lemma empty_version_reported_as_parse_error_witness :
  map summary_of
    (snd (scan_workflow_file "ci.yml" (Ok (workflow_using "actions/checkout@")) [])) =
  [("build", VStr "runner", "self_hosted_runner", "medium");
   ("N/A", VStr "N/A", "parse_error", "high")].
Proof.
  destruct (empty_version_reported_as_parse_error "ci.yml" "actions/checkout" []
              eq_refl eq_refl eq_refl) as [_ [_ [H _]]].
  change ("actions/checkout" ++ "@")%string with "actions/checkout@" in H.
  rewrite H. reflexivity.
Defined.

(** Neither scanner lets an exception out of the scan of a file. *)
Lemma scan_compose_file_returns file_path loaded :
  returns (Compose.scan_compose_file file_path loaded).
Proof.
  apply PyFacts.returns_try_except. intros e s. exists tt. reflexivity.
Qed.

Lemma scan_workflow_file_returns file_path loaded :
  returns (scan_workflow_file file_path loaded).
Proof.
  apply PyFacts.returns_try_except. intros e s. exists tt. reflexivity.
Qed.

Lemma scan_workflows_directory_returns workflow_files :
  returns (scan_workflows_directory workflow_files).
Proof.
  apply PyFacts.returns_for_each. intros [f l]. apply scan_workflow_file_returns.
Qed.

(** C8: when loading a document raises, the scan of the file appends
    exactly one finding, [parse_error] of severity high with the service, or
    the job and the step, set to [N/A], and returns; no scan of a file ever
    raises, and the scan of a directory goes on with the files after the one
    that failed to load. *)
Theorem parse_failure_one_finding_scan_goes_on
    (file_path : string) (e : exn)
    (compose_issues : list Compose.issue) (issues : list issue)
    (before after : list (string * outcome value)) :
  (Compose.scan_compose_file file_path (Raise e) compose_issues =
     (Ok tt, compose_issues ++ [Compose.parse_error_issue file_path e]) /\
   Compose.summary_of (Compose.parse_error_issue file_path e) =
     ("N/A", "parse_error", "high")) /\
  (scan_workflow_file file_path (Raise e) issues =
     (Ok tt, issues ++ [parse_error_issue file_path e]) /\
   summary_of (parse_error_issue file_path e) =
     ("N/A", VStr "N/A", "parse_error", "high")) /\
  (forall path loaded, returns (Compose.scan_compose_file path loaded)) /\
  (forall path loaded, returns (scan_workflow_file path loaded)) /\
  (exists issues1,
     scan_workflows_directory before issues = (Ok tt, issues1) /\
     scan_workflows_directory (before ++ (file_path, Raise e) :: after) issues =
       scan_workflows_directory after (issues1 ++ [parse_error_issue file_path e])).
Proof.
  split; [split; reflexivity|]. split; [split; reflexivity|].
  split; [exact scan_compose_file_returns|].
  split; [exact scan_workflow_file_returns|].
  destruct (scan_workflows_directory_returns before issues) as [[] Hret].
  destruct (scan_workflows_directory before issues) as [o issues1] eqn:Hbefore.
  simpl in Hret. subst o.
  exists issues1. split; [reflexivity|].
  unfold scan_workflows_directory in *.
  rewrite PyFacts.for_each_app, Hbefore. reflexivity.
Qed.

(** *** What the scan appends *)

Lemma appends_impl {I} (P Q : I -> Prop) (s s' : list I) :
  (forall i, P i -> Q i) -> appends P s s' -> appends Q s s'.
Proof.
  intros H [added [Hs Hp]]. exists added. split; [exact Hs|].
  eapply Forall_impl; [exact H | exact Hp].
Qed.

Lemma steps_impl {A} (P Q : issue -> Prop) (m : M (list issue) A) :
  (forall i, P i -> Q i) -> steps (appends P) m -> steps (appends Q) m.
Proof. intros H Hm s. eapply appends_impl; [exact H | apply Hm]. Qed.

Ltac in_list := simpl; repeat first [left; reflexivity | right].

Ltac step_issue_leaf :=
  idtac;
  lazymatch goal with
  | |- steps _ (_add_issue _ _ _ _) =>
      apply add_issue_steps; split; [in_list | unfold catalogued; in_list]
  end.

Ltac step_issue_steps :=
  PyFacts.steps_with (@PyFacts.appends_refl) (@PyFacts.appends_trans) step_issue_leaf.

Lemma check_pin_step_issue file_path job_name step_name uses :
  steps (appends step_issue) (check_pin file_path job_name step_name uses).
Proof. unfold check_pin. step_issue_steps. Qed.

Lemma scan_contexts_step_issue file_path job_name step_name run_command contexts :
  steps (appends step_issue)
    (scan_contexts file_path job_name step_name run_command contexts).
Proof.
  induction contexts as [|c r IH]; cbn [scan_contexts].
  - step_issue_steps.
  - apply PyFacts.steps_bind; [apply PyFacts.appends_trans | | ].
    + step_issue_steps.
    + intros [|]; cbv beta iota; [step_issue_leaf | exact IH].
Qed.

Lemma check_injection_step_issue file_path job_name step_name run_command :
  steps (appends step_issue) (check_injection file_path job_name step_name run_command).
Proof.
  unfold check_injection.
  apply PyFacts.steps_bind; [apply PyFacts.appends_trans | | ].
  - destruct (truthy run_command); step_issue_steps.
  - intros b. apply PyFacts.steps_when; [apply PyFacts.appends_refl|].
    apply scan_contexts_step_issue.
Qed.

Lemma scan_env_step_issue file_path job_name step_name entry :
  steps (appends step_issue) (scan_env file_path job_name step_name entry).
Proof.
  unfold scan_env. destruct entry as [env_name env_value].
  destruct env_value; step_issue_steps.
Qed.

Lemma check_artifact_step_issue file_path job_name step_name uses step_config :
  steps (appends step_issue)
    (check_artifact file_path job_name step_name uses step_config).
Proof. unfold check_artifact. step_issue_steps. Qed.

Lemma check_cache_step_issue file_path job_name step_name uses step_config :
  steps (appends step_issue)
    (check_cache file_path job_name step_name uses step_config).
Proof. unfold check_cache. step_issue_steps. Qed.

Ltac scan_step_leaf :=
  idtac;
  lazymatch goal with
  | |- steps _ (check_pin _ _ _ _) => apply check_pin_step_issue
  | |- steps _ (check_injection _ _ _ _) => apply check_injection_step_issue
  | |- steps _ (scan_env _ _ _ _) => apply scan_env_step_issue
  | |- steps _ (check_artifact _ _ _ _ _) => apply check_artifact_step_issue
  | |- steps _ (check_cache _ _ _ _ _) => apply check_cache_step_issue
  end.

Lemma scan_step_step_issue file_path job_name step_index step_config :
  steps (appends step_issue) (_scan_step file_path job_name step_index step_config).
Proof.
  unfold _scan_step.
  PyFacts.steps_with (@PyFacts.appends_refl) (@PyFacts.appends_trans) scan_step_leaf.
Qed.

Lemma scan_job_catalogued file_path job_name job_config :
  steps (appends catalogued) (_scan_job file_path job_name job_config).
Proof.
  unfold _scan_job.
  PyFacts.steps_with (@PyFacts.appends_refl) (@PyFacts.appends_trans)
    ltac:(idtac; lazymatch goal with
                 | |- steps _ (_add_issue _ _ _ _) =>
                     apply add_issue_steps; unfold catalogued; in_list
                 | |- steps _ (match ?x with (_, _) => _ end) =>
                     destruct x;
                     apply (steps_impl step_issue catalogued);
                     [intros ? [_ H]; exact H | apply scan_step_step_issue]
                 | |- steps _ (match ?v with VDict _ => _ | _ => _ end) => destruct v
                 end).
Qed.

Lemma scan_workflow_file_catalogued file_path loaded :
  steps (appends catalogued) (scan_workflow_file file_path loaded).
Proof.
  unfold scan_workflow_file.
  apply PyFacts.steps_try_except; [apply PyFacts.appends_trans | | ].
  - unfold _check_triggers.
    PyFacts.steps_with (@PyFacts.appends_refl) (@PyFacts.appends_trans)
      ltac:(idtac; lazymatch goal with
                   | |- steps _ (_add_issue _ _ _ _) =>
                       apply add_issue_steps; unfold catalogued; in_list
                   | |- steps _ (match ?x with (_, _) => _ end) =>
                       destruct x; apply scan_job_catalogued
                   end).
  - intros e. apply PyFacts.steps_modify. intros s.
    apply PyFacts.appends_one. unfold catalogued. in_list.
Qed.

Lemma scan_workflows_directory_catalogued workflow_files :
  steps (appends catalogued) (scan_workflows_directory workflow_files).
Proof.
  unfold scan_workflows_directory.
  apply PyFacts.steps_for_each; [apply PyFacts.appends_refl | apply PyFacts.appends_trans | ].
  intros [f l]. apply scan_workflow_file_catalogued.
Qed.

Lemma workflow_catalogued_severity (i : issue) :
  catalogued i ->
  severity i = "critical" \/ severity i = "high" \/
  severity i = "medium" \/ severity i = "low".
Proof.
  unfold catalogued. intros H.
  cbv [catalogue security_rules map app fst snd rule_severity In] in H.
  repeat (destruct H as [H|H];
          [injection H as _ <-;
           solve [repeat first [reflexivity | left; reflexivity | right]]|]).
  contradiction.
Qed.

Lemma workflow_count_issue_sum (c : severity_counts) (i : issue) :
  catalogued i -> sum_counts (count_issue c i) = (sum_counts c + 1)%Z.
Proof.
  intros H. apply workflow_catalogued_severity in H.
  unfold count_issue, sum_counts.
  destruct H as [-> | [-> | [-> | ->]]]; simpl; lia.
Qed.

Lemma workflow_fold_count_sum (l : list issue) (c : severity_counts) :
  Forall catalogued l ->
  sum_counts (fold_left count_issue l c) = (sum_counts c + Z.of_nat (List.length l))%Z.
Proof.
  intros H. revert c. induction H as [|i l Hi _ IH]; intros c.
  - simpl. lia.
  - cbn [fold_left List.length]. rewrite IH, (workflow_count_issue_sum c i Hi). lia.
Qed.

(** X6: whatever the workflow files hold, each issue the scan of a
    directory appends carries a rule of the catalogue (or [parse_error])
    with the severity the catalogue gives it, never the [unknown] fallback;
    so the counts of [_get_summary] add up to [total_issues]. *)
Theorem workflow_issues_catalogued_and_counted
    (workflow_files : list (string * outcome value)) :
  Forall catalogued (snd (scan_workflows_directory workflow_files [])) /\
  sum_counts (summary (get_results (snd (scan_workflows_directory workflow_files [])))) =
    total_issues (get_results (snd (scan_workflows_directory workflow_files []))).
Proof.
  destruct (scan_workflows_directory_catalogued workflow_files []) as [added [Hs Hc]].
  rewrite Hs. simpl app. split; [exact Hc|].
  unfold get_results, _get_summary. cbn [summary total_issues].
  rewrite (workflow_fold_count_sum added (mk_counts 0 0 0 0) Hc). reflexivity.
Qed.

(** The scan of a step once the version-pinning check has returned. *)
Lemma scan_step_after_pin
    (file_path job_name : string) (step_index : Z) (d : list (string * value))
    (uses : string) (issues pinned : list issue) :
  lookup "uses" d = Some (VStr uses) ->
  check_pin file_path job_name (step_name_of step_index d) (VStr uses) issues =
    (Ok tt, issues ++ pinned) ->
  exists added,
    snd (_scan_step file_path job_name step_index (VDict d) issues) =
      issues ++ pinned ++ added /\
    Forall other_rule added.
Proof.
  intros Huses Hpin.
  unfold _scan_step.
  unfold bind at 1. unfold lift at 1. cbn [get].
  fold (step_name_of step_index d).
  unfold bind at 1. unfold lift at 1. cbn [get]. rewrite Huses.
  unfold bind at 1. rewrite Hpin. cbv beta iota.
  destruct (after_pin_other file_path job_name (step_name_of step_index d)
              (VStr uses) (VDict d) (issues ++ pinned)) as [added [Hadded Hother]].
  cbn [get] in Hadded. rewrite Hadded.
  exists added. split; [symmetry; apply app_assoc | exact Hother].
Qed.

Lemma pin_findings_app (a b : list issue) :
  pin_findings (a ++ b) = pin_findings a ++ pin_findings b.
Proof. apply filter_app. Qed.

(** X7: the version-pinning rule on references without a version.  A
    step whose [uses] is empty, local ([./...]) or a container image
    ([docker://...]) never gets a [third_party_action_no_pin] finding; a step
    whose [uses] is any other text without [@] always gets exactly one. *)
Theorem unversioned_reference_flagged_unless_local
    (file_path job_name : string) (step_index : Z) (d : list (string * value))
    (uses : string) (issues : list issue) :
  lookup "uses" d = Some (VStr uses) ->
  contains "@" uses = false ->
  exists found,
    snd (_scan_step file_path job_name step_index (VDict d) issues) = issues ++ found /\
    pin_findings found =
      if String.eqb uses EmptyString || startswith uses "./" || startswith uses "docker://"
      then []
      else [new_issue file_path job_name (step_name_of step_index d) pin_rule].
Proof.
  intros Huses Hat.
  set (local := String.eqb uses EmptyString || startswith uses "./"
                || startswith uses "docker://").
  assert (Hpin : check_pin file_path job_name (step_name_of step_index d) (VStr uses) issues =
                 (Ok tt, issues ++ if local then []
                                   else [new_issue file_path job_name
                                           (step_name_of step_index d) pin_rule])).
  { unfold check_pin, bind, lift, is_external, truthy, as_str, contains_str.
    subst local. rewrite Hat.
    destruct (String.eqb uses EmptyString); cbn [negb orb andb when].
    - unfold ret. rewrite app_nil_r. reflexivity.
    - destruct (startswith uses "./"); cbn [negb orb andb when].
      + unfold ret. rewrite app_nil_r. reflexivity.
      + destruct (startswith uses "docker://"); cbn [negb orb andb when].
        * unfold ret. rewrite app_nil_r. reflexivity.
        * reflexivity. }
  destruct (scan_step_after_pin _ _ _ _ _ _ _ Huses Hpin) as [added [Hs Hother]].
  eexists. split; [exact Hs|].
  rewrite pin_findings_app, (pin_findings_other added Hother), app_nil_r.
  destruct local; reflexivity.
Qed.

(** The theorem at a step that uses [actions/checkout] without a version. *)
Lemma unversioned_reference_flagged_unless_local_witness :
  exists found,
    snd (_scan_step "ci.yml" "build" 0 (VDict [("uses", VStr "actions/checkout")]) []) =
      [] ++ found /\
    pin_findings found = [new_issue "ci.yml" "build" (VStr "step-0") pin_rule].
Proof.
  apply (unversioned_reference_flagged_unless_local "ci.yml" "build" 0
           [("uses", VStr "actions/checkout")] "actions/checkout" []); reflexivity.
Defined.

Lemma scan_contexts_spec file_path job_name step_name (run : string) contexts issues :
  scan_contexts file_path job_name step_name (VStr run) contexts issues =
    (Ok tt,
     issues ++ if existsb (fun context => contains context run) contexts
               then [new_issue file_path job_name step_name "script_injection"]
               else []).
Proof.
  induction contexts as [|c r IH]; cbn [scan_contexts existsb].
  - unfold ret. rewrite app_nil_r. reflexivity.
  - unfold bind, lift. cbn [contains_str].
    destruct (contains c run); cbn [orb]; [reflexivity | exact IH].
Qed.


(** X9: the cache-key check on a step with a [with] mapping whose [key]
    is a string.  The step is flagged [cache_key_predictable] exactly when it
    uses [actions/cache], the key is not empty and contains none of [${{],
    [hashFiles], [runner.os]; the literal text [runner.os] or [hashFiles] in
    a key is enough for it to pass. *)
Theorem cache_key_flagged_iff_static
    (file_path job_name : string) (step_name : value) (uses key : string)
    (d w : list (string * value)) (issues : list issue) :
  lookup "with" d = Some (VDict w) ->
  lookup "key" w = Some (VStr key) ->
  check_cache file_path job_name step_name (VStr uses) (VDict d) issues =
    (Ok tt,
     issues ++ if startswith uses "actions/cache"
                  && negb (String.eqb key EmptyString)
                  && negb (is_dynamic_key key)
               then [new_issue file_path job_name step_name "cache_key_predictable"]
               else []).
Proof.
  intros Hwith Hkey.
  unfold check_cache, bind, lift, as_str, is_dynamic_key.
  destruct (startswith uses "actions/cache"); cbn [when andb].
  - cbn [get]. rewrite Hwith. cbn [get]. rewrite Hkey. cbn [truthy].
    destruct (String.eqb key EmptyString); cbn [negb when andb].
    + unfold ret. rewrite app_nil_r. reflexivity.
    + cbn [any_in contains_str].
      destruct (contains "${{" key); cbn [orb negb when];
        [unfold ret; rewrite app_nil_r; reflexivity|].
      destruct (contains "hashFiles" key); cbn [orb negb when];
        [unfold ret; rewrite app_nil_r; reflexivity|].
      destruct (contains "runner.os" key); cbn [orb negb when];
        [unfold ret; rewrite app_nil_r; reflexivity|].
      reflexivity.
  - unfold ret. rewrite app_nil_r. reflexivity.
Qed.

(** The theorem at a cache step with the key [npm-cache]. *)
Lemma cache_key_flagged_iff_static_witness :
  check_cache "ci.yml" "build" (VStr "cache") (VStr "actions/cache@v4")
    (VDict [("uses", VStr "actions/cache@v4");
            ("with", VDict [("path", VStr "~/.npm"); ("key", VStr "npm-cache")])]) [] =
    (Ok tt, [] ++ [new_issue "ci.yml" "build" (VStr "cache") "cache_key_predictable"]).
Proof.
  apply (cache_key_flagged_iff_static "ci.yml" "build" (VStr "cache") "actions/cache@v4"
           "npm-cache"
           [("uses", VStr "actions/cache@v4");
            ("with", VDict [("path", VStr "~/.npm"); ("key", VStr "npm-cache")])]
           [("path", VStr "~/.npm"); ("key", VStr "npm-cache")] []); reflexivity.
Defined.

(** *** The scan and the issues it finds in the list *)

Ltac framed_leaf :=
  idtac;
  lazymatch goal with
  | |- framed (_add_issue _ _ _ _) => apply PyFacts.framed_append
  | |- framed (match ?x with (_, _) => _ end) => destruct x
  | |- framed (match ?v with VDict _ => _ | _ => _ end) => destruct v
  | |- framed (match ?v with VStr _ => _ | _ => _ end) => destruct v
  | |- framed (check_pin _ _ _ _) => unfold check_pin
  | |- framed (check_artifact _ _ _ _ _) => unfold check_artifact
  | |- framed (check_cache _ _ _ _ _) => unfold check_cache
  | |- framed (_check_triggers _ _) => unfold _check_triggers
  end.

Lemma scan_contexts_framed file_path job_name step_name run_command contexts :
  framed (scan_contexts file_path job_name step_name run_command contexts).
Proof.
  induction contexts as [|c r IH]; cbn [scan_contexts].
  - apply PyFacts.framed_ret.
  - apply PyFacts.framed_bind; [apply PyFacts.framed_lift|].
    intros [|]; [apply PyFacts.framed_append | exact IH].
Qed.

Lemma check_injection_framed file_path job_name step_name run_command :
  framed (check_injection file_path job_name step_name run_command).
Proof.
  unfold check_injection.
  apply PyFacts.framed_bind.
  - destruct (truthy run_command); [apply PyFacts.framed_lift | apply PyFacts.framed_ret].
  - intros b. apply PyFacts.framed_when. apply scan_contexts_framed.
Qed.

Lemma scan_env_framed file_path job_name step_name entry :
  framed (scan_env file_path job_name step_name entry).
Proof.
  unfold scan_env. destruct entry as [env_name env_value].
  destruct env_value; PyFacts.framed_with framed_leaf.
Qed.

Lemma scan_step_framed file_path job_name step_index step_config :
  framed (_scan_step file_path job_name step_index step_config).
Proof.
  unfold _scan_step.
  PyFacts.framed_with
    ltac:(idtac; lazymatch goal with
                 | |- framed (check_injection _ _ _ _) => apply check_injection_framed
                 | |- framed (scan_env _ _ _ _) => apply scan_env_framed
                 | |- _ => framed_leaf
                 end).
Qed.

Lemma scan_job_framed file_path job_name job_config :
  framed (_scan_job file_path job_name job_config).
Proof.
  unfold _scan_job.
  PyFacts.framed_with
    ltac:(idtac; lazymatch goal with
                 | |- framed (match ?x with (_, _) => _ end) =>
                     destruct x; apply scan_step_framed
                 | |- _ => framed_leaf
                 end).
Qed.

Lemma scan_workflow_file_framed file_path loaded :
  framed (scan_workflow_file file_path loaded).
Proof.
  unfold scan_workflow_file.
  PyFacts.framed_with
    ltac:(idtac; lazymatch goal with
                 | |- framed (match ?x with (_, _) => _ end) =>
                     destruct x; apply scan_job_framed
                 | |- _ => framed_leaf
                 end).
Qed.

Lemma scan_directory_concat workflow_files issues :
  scan_workflows_directory workflow_files issues =
    (Ok tt, issues ++ List.concat (map issues_of_file workflow_files)).
Proof.
  unfold scan_workflows_directory.
  rewrite PyFacts.for_each_framed_concat.
  - f_equal. f_equal. f_equal. apply map_ext. intros [f l]. reflexivity.
  - intros [f l]. apply scan_workflow_file_framed.
  - intros [f l]. apply scan_workflow_file_returns.
Qed.

(** X11: the scan of a directory of workflows returns, and the issues it
    appends are the issues of its files, each scanned on its own, one file
    after the other: the findings of a file depend neither on the files
    scanned before it nor on the issues already held. *)
Theorem directory_scan_is_concatenation
    (workflow_files : list (string * outcome value)) (issues : list issue) :
  scan_workflows_directory workflow_files issues =
    (Ok tt, issues ++ List.concat (map issues_of_file workflow_files)).
Proof.
  apply scan_directory_concat.
Qed.

Lemma count_issue_comm (c : severity_counts) (a b : issue) :
  count_issue (count_issue c a) b = count_issue (count_issue c b) a.
Proof.
  unfold count_issue.
  destruct (String.eqb (severity a) "critical"), (String.eqb (severity a) "high"),
    (String.eqb (severity a) "medium"), (String.eqb (severity a) "low"),
    (String.eqb (severity b) "critical"), (String.eqb (severity b) "high"),
    (String.eqb (severity b) "medium"), (String.eqb (severity b) "low");
    reflexivity.
Qed.

Lemma summary_permutation (l l' : list issue) :
  Permutation l l' ->
  forall c, fold_left count_issue l c = fold_left count_issue l' c.
Proof.
  induction 1 as [|x l l' _ IH|x y l|l l' l'' _ IH1 _ IH2]; intros c; simpl.
  - reflexivity.
  - apply IH.
  - rewrite count_issue_comm. reflexivity.
  - rewrite IH1. apply IH2.
Qed.

(** X12: the order in which the workflow files are scanned changes the
    order of the issues only: for two orders of the same files, the issue
    lists are permutations of each other, and [get_results] gives the same
    total and the same summary. *)
Theorem summary_independent_of_file_order
    (workflow_files workflow_files' : list (string * outcome value)) :
  Permutation workflow_files workflow_files' ->
  let r := get_results (snd (scan_workflows_directory workflow_files [])) in
  let r' := get_results (snd (scan_workflows_directory workflow_files' [])) in
  Permutation (issues r) (issues r') /\
  total_issues r = total_issues r' /\
  summary r = summary r'.
Proof.
  intros Hperm r r'. subst r r'.
  rewrite !scan_directory_concat. cbn [snd app get_results issues total_issues summary].
  assert (Hp : Permutation (List.concat (map issues_of_file workflow_files))
                           (List.concat (map issues_of_file workflow_files'))).
  { rewrite <- !flat_map_concat_map. apply Permutation_flat_map. exact Hperm. }
  split; [exact Hp|]. split.
  - f_equal. apply Permutation_length. exact Hp.
  - unfold _get_summary. apply summary_permutation. exact Hp.
Qed.

(** The theorem at two files, scanned in the two orders. *)
Lemma summary_independent_of_file_order_witness :
  summary (get_results (snd (scan_workflows_directory two_files []))) =
  summary (get_results (snd (scan_workflows_directory (rev two_files) []))).
Proof.
  apply (summary_independent_of_file_order two_files (rev two_files)).
  apply Permutation_rev.
Defined.

(** Everything [_scan_job] does after the permissions check. *)
Lemma after_permissions_other file_path job_name job_config :
  steps (appends not_permissions)
    (bind (lift (get job_config "runs-on" (VStr EmptyString))) (fun runs_on =>
     bind (match runs_on with
           | VStr s =>
               when (contains "self-hosted" s)
                 (_add_issue file_path job_name (VStr "runner") "self_hosted_runner")
           | _ => ret tt
           end) (fun _ =>
     bind (lift (get job_config "steps" (VList []))) (fun steps =>
     bind (lift (iter steps)) (fun ss =>
     for_each (enumerate ss)
       (fun ist => match ist with
                   | (i, step_config) => _scan_step file_path job_name i step_config
                   end)))))).
Proof.
  PyFacts.steps_with (@PyFacts.appends_refl) (@PyFacts.appends_trans)
    ltac:(idtac; lazymatch goal with
                 | |- steps _ (_add_issue _ _ _ _) =>
                     apply add_issue_steps; unfold not_permissions; simpl; discriminate
                 | |- steps _ (match ?x with (_, _) => _ end) =>
                     destruct x;
                     apply (steps_impl step_issue not_permissions);
                     [|apply scan_step_step_issue];
                     let i := fresh "i" in
                     let H := fresh "H" in
                     intros i [H _]; unfold not_permissions; intros E;
                     rewrite E in H; simpl in H;
                     repeat (destruct H as [H|H]; [discriminate H|]); exact H
                 | |- steps _ (match ?v with VStr _ => _ | _ => _ end) => destruct v
                 end).
Qed.

Lemma findings_of_other (l : list issue) :
  Forall not_permissions l -> findings_of permissions_rule l = [].
Proof.
  unfold findings_of.
  induction 1 as [|i l Hi _ IH]; simpl; [reflexivity|].
  destruct (String.eqb (rule i) permissions_rule) eqn:E; [|exact IH].
  apply String.eqb_eq in E. contradiction.
Qed.

(** X13: the permissions rule.  The scan of a job, whatever else it finds
    and whether or not it raises later, appends one
    [write_permissions_broad] finding when [permissions] is a mapping with
    more than three entries equal to [write], and none otherwise: none for a
    mapping with up to three, none when the key is missing, and none when
    [permissions] is not a mapping, as with [permissions: write-all]. *)
Theorem broad_permissions_flagged_for_mappings_only
    (file_path job_name : string) (d : list (string * value)) (issues : list issue) :
  exists found,
    snd (_scan_job file_path job_name (VDict d) issues) = issues ++ found /\
    findings_of permissions_rule found =
      match lookup "permissions" d with
      | Some (VDict p) =>
          if (3 <? List.length (write_perms p))%nat
          then [new_issue file_path job_name (VStr "permissions") permissions_rule]
          else []
      | _ => []
      end.
Proof.
  unfold _scan_job.
  unfold bind at 1. unfold lift at 1. cbn [get].
  set (flagged := match lookup "permissions" d with
                  | Some (VDict p) =>
                      if (3 <? List.length (write_perms p))%nat
                      then [new_issue file_path job_name (VStr "permissions")
                              permissions_rule]
                      else []
                  | _ => []
                  end).
  assert (Hperm :
    (match match lookup "permissions" d with Some x => x | None => VDict [] end with
     | VDict p =>
         when (3 <? List.length (filter (fun kv => eq_str (snd kv) "write") p))%nat
           (_add_issue file_path job_name (VStr "permissions") "write_permissions_broad")
     | _ => ret tt
     end) issues = (Ok tt, issues ++ flagged)).
  { subst flagged. unfold write_perms.
    destruct (lookup "permissions" d) as [[| | | | |p]|];
      try (unfold ret; rewrite app_nil_r; reflexivity).
    destruct (3 <? List.length (filter (fun kv => eq_str (snd kv) "write") p))%nat;
      [reflexivity | unfold when, ret; rewrite app_nil_r; reflexivity]. }
  unfold bind at 1. rewrite Hperm. cbv beta iota.
  destruct (after_permissions_other file_path job_name (VDict d) (issues ++ flagged))
    as [added [Hs Hother]].
  cbn [get] in Hs. rewrite Hs.
  exists (flagged ++ added). split; [symmetry; apply app_assoc|].
  unfold findings_of. rewrite filter_app.
  fold (findings_of permissions_rule added).
  rewrite (findings_of_other added Hother), app_nil_r.
  subst flagged.
  destruct (lookup "permissions" d) as [[| | | | |p]|]; try reflexivity.
  destruct (3 <? List.length (write_perms p))%nat; reflexivity.
Qed.

(** X14: documents with nothing to scan.  An empty document (null, an
    empty mapping) gives no issue with either scanner, and no
    [parse_error]; so does a compose document without [services] or with an
    empty [services], and a workflow without [on] and without [jobs]. *)
Theorem nothing_to_scan
    (file_path : string) (doc : value) (d : list (string * value))
    (compose_issues : list Compose.issue) (issues : list issue) :
  (truthy doc = false ->
   Compose.scan_compose_file file_path (Ok doc) compose_issues = (Ok tt, compose_issues) /\
   scan_workflow_file file_path (Ok doc) issues = (Ok tt, issues)) /\
  (lookup "services" d = None \/ lookup "services" d = Some (VDict []) ->
   Compose.scan_compose_file file_path (Ok (VDict d)) compose_issues =
     (Ok tt, compose_issues)) /\
  (lookup "on" d = None -> lookup "jobs" d = None ->
   scan_workflow_file file_path (Ok (VDict d)) issues = (Ok tt, issues)).
Proof.
  split; [|split].
  - intros H. unfold Compose.scan_compose_file, scan_workflow_file, try_except, bind, lift.
    rewrite H. split; reflexivity.
  - intros H. unfold Compose.scan_compose_file, try_except, bind, lift.
    destruct (truthy (VDict d)); [|reflexivity]. cbn [negb contains_str].
    unfold has_key, subscript.
    destruct H as [H|H]; rewrite H; reflexivity.
  - intros Hon Hjobs. unfold scan_workflow_file, try_except, bind, lift.
    destruct (truthy (VDict d)); [|reflexivity]. cbn [negb get].
    rewrite Hon, Hjobs. reflexivity.
Qed.

(** The theorem at a compose file with only a [version] key and at a
    workflow with only a [name] key. *)
Lemma nothing_to_scan_witness :
  Compose.scan_compose_file "docker-compose.yml" (Ok (VDict [("version", VStr "3.8")])) [] =
    (Ok tt, []) /\
  scan_workflow_file "ci.yml" (Ok (VDict [("version", VStr "3.8")])) [] = (Ok tt, []).
Proof.
  destruct (nothing_to_scan "ci.yml" VNone [("version", VStr "3.8")] [] [])
    as [_ [Hc Hw]].
  split.
  - apply (nothing_to_scan "docker-compose.yml" VNone [("version", VStr "3.8")] [] []).
    left. reflexivity.
  - apply Hw; reflexivity.
Defined.

End ActionsFacts.

(** ** Severity mappings *)

Module AdaptersFacts.
Import PyStr Py Adapters.

Lemma lookup_in {A} (k : string) (d : list (string * A)) (x : A) :
  lookup k d = Some x -> In x (map snd d).
Proof.
  induction d as [|[k' v] r IH]; simpl; [discriminate|].
  destruct (String.eqb k' k); intros H.
  - injection H as ->. left. reflexivity.
  - right. apply IH. exact H.
Qed.


(** A name that is none of the keys of a table is not found in it. *)
Lemma lookup_not_in {A : Type} (k : string) (d : list (string * A)) :
  ~ In k (map fst d) -> lookup k d = None.
Proof.
  induction d as [|[k' x] r IH]; intros H; [reflexivity|].
  cbn [lookup]. destruct (String.eqb k' k) eqn:E.
  - apply String.eqb_eq in E. exfalso. apply H. left. exact E.
  - apply IH. intros Hin. apply H. right. exact Hin.
Qed.



End AdaptersFacts.

(** ** security-quality-gate.py *)

Module GateFacts.
Import PyStr Py Gate.
Local Open Scope Z_scope.

Lemma evolves_refl (r : results) : evolves r r.
Proof.
  repeat split.
  - exists []. rewrite app_nil_r, andb_true_r. split; reflexivity.
  - exists []. rewrite app_nil_r. reflexivity.
Qed.

Lemma no_gate_app (a b : list gate_entry) :
  no_gate (a ++ b) = no_gate a && no_gate b.
Proof. destruct a; reflexivity. Qed.

Lemma evolves_trans (a b c : results) : evolves a b -> evolves b c -> evolves a c.
Proof.
  intros [Hm1 [Hl1 [[f1 [Hf1 Hp1]] [p1 Hg1]]]] [Hm2 [Hl2 [[f2 [Hf2 Hp2]] [p2 Hg2]]]].
  repeat split.
  - congruence.
  - congruence.
  - exists (f1 ++ f2). split.
    + rewrite Hf2, Hf1. symmetry. apply app_assoc.
    + rewrite Hp2, Hp1, no_gate_app. symmetry. apply andb_assoc.
  - exists (p1 ++ p2). rewrite Hg2, Hg1. symmetry. apply app_assoc.
Qed.

Lemma fail_gate_evolves gate_name reason : steps evolves (_fail_gate gate_name reason).
Proof.
  intros r. repeat split; simpl.
  - exists [mk_gate gate_name reason]. split; [reflexivity|].
    symmetry. apply andb_false_r.
  - exists []. symmetry. apply app_nil_r.
Qed.

Lemma pass_gate_evolves gate_name reason : steps evolves (_pass_gate gate_name reason).
Proof.
  intros r. repeat split; simpl.
  - exists []. rewrite app_nil_r, andb_true_r. split; reflexivity.
  - exists [mk_gate gate_name reason]. reflexivity.
Qed.

Lemma counter_evolves (f : results -> results) :
  (forall r, medium_issues (f r) = medium_issues r) ->
  (forall r, low_issues (f r) = low_issues r) ->
  (forall r, failed_gates (f r) = failed_gates r) ->
  (forall r, passed_gates (f r) = passed_gates r) ->
  (forall r, passed (f r) = passed r) ->
  steps evolves (modify f).
Proof.
  intros Hm Hl Hf Hg Hp r. unfold modify. simpl. repeat split.
  - apply Hm.
  - apply Hl.
  - exists []. rewrite app_nil_r, andb_true_r, Hf, Hp. split; reflexivity.
  - exists []. rewrite app_nil_r. apply Hg.
Qed.

Lemma add_critical_evolves n : steps evolves (add_critical n).
Proof. apply counter_evolves; reflexivity. Qed.

Lemma add_high_evolves n : steps evolves (add_high n).
Proof. apply counter_evolves; reflexivity. Qed.

Lemma set_security_debt_evolves debt : steps evolves (set_security_debt debt).
Proof. apply counter_evolves; reflexivity. Qed.

Ltac gate_leaf :=
  idtac;
  lazymatch goal with
  | |- steps _ (_fail_gate _ _) => apply fail_gate_evolves
  | |- steps _ (_pass_gate _ _) => apply pass_gate_evolves
  | |- steps _ (add_critical _) => apply add_critical_evolves
  | |- steps _ (add_high _) => apply add_high_evolves
  | |- steps _ (set_security_debt _) => apply set_security_debt_evolves
  end.

Ltac evolves_steps leaf := PyFacts.steps_with evolves_refl evolves_trans leaf.

Lemma check_eslint_security_evolves cfg inp :
  steps evolves (_check_eslint_security cfg inp).
Proof.
  unfold _check_eslint_security.
  destruct (eslint_results inp); evolves_steps gate_leaf.
Qed.

Lemma check_npm_audit_evolves cfg inp : steps evolves (_check_npm_audit cfg inp).
Proof.
  unfold _check_npm_audit.
  destruct (audit_files inp); evolves_steps gate_leaf.
Qed.

Ltac checks_leaf :=
  idtac;
  lazymatch goal with
  | |- steps _ (_check_eslint_security _ _) => apply check_eslint_security_evolves
  | |- steps _ (_check_npm_audit _ _) => apply check_npm_audit_evolves
  | |- steps _ (_pass_gate _ _) => apply pass_gate_evolves
  | |- steps _ (_fail_gate _ _) => apply fail_gate_evolves
  | |- steps _ (set_security_debt _) => apply set_security_debt_evolves
  | |- steps _ ?m => unfold m
  end.

Lemma check_sast_gates_evolves cfg inp : steps evolves (check_sast_gates cfg inp).
Proof. unfold check_sast_gates. evolves_steps checks_leaf. Qed.

Lemma check_dependency_gates_evolves cfg inp :
  steps evolves (check_dependency_gates cfg inp).
Proof. unfold check_dependency_gates. evolves_steps checks_leaf. Qed.

Lemma check_container_gates_evolves cfg : steps evolves (check_container_gates cfg).
Proof. unfold check_container_gates. evolves_steps checks_leaf. Qed.

Lemma check_iac_gates_evolves cfg : steps evolves (check_iac_gates cfg).
Proof. unfold check_iac_gates. evolves_steps checks_leaf. Qed.

Lemma check_secrets_gates_evolves cfg : steps evolves (check_secrets_gates cfg).
Proof. unfold check_secrets_gates. evolves_steps checks_leaf. Qed.

Lemma calculate_security_debt_evolves cfg : steps evolves (calculate_security_debt cfg).
Proof. unfold calculate_security_debt. evolves_steps checks_leaf. Qed.

Lemma check_global_thresholds_evolves cfg : steps evolves (check_global_thresholds cfg).
Proof. unfold check_global_thresholds. evolves_steps checks_leaf. Qed.

Lemma run_all_checks_evolves cfg inp : steps evolves (run_all_checks cfg inp).
Proof.
  unfold run_all_checks.
  repeat (apply PyFacts.steps_bind; [apply evolves_trans | | intros _]).
  - apply check_sast_gates_evolves.
  - apply check_dependency_gates_evolves.
  - apply check_container_gates_evolves.
  - apply check_iac_gates_evolves.
  - apply check_secrets_gates_evolves.
  - apply calculate_security_debt_evolves.
  - apply check_global_thresholds_evolves.
  - apply PyFacts.steps_read. apply evolves_refl.
Qed.

(** *** The verdict *)

(** A sequence of gate evaluations: the verdict after it is the verdict
    before it, unless one of them fails. *)
Lemma evaluations_verdict (evs : list evaluation) (r : results) :
  passed (snd (for_each evs evaluate r)) = passed r && forallb is_pass evs.
Proof.
  revert r. induction evs as [|ev evs IH]; intros r.
  - simpl. symmetry. apply andb_true_r.
  - cbn [for_each forallb]. unfold bind.
    destruct ev as [g reason | g reason]; cbn [evaluate _pass_gate _fail_gate modify];
      rewrite IH; simpl.
    + reflexivity.
    + symmetry. apply andb_false_r.
Qed.

(** The value [run_all_checks] returns is the verdict field. *)
Lemma verdict_after {A} (m : M results A) (k : M results bool) :
  (forall r, match fst (k r) with
             | Ok verdict => verdict = passed (snd (k r))
             | Raise _ => True
             end) ->
  forall r, match fst (bind m (fun _ => k) r) with
            | Ok verdict => verdict = passed (snd (bind m (fun _ => k) r))
            | Raise _ => True
            end.
Proof.
  intros H r. unfold bind. destruct (m r) as [[a|e] r']; [apply H | exact I].
Qed.

Lemma run_all_checks_returns_verdict cfg inp r :
  match fst (run_all_checks cfg inp r) with
  | Ok verdict => verdict = passed (snd (run_all_checks cfg inp r))
  | Raise _ => True
  end.
Proof.
  revert r. unfold run_all_checks.
  do 7 apply verdict_after.
  intros r. reflexivity.
Qed.

(** C3: the verdict only moves towards failure.  After any sequence of
    gate evaluations the verdict is the verdict before it, conjoined with
    all of them passing: a failing one makes it false whatever the others
    are, and from false it stays false.  For [run_all_checks] as a whole,
    returning or not: the verdict at the end is the verdict at the start
    unless a gate was added to [failed_gates], and false if one was; the
    value returned is that verdict. *)
Theorem gate_verdict_monotone
    (cfg : Config) (inp : Inputs) (r : results) (evs before after : list evaluation)
    (gate_name reason : string) :
  passed (snd (for_each evs evaluate r)) = passed r && forallb is_pass evs /\
  passed (snd (for_each (before ++ Fails gate_name reason :: after) evaluate r)) = false /\
  (passed r = false -> passed (snd (for_each evs evaluate r)) = false) /\
  (exists failed,
     failed_gates (snd (run_all_checks cfg inp r)) = failed_gates r ++ failed /\
     passed (snd (run_all_checks cfg inp r)) = passed r && no_gate failed) /\
  (passed r = false -> passed (snd (run_all_checks cfg inp r)) = false) /\
  match fst (run_all_checks cfg inp r) with
  | Ok verdict => verdict = passed (snd (run_all_checks cfg inp r))
  | Raise _ => True
  end.
Proof.
  pose proof (run_all_checks_evolves cfg inp r) as [_ [_ [[failed [Hf Hp]] _]]].
  split; [apply evaluations_verdict|].
  split.
  { rewrite evaluations_verdict, forallb_app. simpl.
    rewrite andb_false_r. apply andb_false_r. }
  split.
  { intros H. rewrite evaluations_verdict, H. reflexivity. }
  split; [exists failed; split; assumption|].
  split.
  { intros H. rewrite Hp, H. reflexivity. }
  apply run_all_checks_returns_verdict.
Qed.

(** The theorem at a run that starts from a failed verdict and passes every
    gate: the verdict stays failed. *)
Lemma gate_verdict_monotone_witness :
  passed (snd (run_all_checks all_enabled no_results
                 (snd (_fail_gate "ESLint Security" "High severity issues found: 1"
                         initial_results)))) = false.
Proof.
  destruct (gate_verdict_monotone all_enabled no_results
              (snd (_fail_gate "ESLint Security" "High severity issues found: 1"
                      initial_results))
              [] [] [] "ESLint Security" "High severity issues found: 1")
    as [_ [_ [_ [_ [H _]]]]].
  apply H. reflexivity.
Defined.

(** *** Tools without results *)

(** C7, as stated, fails: with Trivy configured and enabled and no result
    file at all, the run records a passed gate for Trivy, and for each of the
    ten other tools whose check reads no result file. *)
Lemma absent_results_counterexample :
  eslint_results no_results = None /\
  audit_files no_results = [] /\
  In "Trivy" (map gate (passed_gates (snd (run trivy_configured no_results)))) /\
  map gate (passed_gates (snd (run trivy_configured no_results))) =
    ["Semgrep"; "CodeQL"; "SonarCloud"; "Snyk"; "OSV Scanner"; "Trivy"; "Grype";
     "Checkov"; "KICS"; "Hadolint"; "TruffleHog"; "Security Debt"].
Proof.
  vm_compute. repeat split. right; right; right; right; right; left; reflexivity.
Qed.

(** C7 (amended): the checks of ESLint Security and NPM Audit leave the
    results as they are when their result files are absent: no passed gate,
    no failed gate, the verdict and the counters untouched.  The checks of the
    other tools (Semgrep, CodeQL, SonarCloud, Snyk, OSV Scanner, Trivy, Grype,
    Checkov, KICS, Hadolint, TruffleHog) read no result file: each records one
    passed gate, never a failed gate, and leaves the verdict as it is. *)
Theorem absent_results_skipped_or_simulated
    (cfg : Config) (inp : Inputs) (r : results) :
  (eslint_results inp = None -> _check_eslint_security cfg inp r = (Ok tt, r)) /\
  (audit_files inp = [] -> _check_npm_audit cfg inp r = (Ok tt, r)) /\
  Forall (fun check =>
            exists reason,
              fst check r = (Ok tt, snd (_pass_gate (snd check) reason r)))
         simulated_checks /\
  (forall gate_name reason,
     passed_gates (snd (_pass_gate gate_name reason r)) =
       passed_gates r ++ [mk_gate gate_name reason] /\
     failed_gates (snd (_pass_gate gate_name reason r)) = failed_gates r /\
     passed (snd (_pass_gate gate_name reason r)) = passed r).
Proof.
  split; [|split; [|split]].
  - intros H. unfold _check_eslint_security. rewrite H. reflexivity.
  - intros H. unfold _check_npm_audit. rewrite H. reflexivity.
  - unfold simulated_checks.
    repeat (constructor; [eexists; reflexivity|]). constructor.
  - intros gate_name reason. repeat split.
Qed.

(** The theorem at a run with no result file. *)
Lemma absent_results_skipped_or_simulated_witness :
  _check_eslint_security all_enabled no_results initial_results = (Ok tt, initial_results) /\
  _check_npm_audit all_enabled no_results initial_results = (Ok tt, initial_results).
Proof.
  destruct (absent_results_skipped_or_simulated all_enabled no_results initial_results)
    as [H1 [H2 _]].
  split; [apply H1 | apply H2]; reflexivity.
Defined.

(** *** The debt *)

Lemma same_counts_refl (r : results) : same_counts r r.
Proof. repeat split. Qed.

Lemma same_counts_trans (a b c : results) :
  same_counts a b -> same_counts b c -> same_counts a c.
Proof.
  intros [H1 [H2 [H3 [H4 H5]]]] [K1 [K2 [K3 [K4 K5]]]].
  repeat split; congruence.
Qed.

Lemma check_global_thresholds_same_counts cfg :
  steps same_counts (check_global_thresholds cfg).
Proof.
  unfold check_global_thresholds.
  PyFacts.steps_with same_counts_refl same_counts_trans
    ltac:(idtac; lazymatch goal with
                 | |- steps _ (_fail_gate _ _) => intros r; repeat split
                 end).
Qed.

(** What [calculate_security_debt] leaves: the debt is the weighted sum of
    the counters, which are unchanged; one gate is recorded, failed when the
    debt is above the ceiling and passed otherwise. *)
Lemma calculate_security_debt_spec cfg r :
  exists reason,
    calculate_security_debt cfg r =
      (Ok tt,
       snd ((if max_debt_of cfg <? debt_of cfg r
             then _fail_gate "Security Debt" reason
             else _pass_gate "Security Debt" reason)
              (snd (set_security_debt (debt_of cfg r) r)))).
Proof.
  unfold calculate_security_debt, bind, read, set_security_debt, modify.
  destruct (max_debt_of cfg <? debt_of cfg r); eexists; reflexivity.
Qed.

Lemma calculate_security_debt_counts cfg r :
  let r' := snd (calculate_security_debt cfg r) in
  fst (calculate_security_debt cfg r) = Ok tt /\
  security_debt r' = debt_of cfg r /\
  critical_issues r' = critical_issues r /\
  high_issues r' = high_issues r.
Proof.
  destruct (calculate_security_debt_spec cfg r) as [reason H].
  simpl. rewrite H.
  destruct (max_debt_of cfg <? debt_of cfg r); repeat split.
Qed.

Lemma bind_ok_inv {S A B} (m : M S A) (k : A -> M S B) (s : S) (b : B) :
  fst (bind m k s) = Ok b ->
  exists a s', m s = (Ok a, s') /\ bind m k s = k a s'.
Proof.
  unfold bind. destruct (m s) as [[a|e] s']; simpl; intros H.
  - exists a, s'. split; reflexivity.
  - discriminate.
Qed.



(** *** ESLint Security *)

Lemma check_eslint_security_ok cfg inp r :
  fst (_check_eslint_security cfg inp r) = Ok tt.
Proof.
  unfold _check_eslint_security.
  destruct (eslint_results inp) as [loaded|]; [|reflexivity].
  unfold try_except.
  match goal with |- context [match ?m r with _ => _ end] =>
    destruct (m r) as [[[]|e] s'] end; reflexivity.
Qed.

(** X15: [_check_eslint_security] never raises, and when anything goes
    wrong before the gate is decided it leaves the results as they were: a
    result file that does not load, and a configuration without
    [sast.tools.eslint_security] (a tool that is enabled by default), even
    when the result file lists errors.  No gate is recorded and no issue is
    counted. *)
Theorem eslint_failures_are_silent (cfg : Config) (inp : Inputs) (r : results) :
  fst (_check_eslint_security cfg inp r) = Ok tt /\
  (forall e, eslint_results inp = Some (Raise e) ->
             _check_eslint_security cfg inp r = (Ok tt, r)) /\
  (forall e, tool_config "sast" (sast cfg) "eslint_security" = Raise e ->
             _check_eslint_security cfg inp r = (Ok tt, r)).
Proof.
  split; [apply check_eslint_security_ok|]. split.
  - intros e H. unfold _check_eslint_security. rewrite H. reflexivity.
  - intros e H. unfold _check_eslint_security.
    destruct (eslint_results inp) as [[data|e0]|]; try reflexivity.
    unfold try_except, bind, lift.
    destruct (iter data) as [rs|e1]; [|reflexivity].
    destruct (count_results rs 0) as [n|e2]; [|reflexivity].
    rewrite H. reflexivity.
Qed.

(** The theorem at the sample result file, with two errors, and a
    configuration that has no entry for the tool. *)
Lemma eslint_failures_are_silent_witness :
  _check_eslint_security all_enabled sample_results initial_results = (Ok tt, initial_results).
Proof.
  destruct (eslint_failures_are_silent all_enabled sample_results initial_results)
    as [_ [_ H]].
  apply (H (KeyError "tools")). reflexivity.
Defined.

(** X16: the ESLint gate on a result file that loads, with a configured
    tool.  With [n] errors counted, [high_issues] grows by [n] and
    [critical_issues] stays; the gate fails when [fail_on_high] is set and
    [n] is positive, or when [n] is above [max_issues] (0 when missing), and
    passes otherwise; a failure makes the verdict false, a pass leaves it.
    [fail_on_critical] has no effect: no critical issue is ever counted
    here. *)
Theorem eslint_gate_decision
    (cfg : Config) (inp : Inputs) (r : results)
    (data : value) (rs : list value) (n : Z) (config : ToolConfig) :
  eslint_results inp = Some (Ok data) ->
  iter data = Ok rs ->
  count_results rs 0 = Ok n ->
  tool_config "sast" (sast cfg) "eslint_security" = Ok config ->
  let r' := snd (_check_eslint_security cfg inp r) in
  high_issues r' = high_issues r + n /\
  critical_issues r' = critical_issues r /\
  passed r' = passed r && negb (eslint_fails config n) /\
  if eslint_fails config n
  then passed_gates r' = passed_gates r /\
       exists reason, failed_gates r' = failed_gates r ++ [mk_gate "ESLint Security" reason]
  else failed_gates r' = failed_gates r /\
       passed_gates r' =
         passed_gates r ++ [mk_gate "ESLint Security"
                              ("Issues within threshold: " ++ str_int n)%string].
Proof.
  intros Hfile Hiter Hcount Hconfig r'. subst r'.
  unfold _check_eslint_security. rewrite Hfile.
  unfold try_except, bind, lift. rewrite Hiter, Hcount, Hconfig.
  unfold eslint_fails.
  replace (get_or (fail_on_critical config) false && (0 <? 0)) with false
    by (symmetry; apply andb_false_r).
  destruct (get_or (fail_on_high config) false && (0 <? n)); cbn [orb negb].
  - simpl. rewrite andb_false_r. repeat split. eexists. reflexivity.
  - destruct (get_or (max_issues config) 0 <? n); cbn [negb].
    + simpl. rewrite andb_false_r. repeat split. eexists. reflexivity.
    + simpl. rewrite andb_true_r. repeat split.
Qed.

(** The theorem at the sample run: two errors, ten tolerated. *)
Lemma eslint_gate_decision_witness :
  high_issues (snd (_check_eslint_security sample_config sample_results initial_results)) =
    0 + 2 /\
  passed (snd (_check_eslint_security sample_config sample_results initial_results)) = true.
Proof.
  destruct (eslint_gate_decision sample_config sample_results initial_results
              (VList [VDict [("filePath", VStr "src/index.js");
                             ("messages",
                              VList [VDict [("ruleId", VStr "security/detect-eval");
                                            ("severity", VInt 2)];
                                     VDict [("severity", VInt 1)];
                                     VDict [("severity", VInt 2)]])]])
              [VDict [("filePath", VStr "src/index.js");
                      ("messages",
                       VList [VDict [("ruleId", VStr "security/detect-eval");
                                     ("severity", VInt 2)];
                              VDict [("severity", VInt 1)];
                              VDict [("severity", VInt 2)]])]]
              2 (mk_tool None None None (Some 10) None None)
              eq_refl eq_refl eq_refl eq_refl) as [Hh [_ [Hp _]]].
  split; [exact Hh | exact Hp].
Defined.

Lemma count_messages_spec (ms : list value) (k : Z) :
  forallb is_mapping ms = true ->
  count_messages ms k = Ok (k + Z.of_nat (List.length (filter is_error ms))).
Proof.
  revert k. induction ms as [|m r IH]; intros k H.
  - simpl. f_equal. lia.
  - cbn [forallb] in H. apply andb_prop in H. destruct H as [Hm Hr].
    destruct m; try discriminate Hm.
    cbn [count_messages get filter is_error].
    rewrite (IH _ Hr).
    destruct (eq_int match lookup "severity" d with Some x => x | None => VInt 1 end 2);
      cbn [List.length]; f_equal; lia.
Qed.

(** X17: what [_check_eslint_security] counts.  On results of the shape
    ESLint writes (mappings whose [messages], when present, is a list of
    mappings) the count is the number of messages whose [severity] is 2 over
    all the results; warnings (severity 1) and messages without a severity
    are not counted. *)
Theorem eslint_counts_errors_only (rs : list value) (mss : list (list value)) :
  Forall2 (fun result ms => messages_of result = Some ms) rs mss ->
  count_results rs 0 =
    Ok (Z.of_nat (List.length (filter is_error (List.concat mss)))).
Proof.
  assert (H : forall k,
    Forall2 (fun result ms => messages_of result = Some ms) rs mss ->
    count_results rs k =
      Ok (k + Z.of_nat (List.length (filter is_error (List.concat mss))))).
  { intros k F. revert k. induction F as [|result ms rs' mss' Hm _ IH]; intros k.
    - simpl. f_equal. lia.
    - unfold messages_of in Hm. destruct result; try discriminate Hm.
      cbn [count_results get]. cbn [List.concat].
      rewrite filter_app, length_app, Nat2Z.inj_add.
      destruct (lookup "messages" d) as [[| | | |l|]|]; try discriminate Hm.
      + destruct (forallb is_mapping l) eqn:E; [|discriminate Hm].
        injection Hm as <-. cbn [iter].
        rewrite (count_messages_spec l k E), IH. apply f_equal. lia.
      + injection Hm as <-. cbn [iter count_messages filter List.length].
        rewrite IH. apply f_equal. lia. }
  intros F. rewrite (H 0 F). reflexivity.
Qed.

(** The theorem at the sample result file: three messages, two errors. *)
Lemma eslint_counts_errors_only_witness :
  count_results
    [VDict [("filePath", VStr "src/index.js");
            ("messages",
             VList [VDict [("ruleId", VStr "security/detect-eval"); ("severity", VInt 2)];
                    VDict [("severity", VInt 1)];
                    VDict [("severity", VInt 2)]])]] 0 = Ok 2.
Proof.
  apply (eslint_counts_errors_only
           [VDict [("filePath", VStr "src/index.js");
                   ("messages",
                    VList [VDict [("ruleId", VStr "security/detect-eval");
                                  ("severity", VInt 2)];
                           VDict [("severity", VInt 1)];
                           VDict [("severity", VInt 2)]])]]
           [[VDict [("ruleId", VStr "security/detect-eval"); ("severity", VInt 2)];
             VDict [("severity", VInt 1)];
             VDict [("severity", VInt 2)]]]).
  repeat constructor.
Defined.

(** *** NPM Audit *)

Lemma count_audit_file_ok audit_file totals :
  fst (count_audit_file audit_file totals) = Ok tt.
Proof.
  unfold count_audit_file, try_except.
  match goal with |- context [match ?m totals with _ => _ end] =>
    destruct (m totals) as [[[]|e] s'] end; reflexivity.
Qed.

(** X18: an NPM audit file that does not load is skipped: the totals are
    those of the other files, counted in the same order, and the loop over
    the files never raises. *)
Theorem unreadable_audit_file_is_skipped
    (before after : list (string * outcome value)) (audit_file : string) (e : exn)
    (totals : Z * Z) :
  for_each (before ++ (audit_file, Raise e) :: after) count_audit_file totals =
    for_each (before ++ after) count_audit_file totals /\
  fst (for_each (before ++ (audit_file, Raise e) :: after) count_audit_file totals) = Ok tt.
Proof.
  split.
  - rewrite !PyFacts.for_each_app.
    destruct (for_each before count_audit_file totals) as [[[]|e0] t]; reflexivity.
  - destruct (PyFacts.returns_for_each
                (before ++ (audit_file, Raise e) :: after) count_audit_file
                (fun x s => ex_intro _ tt (count_audit_file_ok x s)) totals) as [[] H].
    exact H.
Qed.

Lemma tool_config_raise_enabled cat c name e :
  tool_config cat c name = Raise e ->
  match c with
  | None => e = KeyError cat
  | Some c' => tool_enabled (get_or (tools c') []) name = true
  end.
Proof.
  unfold tool_config, tool_enabled.
  destruct c as [c'|]; [|intros H; injection H as <-; reflexivity].
  destruct (tools c') as [ts|]; [|reflexivity].
  cbn [get_or]. destruct (lookup name ts); [discriminate | reflexivity].
Qed.

(** X19: NPM audit files with a configuration that has no
    [dependencies.tools.npm_audit].  The tool counts as enabled, its check
    reads the files and then indexes the configuration: the [KeyError]
    leaves [check_dependency_gates] with the results untouched, no gate
    recorded and nothing counted.  (The same gap is silent for ESLint.) *)
Theorem npm_audit_needs_its_configuration
    (cfg : Config) (inp : Inputs) (r : results) (e : exn) :
  audit_files inp <> [] ->
  is_enabled (dependencies cfg) = true ->
  tool_config "dependencies" (dependencies cfg) "npm_audit" = Raise e ->
  _check_npm_audit cfg inp r = (Raise e, r) /\
  check_dependency_gates cfg inp r = (Raise e, r).
Proof.
  intros Hfiles Hen Hcfg.
  assert (Hnpm : _check_npm_audit cfg inp r = (Raise e, r)).
  { unfold _check_npm_audit. destruct (audit_files inp); [contradiction|].
    unfold bind, lift. rewrite Hcfg. reflexivity. }
  split; [exact Hnpm|].
  unfold check_dependency_gates. rewrite Hen. cbn [negb].
  pose proof (tool_config_raise_enabled _ _ _ _ Hcfg) as H.
  destruct (dependencies cfg) as [c|].
  - unfold bind at 1. unfold lift. cbn [tools_of]. rewrite H. cbn [when].
    unfold bind at 1. rewrite Hnpm. reflexivity.
  - subst e. reflexivity.
Qed.

(** The theorem at the sample audit file and a configuration without an
    entry for the tool. *)
Lemma npm_audit_needs_its_configuration_witness :
  check_dependency_gates all_enabled sample_results initial_results =
    (Raise (KeyError "tools"), initial_results).
Proof.
  apply (npm_audit_needs_its_configuration all_enabled sample_results initial_results
           (KeyError "tools")); [discriminate | reflexivity | reflexivity].
Defined.

(** *** Sections of the configuration *)

Lemma sast_missing cfg inp r :
  sast cfg = None -> check_sast_gates cfg inp r = (Raise (KeyError "sast"), r).
Proof. intros H. unfold check_sast_gates. rewrite H. reflexivity. Qed.

Lemma dependencies_missing cfg inp r :
  dependencies cfg = None ->
  check_dependency_gates cfg inp r = (Raise (KeyError "dependencies"), r).
Proof. intros H. unfold check_dependency_gates. rewrite H. reflexivity. Qed.

Lemma containers_missing cfg r :
  containers cfg = None ->
  check_container_gates cfg r = (Raise (KeyError "containers"), r).
Proof. intros H. unfold check_container_gates. rewrite H. reflexivity. Qed.

Lemma iac_missing cfg r :
  iac cfg = None -> check_iac_gates cfg r = (Raise (KeyError "iac"), r).
Proof. intros H. unfold check_iac_gates. rewrite H. reflexivity. Qed.

Lemma secrets_missing cfg r :
  secrets cfg = None -> check_secrets_gates cfg r = (Raise (KeyError "secrets"), r).
Proof. intros H. unfold check_secrets_gates. rewrite H. reflexivity. Qed.

(** X20: a configuration that lacks one of the five category sections
    ([sast], [dependencies], [containers], [iac], [secrets]) makes
    [run_all_checks] raise, whatever the result files hold: a missing
    section counts as enabled and is then indexed.  [main] ends with status
    1 although no gate need have failed. *)
Theorem missing_section_raises (cfg : Config) (inp : Inputs) :
  has_all_sections cfg = false ->
  (exists e, fst (run cfg inp) = Raise e) /\ main cfg inp = 1.
Proof.
  intros H.
  assert (Hraise : exists e, fst (run cfg inp) = Raise e).
  { unfold run, run_all_checks. unfold has_all_sections in H.
    destruct (sast cfg) as [c1|] eqn:E1;
      [|unfold bind at 1; rewrite (sast_missing _ _ _ E1); eexists; reflexivity].
    unfold bind at 1.
    destruct (check_sast_gates cfg inp initial_results) as [[[]|e] r1];
      [|eexists; reflexivity].
    destruct (dependencies cfg) as [c2|] eqn:E2;
      [|unfold bind at 1; rewrite (dependencies_missing _ _ _ E2); eexists; reflexivity].
    unfold bind at 1.
    destruct (check_dependency_gates cfg inp r1) as [[[]|e] r2]; [|eexists; reflexivity].
    destruct (containers cfg) as [c3|] eqn:E3;
      [|unfold bind at 1; rewrite (containers_missing _ _ E3); eexists; reflexivity].
    unfold bind at 1.
    destruct (check_container_gates cfg r2) as [[[]|e] r3]; [|eexists; reflexivity].
    destruct (iac cfg) as [c4|] eqn:E4;
      [|unfold bind at 1; rewrite (iac_missing _ _ E4); eexists; reflexivity].
    unfold bind at 1.
    destruct (check_iac_gates cfg r3) as [[[]|e] r4]; [|eexists; reflexivity].
    destruct (secrets cfg) as [c5|] eqn:E5;
      [|unfold bind at 1; rewrite (secrets_missing _ _ E5); eexists; reflexivity].
    discriminate H. }
  split; [exact Hraise|].
  destruct Hraise as [e He]. unfold main. rewrite He. reflexivity.
Qed.

(** The theorem at a configuration without the [iac] section. *)
Lemma missing_section_raises_witness :
  fst (run without_iac no_results) = Raise (KeyError "iac") /\
  main without_iac no_results = 1.
Proof.
  split; [reflexivity|].
  apply (missing_section_raises without_iac no_results). reflexivity.
Defined.

(** *** Runs that return *)

Ltac returns_leaf :=
  idtac;
  lazymatch goal with
  | |- returns (_pass_gate _ _) => apply PyFacts.returns_modify
  | |- returns (_fail_gate _ _) => apply PyFacts.returns_modify
  | |- returns (add_critical _) => apply PyFacts.returns_modify
  | |- returns (add_high _) => apply PyFacts.returns_modify
  | |- returns (set_security_debt _) => apply PyFacts.returns_modify
  | |- returns (_check_eslint_security _ _) =>
      let s := fresh "s" in
      intros s; exists tt; apply check_eslint_security_ok
  | |- returns ?m => unfold m
  end.

Lemma check_sast_gates_returns cfg inp c :
  sast cfg = Some c -> returns (check_sast_gates cfg inp).
Proof.
  intros H. unfold check_sast_gates. rewrite H. cbn [tools_of].
  PyFacts.returns_with returns_leaf.
Qed.

Lemma check_npm_audit_returns cfg inp :
  npm_audit_ready cfg inp = true -> returns (_check_npm_audit cfg inp).
Proof.
  unfold npm_audit_ready, _check_npm_audit.
  destruct (audit_files inp) as [|f fs]; [intros _; apply PyFacts.returns_ret|].
  destruct (tool_config "dependencies" (dependencies cfg) "npm_audit");
    [intros _ | discriminate].
  PyFacts.returns_with returns_leaf.
Qed.

Lemma check_dependency_gates_returns cfg inp c :
  dependencies cfg = Some c -> npm_audit_ready cfg inp = true ->
  returns (check_dependency_gates cfg inp).
Proof.
  intros H Hnpm. unfold check_dependency_gates. rewrite H. cbn [tools_of].
  PyFacts.returns_with
    ltac:(idtac; lazymatch goal with
                 | |- returns (_check_npm_audit _ _) =>
                     apply check_npm_audit_returns; exact Hnpm
                 | |- _ => returns_leaf
                 end).
Qed.

Lemma check_container_gates_returns cfg c :
  containers cfg = Some c -> returns (check_container_gates cfg).
Proof.
  intros H. unfold check_container_gates. rewrite H. cbn [tools_of].
  PyFacts.returns_with returns_leaf.
Qed.

Lemma check_iac_gates_returns cfg c :
  iac cfg = Some c -> returns (check_iac_gates cfg).
Proof.
  intros H. unfold check_iac_gates. rewrite H. cbn [tools_of].
  PyFacts.returns_with returns_leaf.
Qed.

Lemma check_secrets_gates_returns cfg c :
  secrets cfg = Some c -> returns (check_secrets_gates cfg).
Proof.
  intros H. unfold check_secrets_gates. rewrite H. cbn [tools_of].
  PyFacts.returns_with returns_leaf.
Qed.

Lemma calculate_security_debt_returns cfg : returns (calculate_security_debt cfg).
Proof. unfold calculate_security_debt. PyFacts.returns_with returns_leaf. Qed.

Lemma check_global_thresholds_returns cfg : returns (check_global_thresholds cfg).
Proof. unfold check_global_thresholds. PyFacts.returns_with returns_leaf. Qed.

(** With its five sections, and the entry of NPM Audit when there are
    audit files to read, a configuration makes the run return. *)
Lemma run_all_checks_returns
    (cfg : Config) (inp : Inputs) (r : results) :
  has_all_sections cfg = true ->
  npm_audit_ready cfg inp = true ->
  exists verdict, fst (run_all_checks cfg inp r) = Ok verdict.
Proof.
  intros Hall Hnpm. unfold has_all_sections in Hall.
  destruct (sast cfg) as [c1|] eqn:E1; [|discriminate].
  destruct (dependencies cfg) as [c2|] eqn:E2; [|discriminate].
  destruct (containers cfg) as [c3|] eqn:E3; [|discriminate].
  destruct (iac cfg) as [c4|] eqn:E4; [|discriminate].
  destruct (secrets cfg) as [c5|] eqn:E5; [|discriminate].
  revert r. change (returns (run_all_checks cfg inp)).
  unfold run_all_checks.
  repeat (apply PyFacts.returns_bind; [|intros _]).
  - eapply check_sast_gates_returns; exact E1.
  - eapply check_dependency_gates_returns; [exact E2 | exact Hnpm].
  - eapply check_container_gates_returns; exact E3.
  - eapply check_iac_gates_returns; exact E4.
  - eapply check_secrets_gates_returns; exact E5.
  - apply calculate_security_debt_returns.
  - apply check_global_thresholds_returns.
  - apply PyFacts.returns_read.
Qed.

(** *** The verdict, the report and the exit status *)

Lemma run_verdict_is_no_failed_gate cfg inp :
  passed (snd (run cfg inp)) = no_gate (failed_gates (snd (run cfg inp))).
Proof.
  unfold run.
  destruct (run_all_checks_evolves cfg inp initial_results)
    as [_ [_ [[failed [Hf Hp]] _]]].
  rewrite Hp, Hf. reflexivity.
Qed.

Lemma no_gate_nil (l : list gate_entry) : no_gate l = true <-> l = [].
Proof. destruct l; simpl; split; intros H; try reflexivity; discriminate. Qed.

(** X22: the verdict of a run, the list of failed gates, the report and
    the exit status agree.  After a run of a fresh object the verdict is
    true exactly when [failed_gates] is empty; the report says [PASSED]
    exactly then, and recommends reviewing the failed gates exactly
    otherwise; [main] ends with status 0 exactly when [run_all_checks]
    returns and no gate has failed. *)
Theorem verdict_report_and_exit_status_agree
    (cfg : Config) (inp : Inputs) (repo run_id pr : option string) :
  let r := snd (run cfg inp) in
  let rep := generate_report repo run_id pr r in
  (passed r = true <-> failed_gates r = []) /\
  (overall_result rep = "PASSED" <-> failed_gates r = []) /\
  (In "Review and fix failed security quality gates" (recommendations rep) <->
   failed_gates r <> []) /\
  (main cfg inp = 0 <-> (exists verdict, fst (run cfg inp) = Ok verdict) /\ failed_gates r = []).
Proof.
  intros r rep. subst rep.
  assert (Hv : passed r = true <-> failed_gates r = []).
  { subst r. rewrite run_verdict_is_no_failed_gate. apply no_gate_nil. }
  split; [exact Hv|]. split; [|split].
  - cbn [generate_report overall_result]. rewrite <- Hv.
    destruct (passed r); split; intros H; try reflexivity; discriminate.
  - cbn [generate_report recommendations]. unfold _generate_recommendations.
    rewrite !in_app_iff.
    destruct (failed_gates r) as [|g l]; cbn [List.length Nat.ltb Nat.leb].
    + split; [|intros H; contradiction].
      destruct (0 <? critical_issues r), (5 <? high_issues r), (50 <? security_debt r);
        simpl; intros H;
        repeat (destruct H as [H|H]; try discriminate H; try contradiction).
    + split; [intros _; discriminate|]. intros _.
      right. right. right. left. reflexivity.
  - unfold main. pose proof (run_all_checks_returns_verdict cfg inp initial_results) as Hr.
    fold (run cfg inp) in Hr. fold r in Hr.
    destruct (fst (run cfg inp)) as [[|]|e].
    + split; [|reflexivity]. intros _. split; [eexists; reflexivity|].
      apply Hv. symmetry. exact Hr.
    + split; [discriminate|]. intros [_ H]. apply Hv in H. rewrite <- Hr in H.
      discriminate H.
    + split; [discriminate|]. intros [[v H] _]. discriminate H.
Qed.

(** The theorem at a run with no result file and Trivy configured: no gate
    fails, the report says [PASSED] and [main] ends with status 0. *)
Lemma verdict_report_and_exit_status_agree_witness :
  main trivy_configured no_results = 0 /\
  overall_result (generate_report None None None (snd (run trivy_configured no_results)))
    = "PASSED".
Proof.
  destruct (verdict_report_and_exit_status_agree trivy_configured no_results None None None)
    as [_ [Hr [_ Hm]]].
  cbv zeta in Hr, Hm.
  split.
  - apply Hm. split; [eexists; vm_compute; reflexivity | vm_compute; reflexivity].
  - apply Hr. vm_compute. reflexivity.
Defined.

(** *** Counters *)

Lemma bookkeeping_refl (r : results) : bookkeeping r r.
Proof. repeat split; lia. Qed.

Lemma bookkeeping_trans (a b c : results) :
  bookkeeping a b -> bookkeeping b c -> bookkeeping a c.
Proof.
  intros [H1 [H2 [H3 H4]]] [K1 [K2 [K3 K4]]].
  repeat split; try congruence; lia.
Qed.

Lemma count_messages_grows ms k n : count_messages ms k = Ok n -> k <= n.
Proof.
  revert k. induction ms as [|m r IH]; intros k; cbn [count_messages].
  - intros H. injection H as <-. lia.
  - destruct (get m "severity" (VInt 1)) as [sev|e]; [|discriminate].
    intros H. apply IH in H. destruct (eq_int sev 2); lia.
Qed.

Lemma count_results_grows rs k n : count_results rs k = Ok n -> k <= n.
Proof.
  revert k. induction rs as [|x r IH]; intros k; cbn [count_results].
  - intros H. injection H as <-. lia.
  - destruct (get x "messages" (VList [])) as [messages|e]; [|discriminate].
    destruct (iter messages) as [ms|e]; [|discriminate].
    destruct (count_messages ms k) as [k'|e] eqn:E; [|discriminate].
    intros H. apply IH in H. apply count_messages_grows in E. lia.
Qed.

Ltac bookkeeping_leaf :=
  idtac;
  lazymatch goal with
  | |- steps _ (_fail_gate _ _) => intros ?; repeat split; simpl; lia
  | |- steps _ (_pass_gate _ _) => intros ?; repeat split; simpl; lia
  | |- steps _ (set_security_debt _) => intros ?; repeat split; simpl; lia
  | |- steps _ (_check_semgrep) => unfold _check_semgrep
  | |- steps _ ?m => unfold m
  end.

Ltac bookkeeping_steps leaf :=
  PyFacts.steps_with bookkeeping_refl bookkeeping_trans leaf.

Lemma add_high_bookkeeping n : 0 <= n -> steps bookkeeping (add_high n).
Proof. intros H r. repeat split; simpl; lia. Qed.

Lemma add_critical_bookkeeping n : 0 <= n -> steps bookkeeping (add_critical n).
Proof. intros H r. repeat split; simpl; lia. Qed.

Lemma check_eslint_security_bookkeeping cfg inp :
  steps bookkeeping (_check_eslint_security cfg inp).
Proof.
  unfold _check_eslint_security.
  destruct (eslint_results inp) as [loaded|]; [|bookkeeping_steps bookkeeping_leaf].
  apply PyFacts.steps_try_except;
    [apply bookkeeping_trans | | bookkeeping_steps bookkeeping_leaf].
  destruct loaded as [data|e]; [|intros r; apply bookkeeping_refl].
  intros r. unfold bind at 1. unfold lift at 1. cbv beta iota zeta.
  unfold bind at 1. unfold lift at 1.
  destruct (iter data) as [rs|e]; [|apply bookkeeping_refl].
  unfold bind at 1. unfold lift at 1.
  destruct (count_results rs 0) as [n|e] eqn:E; [|apply bookkeeping_refl].
  apply count_results_grows in E.
  revert r.
  change (steps bookkeeping
            (bind (lift (tool_config "sast" (sast cfg) "eslint_security"))
               (fun config =>
                  bind (if get_or (fail_on_critical config) false && (0 <? 0)
                        then _fail_gate "ESLint Security"
                               ("Critical issues found: " ++ str_int 0)%string
                        else if get_or (fail_on_high config) false && (0 <? n)
                        then _fail_gate "ESLint Security"
                               ("High severity issues found: " ++ str_int n)%string
                        else if get_or (max_issues config) 0 <? n
                        then _fail_gate "ESLint Security"
                               ("Issues exceed threshold: " ++ str_int n ++ " > "
                                  ++ str_int (get_or (max_issues config) 0))%string
                        else _pass_gate "ESLint Security"
                               ("Issues within threshold: " ++ str_int n)%string)
                       (fun _ => add_high n)))).
  bookkeeping_steps
    ltac:(idtac; lazymatch goal with
                 | |- steps _ (add_high _) => apply add_high_bookkeeping; exact E
                 | |- _ => bookkeeping_leaf
                 end).
Qed.

Lemma totals_grow_refl (t : Z * Z) : totals_grow t t.
Proof. split; lia. Qed.

Lemma totals_grow_trans (a b c : Z * Z) :
  totals_grow a b -> totals_grow b c -> totals_grow a c.
Proof. intros [H1 H2] [K1 K2]. split; lia. Qed.

Lemma count_audit_file_grows audit_file : steps totals_grow (count_audit_file audit_file).
Proof.
  unfold count_audit_file.
  PyFacts.steps_with totals_grow_refl totals_grow_trans
    ltac:(idtac; lazymatch goal with
                 | |- steps _ (count_vulnerability _) => unfold count_vulnerability
                 | |- steps _ (modify _) =>
                     apply PyFacts.steps_modify; intros [? ?]; split; simpl; lia
                 end).
Qed.

Lemma audit_totals_nonnegative (files : list (string * outcome value)) :
  0 <= fst (snd (for_each files count_audit_file (0, 0))) /\
  0 <= snd (snd (for_each files count_audit_file (0, 0))).
Proof.
  apply (PyFacts.steps_for_each totals_grow totals_grow_refl totals_grow_trans
           files count_audit_file count_audit_file_grows (0, 0)).
Qed.

Lemma check_npm_audit_bookkeeping cfg inp : steps bookkeeping (_check_npm_audit cfg inp).
Proof.
  unfold _check_npm_audit.
  destruct (audit_files inp) as [|f fs]; [bookkeeping_steps bookkeeping_leaf|].
  destruct (audit_totals_nonnegative (f :: fs)) as [Hc Hh].
  bookkeeping_steps
    ltac:(idtac; lazymatch goal with
                 | |- steps _ (add_high _) => apply add_high_bookkeeping; exact Hh
                 | |- steps _ (add_critical _) => apply add_critical_bookkeeping; exact Hc
                 | |- _ => bookkeeping_leaf
                 end).
Qed.

Ltac run_bookkeeping_leaf :=
  idtac;
  lazymatch goal with
  | |- steps _ (_check_eslint_security _ _) => apply check_eslint_security_bookkeeping
  | |- steps _ (_check_npm_audit _ _) => apply check_npm_audit_bookkeeping
  | |- _ => bookkeeping_leaf
  end.

Lemma run_all_checks_bookkeeping cfg inp : steps bookkeeping (run_all_checks cfg inp).
Proof.
  unfold run_all_checks.
  repeat (apply PyFacts.steps_bind; [apply bookkeeping_trans | | intros _]).
  - unfold check_sast_gates. bookkeeping_steps run_bookkeeping_leaf.
  - unfold check_dependency_gates. bookkeeping_steps run_bookkeeping_leaf.
  - unfold check_container_gates. bookkeeping_steps run_bookkeeping_leaf.
  - unfold check_iac_gates. bookkeeping_steps run_bookkeeping_leaf.
  - unfold check_secrets_gates. bookkeeping_steps run_bookkeeping_leaf.
  - unfold calculate_security_debt. bookkeeping_steps run_bookkeeping_leaf.
  - unfold check_global_thresholds. bookkeeping_steps run_bookkeeping_leaf.
  - apply PyFacts.steps_read. apply bookkeeping_refl.
Qed.

(** X23: [total_issues] and [exempted_issues] are written by no part of a
    run: whatever the checks count, both are after the run what they were
    before it, and 0 in the report of every run of a fresh object,
    including the runs that count critical and high issues. *)
Theorem total_issues_never_updated
    (cfg : Config) (inp : Inputs) (r : results) (repo run_id pr : option string) :
  total_issues (snd (run_all_checks cfg inp r)) = total_issues r /\
  exempted_issues (snd (run_all_checks cfg inp r)) = exempted_issues r /\
  total_issues (report_summary (generate_report repo run_id pr (snd (run cfg inp)))) = 0 /\
  exempted_issues (report_summary (generate_report repo run_id pr (snd (run cfg inp)))) = 0.
Proof.
  destruct (run_all_checks_bookkeeping cfg inp r) as [Ht [He _]].
  destruct (run_all_checks_bookkeeping cfg inp initial_results) as [Ht0 [He0 _]].
  repeat split; assumption.
Qed.

(** A run that returns, cut after the checks of the tools: the debt is
    computed on the results [r5] they leave, the global thresholds are
    checked on the results [r6] the debt leaves, and the run ends with the
    results [r7] of the thresholds. *)
Lemma run_ok_inv cfg inp r verdict :
  fst (run_all_checks cfg inp r) = Ok verdict ->
  exists r5 r6 r7,
    evolves r r5 /\
    calculate_security_debt cfg r5 = (Ok tt, r6) /\
    check_global_thresholds cfg r6 = (Ok tt, r7) /\
    run_all_checks cfg inp r = (Ok (passed r7), r7).
Proof.
  intros Hok. unfold run_all_checks in *.
  apply bind_ok_inv in Hok as Hs. destruct Hs as [[] [r1 [E1 Hs]]].
  rewrite Hs in Hok |- *. clear Hs.
  apply bind_ok_inv in Hok as Hs. destruct Hs as [[] [r2 [E2 Hs]]].
  rewrite Hs in Hok |- *. clear Hs.
  apply bind_ok_inv in Hok as Hs. destruct Hs as [[] [r3 [E3 Hs]]].
  rewrite Hs in Hok |- *. clear Hs.
  apply bind_ok_inv in Hok as Hs. destruct Hs as [[] [r4 [E4 Hs]]].
  rewrite Hs in Hok |- *. clear Hs.
  apply bind_ok_inv in Hok as Hs. destruct Hs as [[] [r5 [E5 Hs]]].
  rewrite Hs in Hok |- *. clear Hs.
  apply bind_ok_inv in Hok as Hs. destruct Hs as [[] [r6 [E6 Hs]]].
  rewrite Hs in Hok |- *. clear Hs.
  apply bind_ok_inv in Hok as Hs. destruct Hs as [[] [r7 [E7 Hs]]].
  rewrite Hs. clear Hs.
  exists r5, r6, r7. split; [|split; [exact E6 | split; [exact E7 | reflexivity]]].
  pose proof (check_sast_gates_evolves cfg inp r) as H1. rewrite E1 in H1.
  pose proof (check_dependency_gates_evolves cfg inp r1) as H2. rewrite E2 in H2.
  pose proof (check_container_gates_evolves cfg r2) as H3. rewrite E3 in H3.
  pose proof (check_iac_gates_evolves cfg r3) as H4. rewrite E4 in H4.
  pose proof (check_secrets_gates_evolves cfg r4) as H5. rewrite E5 in H5.
  simpl in *.
  eapply evolves_trans; [exact H1|].
  eapply evolves_trans; [exact H2|].
  eapply evolves_trans; [exact H3|].
  eapply evolves_trans; [exact H4 | exact H5].
Qed.

(** The verdict and the counters after the global thresholds. *)
Lemma check_global_thresholds_verdict cfg r :
  let r' := snd (check_global_thresholds cfg r) in
  passed r' = passed r
              && negb (fails_on_critical cfg && (0 <? critical_issues r))
              && negb (high_threshold_of cfg <? high_issues r) /\
  critical_issues r' = critical_issues r /\
  high_issues r' = high_issues r /\
  security_debt r' = security_debt r.
Proof.
  unfold check_global_thresholds, fails_on_critical, high_threshold_of, bind, read, when.
  cbv zeta. cbn [fst snd].
  match goal with |- context [if ?b then _fail_gate _ _ else _] => destruct b end;
    cbn [_fail_gate modify ret fst snd high_issues];
    match goal with |- context [if ?b then _fail_gate _ _ else _] => destruct b end;
    cbn [_fail_gate modify ret fst snd passed critical_issues high_issues security_debt
         negb andb];
    repeat split; try reflexivity;
    rewrite ?andb_true_r, ?andb_false_r; reflexivity.
Qed.

Lemma calculate_security_debt_verdict cfg r :
  let r' := snd (calculate_security_debt cfg r) in
  passed r' = passed r && negb (max_debt_of cfg <? debt_of cfg r) /\
  security_debt r' = debt_of cfg r /\
  critical_issues r' = critical_issues r /\
  high_issues r' = high_issues r /\
  medium_issues r' = medium_issues r /\
  low_issues r' = low_issues r.
Proof.
  destruct (calculate_security_debt_spec cfg r) as [reason H].
  simpl. rewrite H.
  destruct (max_debt_of cfg <? debt_of cfg r); simpl;
    rewrite ?andb_true_r, ?andb_false_r; repeat split.
Qed.





End GateFacts.

(** ** Ranking and counting in the reports *)

Module RankingFacts.
Import PyStr Py Adapters.
Local Open Scope Z_scope.


Lemma eqb_key_false (k l : string) :
  l <> k -> String.eqb k l = false.
Proof. intros H. apply String.eqb_neq. intros E. apply H. symmetry. exact E. Qed.





End RankingFacts.

(** ** The NPM and OSV adapters of the dependency report *)

Module DependencyReportFacts.
Import PyStr Py Adapters DependencyReport.
Local Open Scope Z_scope.

Lemma npm_step_refl (g : generator) : npm_step g g.
Proof.
  exists []. rewrite app_nil_r. repeat split; try constructor. simpl. lia.
Qed.

Lemma npm_step_trans (a b c : generator) : npm_step a b -> npm_step b c -> npm_step a c.
Proof.
  intros [x [Hx [Fx [Tx [Lx Ix]]]]] [y [Hy [Fy [Ty [Ly Iy]]]]].
  exists (x ++ y). split; [rewrite Hy, Hx; symmetry; apply app_assoc|].
  split; [apply Forall_app; split; assumption|].
  split; [rewrite Ty, Tx, length_app, Nat2Z.inj_add; lia|].
  split; congruence.
Qed.

Lemma osv_step_refl (g : generator) : osv_step g g.
Proof.
  exists []. rewrite app_nil_r. repeat split; try constructor. simpl. lia.
Qed.

Lemma osv_step_trans (a b c : generator) : osv_step a b -> osv_step b c -> osv_step a c.
Proof.
  intros [x [Hx [Fx [Tx Ix]]]] [y [Hy [Fy [Ty Iy]]]].
  exists (x ++ y). split; [rewrite Hy, Hx; symmetry; apply app_assoc|].
  split; [apply Forall_app; split; assumption|].
  split; [rewrite Ty, Tx, length_app, Nat2Z.inj_add; lia|].
  congruence.
Qed.

(** The three statements that record a vulnerability whose severity is a
    string: the entry is appended and counted, whether or not its module can
    be added to the set. *)
Lemma record_vulnerability (v : vulnerability) (sev : string) (g : generator) :
  severity v = VStr sev ->
  let g' := snd (bind (append_vulnerability v)
                   (fun _ => bind (_update_summary (severity v))
                               (fun _ => add_module (module v))) g) in
  vulnerabilities g' = vulnerabilities g ++ [v] /\
  summary g' = Adapters.Dependency._update_summary sev (summary g).
Proof.
  intros Hsev. rewrite Hsev.
  unfold bind, append_vulnerability, _update_summary, add_module, modify, lift, as_str,
    raise, bind.
  cbn [fst snd].
  destruct (hashable (module v)); cbn [fst snd vulnerabilities summary modules_scanned].
  - destruct (existsb (key_eqb (module v)) (modules_scanned g)); split; reflexivity.
  - split; reflexivity.
Qed.

Lemma npm_record (v : vulnerability) (sev : string) :
  tool v = "NPM Audit" ->
  severity v = VStr sev ->
  In sev ["moderate"; "high"; "critical"] ->
  steps npm_step (bind (append_vulnerability v)
                    (fun _ => bind (_update_summary (severity v))
                                (fun _ => add_module (module v)))).
Proof.
  intros Htool Hsev Hin g.
  destruct (record_vulnerability v sev g Hsev) as [Hv Hs].
  exists [v]. split; [exact Hv|]. split.
  - constructor; [|constructor]. split; [exact Htool|]. rewrite Hsev.
    simpl in Hin. simpl.
    destruct Hin as [<- | [<- | [<- | []]]]; tauto.
  - rewrite Hs. simpl in Hin.
    destruct Hin as [<- | [<- | [<- | []]]]; simpl; repeat split; lia.
Qed.

Lemma npm_vulnerability_step audit_dir package vuln_data :
  steps npm_step (npm_vulnerability audit_dir package vuln_data).
Proof.
  unfold npm_vulnerability.
  apply PyFacts.steps_bind_lift; [apply npm_step_refl|].
  intros listed Hlisted.
  destruct (existsb (eq_str listed) ["moderate"; "high"; "critical"]) eqn:E;
    [|intros g; apply npm_step_refl].
  cbn [when].
  apply PyFacts.steps_bind_lift; [apply npm_step_refl|]. intros sev Hsev.
  do 6 (apply PyFacts.steps_bind_lift; [apply npm_step_refl|]; intros ? ?).
  cbv zeta.
  destruct vuln_data; try discriminate Hlisted.
  cbn [get] in Hlisted, Hsev.
  injection Hlisted as Hl. injection Hsev as Hs.
  destruct (lookup "severity" d) as [x|]; [|subst listed; discriminate E].
  subst listed sev.
  apply existsb_exists in E. destruct E as [name [Hin Hname]].
  destruct x; try discriminate Hname.
  apply String.eqb_eq in Hname. subst s.
  apply (npm_record _ name); [reflexivity | reflexivity | exact Hin].
Qed.

Lemma parse_npm_audit_file_step audit_dir loaded :
  steps npm_step (parse_npm_audit_file audit_dir loaded).
Proof.
  unfold parse_npm_audit_file.
  PyFacts.steps_with npm_step_refl npm_step_trans
    ltac:(idtac; lazymatch goal with
                 | |- steps _ (npm_vulnerability _ _ _) => apply npm_vulnerability_step
                 end).
Qed.

Lemma parse_npm_audit_file_ok audit_dir loaded g :
  fst (parse_npm_audit_file audit_dir loaded g) = Ok tt.
Proof.
  unfold parse_npm_audit_file, try_except.
  match goal with |- context [match ?m g with _ => _ end] =>
    destruct (m g) as [[[]|e] s'] end; reflexivity.
Qed.

(** X29: the NPM adapter of the dependency report never raises, whatever
    the audit files hold, and keeps only the vulnerabilities whose severity
    is [moderate], [high] or [critical]: each one it appends is counted once
    in the summary, and nothing is ever counted under low or info, so the low
    and info vulnerabilities of an audit are in neither the report nor its
    totals. *)
Theorem npm_adapter_keeps_moderate_and_above
    (audit_dirs : list (string * list (string * outcome value))) (g : generator) :
  fst (parse_npm_audit_results audit_dirs g) = Ok tt /\
  npm_step g (snd (parse_npm_audit_results audit_dirs g)).
Proof.
  split.
  - destruct (PyFacts.returns_for_each audit_dirs
                (fun dir => for_each (snd dir)
                              (fun audit_file =>
                                 parse_npm_audit_file (fst dir) (snd audit_file)))) with (s := g)
      as [[] H]; [|exact H].
    intros dir. apply PyFacts.returns_for_each.
    intros f s. exists tt. apply parse_npm_audit_file_ok.
  - unfold parse_npm_audit_results.
    apply PyFacts.steps_for_each; [apply npm_step_refl | apply npm_step_trans|].
    intros dir.
    apply PyFacts.steps_for_each; [apply npm_step_refl | apply npm_step_trans|].
    intros f. apply parse_npm_audit_file_step.
Qed.

(** The adapter on the sample directory: the low vulnerability is left
    out, the module is the directory name without its prefix. *)
Lemma npm_adapter_sample :
  let g := snd (parse_npm_audit_results sample_audit new_generator) in
  map package (vulnerabilities g) = [VStr "minimist"; VStr "lodash"] /\
  map severity (vulnerabilities g) = [VStr "moderate"; VStr "critical"] /\
  summary g = mk_summary 1 0 1 0 0 2 /\
  modules_scanned g = [VStr "core"].
Proof. vm_compute. repeat split. Qed.

(** The severities the OSV mapping returns. *)
Lemma osv_levels (raw : value) (sev : string) :
  Adapters.Dependency._map_osv_severity raw = Ok sev ->
  In sev ["critical"; "high"; "medium"; "low"].
Proof.
  unfold Adapters.Dependency._map_osv_severity, as_str.
  destruct raw; try discriminate.
  unfold Adapters.Dependency.mapping. cbn [lookup].
  repeat match goal with
         | |- context [String.eqb ?k (upper s)] => destruct (String.eqb k (upper s))
         end;
    intros H; injection H as <-; simpl; repeat first [left; reflexivity | right].
Qed.

Lemma osv_record (v : vulnerability) (sev : string) :
  tool v = "OSV Scanner" ->
  severity v = VStr sev ->
  In sev ["critical"; "high"; "medium"; "low"] ->
  steps osv_step (bind (append_vulnerability v)
                    (fun _ => bind (_update_summary (severity v))
                                (fun _ => add_module (module v)))).
Proof.
  intros Htool Hsev Hin g.
  destruct (record_vulnerability v sev g Hsev) as [Hv Hs].
  exists [v]. split; [exact Hv|]. split.
  - constructor; [|constructor]. split; [exact Htool|]. rewrite Hsev.
    simpl in Hin. simpl.
    destruct Hin as [<- | [<- | [<- | [<- | []]]]]; tauto.
  - rewrite Hs. simpl in Hin.
    destruct Hin as [<- | [<- | [<- | [<- | []]]]]; simpl; repeat split; lia.
Qed.

Lemma osv_vulnerability_step result pkg vuln :
  steps osv_step (osv_vulnerability result pkg vuln).
Proof.
  unfold osv_vulnerability.
  do 4 (apply PyFacts.steps_bind_lift; [apply osv_step_refl|]; intros ? _).
  apply PyFacts.steps_bind_lift; [apply osv_step_refl|]. intros sev Hsev.
  do 4 (apply PyFacts.steps_bind_lift; [apply osv_step_refl|]; intros ? _).
  apply PyFacts.steps_bind; [apply osv_step_trans | | intros url].
  - PyFacts.steps_with osv_step_refl osv_step_trans fail.
  - do 4 (apply PyFacts.steps_bind_lift; [apply osv_step_refl|]; intros ? _).
    cbv zeta.
    apply (osv_record _ sev); [reflexivity | reflexivity |].
    eapply osv_levels. exact Hsev.
Qed.

Lemma parse_osv_results_step osv_file : steps osv_step (parse_osv_results osv_file).
Proof.
  unfold parse_osv_results.
  destruct osv_file as [loaded|];
    PyFacts.steps_with osv_step_refl osv_step_trans
      ltac:(idtac; lazymatch goal with
                   | |- steps _ (osv_result _) => unfold osv_result
                   | |- steps _ (osv_package _ _) => unfold osv_package
                   | |- steps _ (osv_vulnerability _ _ _) => apply osv_vulnerability_step
                   end).
Qed.

(** X30: the OSV adapter of the dependency report never raises, and
    whatever the result file holds, also when it is malformed halfway, each
    vulnerability it appends has one of the severities [critical], [high],
    [medium], [low] and is counted once in the summary; nothing from OSV is
    ever counted under info. *)
Theorem osv_adapter_counts_each_entry_once
    (osv_file : option (outcome value)) (g : generator) :
  fst (parse_osv_results osv_file g) = Ok tt /\
  osv_step g (snd (parse_osv_results osv_file g)).
Proof.
  split; [|apply parse_osv_results_step].
  unfold parse_osv_results, try_except.
  match goal with |- context [match ?m g with _ => _ end] =>
    destruct (m g) as [[[]|e] s'] end; reflexivity.
Qed.

End DependencyReportFacts.

(** ** security-quality-gate.py on the configuration document *)

Module GateDocFacts.
Import PyStr Py PyArith GateDoc.
Local Open Scope Z_scope.

(** *** The debt *)

(** What [calculate_security_debt] does when the weights and the ceiling
    it reads are integers: it stores the weighted sum and decides the gate
    on it. *)
Lemma calculate_security_debt_run
    (d sd sc : list (string * value)) (wc wh wm wl max_debt : Z) (r : results) :
  entry d "security_debt" (VDict []) = VDict sd ->
  entry sd "scoring" scoring_defaults = VDict sc ->
  entry sc "critical" (VInt 50) = VInt wc ->
  entry sc "high" (VInt 20) = VInt wh ->
  entry sc "medium" (VInt 5) = VInt wm ->
  entry sc "low" (VInt 1) = VInt wl ->
  entry sd "max_total_debt" (VInt 100) = VInt max_debt ->
  let debt := critical_issues r * wc + high_issues r * wh +
              medium_issues r * wm + low_issues r * wl in
  calculate_security_debt (VDict d) r =
    (if max_debt <? debt
     then _fail_gate "Security Debt"
            ("Total debt " ++ str_int debt ++ " exceeds maximum "
               ++ str_int max_debt)%string
     else _pass_gate "Security Debt"
            ("Total debt " ++ str_int debt ++ " within limit "
               ++ str_int max_debt)%string)
      (snd (set_security_debt (VInt debt) r)).
Proof.
  intros Hsd Hsc Hwc Hwh Hwm Hwl Hmax debt.
  unfold calculate_security_debt, bind, lift, read. cbn [get].
  fold (entry d "security_debt" (VDict [])). rewrite Hsd. cbn [get].
  fold (entry sd "scoring" scoring_defaults). rewrite Hsc. cbn [get].
  fold (entry sc "critical" (VInt 50)) (entry sc "high" (VInt 20))
       (entry sc "medium" (VInt 5)) (entry sc "low" (VInt 1)).
  rewrite Hwc, Hwh, Hwm, Hwl. cbn [mul_int add as_int].
  fold (entry sd "max_total_debt" (VInt 100)). rewrite Hmax.
  cbn [gt as_int set_security_debt modify snd fst]. fold debt.
  reflexivity.
Qed.

(** C2: with a configuration that is a mapping whose [security_debt]
    section, scoring table, weights and ceiling are of the expected types
    when present, [calculate_security_debt] returns and stores the sum over
    the severities of count times weight, each weight being the one of the
    scoring table, or its default when the table has none: critical 50, high
    20, medium 5, low 1.  Without a scoring table the debt is the sum with
    the four defaults (and info 0, which adds nothing whatever the number of
    info findings).  The debt gate is recorded as failed, and the verdict
    becomes false, exactly when the debt is strictly above [max_total_debt]
    (100 when missing); otherwise it is recorded as passed and the verdict
    is unchanged. *)
Theorem security_debt_weighted_sum
    (d sd sc : list (string * value)) (wc wh wm wl max_debt : Z) (r : results) :
  entry d "security_debt" (VDict []) = VDict sd ->
  entry sd "scoring" scoring_defaults = VDict sc ->
  entry sc "critical" (VInt 50) = VInt wc ->
  entry sc "high" (VInt 20) = VInt wh ->
  entry sc "medium" (VInt 5) = VInt wm ->
  entry sc "low" (VInt 1) = VInt wl ->
  entry sd "max_total_debt" (VInt 100) = VInt max_debt ->
  let debt := critical_issues r * wc + high_issues r * wh +
              medium_issues r * wm + low_issues r * wl in
  let r' := snd (calculate_security_debt (VDict d) r) in
  fst (calculate_security_debt (VDict d) r) = Ok tt /\
  security_debt r' = VInt debt /\
  (lookup "scoring" sd = None ->
   forall info_issues,
     debt = critical_issues r * 50 + high_issues r * 20 + medium_issues r * 5 +
            low_issues r * 1 + info_issues * 0) /\
  (max_debt < debt ->
   passed r' = false /\
   passed_gates r' = passed_gates r /\
   exists reason,
     failed_gates r' = failed_gates r ++ [Gate.mk_gate "Security Debt" reason]) /\
  (debt <= max_debt ->
   passed r' = passed r /\
   failed_gates r' = failed_gates r /\
   exists reason,
     passed_gates r' = passed_gates r ++ [Gate.mk_gate "Security Debt" reason]).
Proof.
  intros Hsd Hsc Hwc Hwh Hwm Hwl Hmax debt r'.
  pose proof (calculate_security_debt_run d sd sc wc wh wm wl max_debt r
                Hsd Hsc Hwc Hwh Hwm Hwl Hmax) as Hrun.
  cbv zeta in Hrun. fold debt in Hrun.
  subst r'. rewrite Hrun. clear Hrun.
  split; [destruct (max_debt <? debt); reflexivity|].
  split; [destruct (max_debt <? debt); reflexivity|].
  split.
  { intros Hnone info_issues. unfold entry in Hsc. rewrite Hnone in Hsc.
    injection Hsc as <-. cbv in Hwc, Hwh, Hwm, Hwl.
    injection Hwc as <-. injection Hwh as <-. injection Hwm as <-. injection Hwl as <-.
    subst debt. ring. }
  split.
  - intros Hgt. apply Z.ltb_lt in Hgt. rewrite Hgt.
    repeat split. eexists. reflexivity.
  - intros Hle. apply Z.ltb_ge in Hle. rewrite Hle.
    repeat split. eexists. reflexivity.
Qed.

(** The theorem at the counts of the example, one critical and two high,
    without a scoring table: the debt is 90, the gate passes under a ceiling
    of 100 and fails under a ceiling of 50; and with the weights 100 and 40
    for critical and high, where the debt is 180. *)
Lemma security_debt_weighted_sum_witness :
  let r := of_gate Gate.one_critical_two_high in
  (security_debt (snd (calculate_security_debt (VDict (debt_ceiling 100)) r)) = VInt 90 /\
   passed (snd (calculate_security_debt (VDict (debt_ceiling 100)) r)) = true) /\
  passed (snd (calculate_security_debt (VDict (debt_ceiling 50)) r)) = false /\
  security_debt (snd (calculate_security_debt (VDict doubled_weights) r)) = VInt 180.
Proof.
  intros r.
  destruct (security_debt_weighted_sum (debt_ceiling 100)
              [("max_total_debt", VInt 100)]
              [("critical", VInt 50); ("high", VInt 20); ("medium", VInt 5);
               ("low", VInt 1); ("info", VInt 0)]
              50 20 5 1 100 r eq_refl eq_refl eq_refl eq_refl eq_refl eq_refl eq_refl)
    as [_ [Hdebt [_ [_ Hpass]]]].
  destruct (security_debt_weighted_sum (debt_ceiling 50)
              [("max_total_debt", VInt 50)]
              [("critical", VInt 50); ("high", VInt 20); ("medium", VInt 5);
               ("low", VInt 1); ("info", VInt 0)]
              50 20 5 1 50 r eq_refl eq_refl eq_refl eq_refl eq_refl eq_refl eq_refl)
    as [_ [_ [_ [Hfail _]]]].
  destruct (security_debt_weighted_sum doubled_weights
              [("scoring", VDict [("critical", VInt 100); ("high", VInt 40)])]
              [("critical", VInt 100); ("high", VInt 40)]
              100 40 5 1 100 r eq_refl eq_refl eq_refl eq_refl eq_refl eq_refl eq_refl)
    as [_ [Hdoubled _]].
  split; [split|split].
  - exact Hdebt.
  - apply Hpass. vm_compute. discriminate.
  - apply Hfail. reflexivity.
  - exact Hdoubled.
Defined.

(** *** Documents with entries of the expected types *)

Lemma switch_entry (d : list (string * value)) (k : string) (ob : option bool)
    (default : value) :
  opt_bool (lookup k d) = Some ob ->
  truthy (match lookup k d with Some x => x | None => default end) =
    Gate.get_or ob (truthy default).
Proof.
  unfold opt_bool. destruct (lookup k d) as [[| b | | | |]|]; intros H;
    try discriminate H; injection H as <-; reflexivity.
Qed.

Lemma threshold_entry (d : list (string * value)) (k : string) (oz : option Z)
    (default : Z) :
  opt_int (lookup k d) = Some oz ->
  match lookup k d with Some x => x | None => VInt default end =
    VInt (Gate.get_or oz default).
Proof.
  unfold opt_int. destruct (lookup k d) as [[| | z | | |]|]; intros H;
    try discriminate H; injection H as <-; reflexivity.
Qed.

Lemma decode_tool_inv (v : value) (t : Gate.ToolConfig) :
  decode_tool v = Some t ->
  exists tv, v = VDict tv /\
    opt_bool (lookup "enabled" tv) = Some (Gate.enabled t) /\
    opt_bool (lookup "fail_on_critical" tv) = Some (Gate.fail_on_critical t) /\
    opt_bool (lookup "fail_on_high" tv) = Some (Gate.fail_on_high t) /\
    opt_int (lookup "max_issues" tv) = Some (Gate.max_issues t) /\
    opt_int (lookup "max_critical" tv) = Some (Gate.max_critical t) /\
    opt_int (lookup "max_high" tv) = Some (Gate.max_high t).
Proof.
  destruct v as [| | | | |tv]; try discriminate. unfold decode_tool.
  destruct (opt_bool (lookup "enabled" tv)) as [e|] eqn:E1; [|discriminate].
  destruct (opt_bool (lookup "fail_on_critical" tv)) as [fc|] eqn:E2; [|discriminate].
  destruct (opt_bool (lookup "fail_on_high" tv)) as [fh|] eqn:E3; [|discriminate].
  destruct (opt_int (lookup "max_issues" tv)) as [mi|] eqn:E4; [|discriminate].
  destruct (opt_int (lookup "max_critical" tv)) as [mc|] eqn:E5; [|discriminate].
  destruct (opt_int (lookup "max_high" tv)) as [mh|] eqn:E6; [|discriminate].
  intros H. injection H as <-. exists tv. repeat split; assumption.
Qed.

(** The entry of a tool in the document and in the configuration. *)
Lemma decode_tools_lookup (tsv : list (string * value))
    (ts : list (string * Gate.ToolConfig)) (name : string) :
  decode_tools tsv = Some ts ->
  match lookup name tsv with
  | Some v => exists t, decode_tool v = Some t /\ lookup name ts = Some t
  | None => lookup name ts = None
  end.
Proof.
  revert ts. induction tsv as [|[k v] rest IH]; intros ts H.
  - injection H as <-. reflexivity.
  - cbn [decode_tools] in H.
    destruct (decode_tool v) as [t|] eqn:Et; [|discriminate].
    destruct (decode_tools rest) as [rest'|]; [|discriminate].
    injection H as <-. cbn [lookup].
    destruct (String.eqb k name).
    + exists t. split; [exact Et | reflexivity].
    + apply IH. reflexivity.
Qed.

Lemma opt_category_inv (o : option value) (c : option Gate.CategoryConfig) :
  opt_category o = Some c ->
  (o = None /\ c = None) \/
  (exists sec e ts, o = Some (VDict sec) /\ c = Some (Gate.mk_category e ts) /\
     opt_bool (lookup "enabled" sec) = Some e /\
     opt_tools (lookup "tools" sec) = Some ts).
Proof.
  destruct o as [[| | | | |sec]|]; try discriminate.
  - cbn [opt_category].
    destruct (opt_bool (lookup "enabled" sec)) as [e|] eqn:Ee; [|discriminate].
    destruct (opt_tools (lookup "tools" sec)) as [ts|] eqn:Et; [|discriminate].
    intros H. injection H as <-. right. exists sec, e, ts. repeat split; assumption.
  - intros H. injection H as <-. left. split; reflexivity.
Qed.

Lemma opt_tools_inv (o : option value) (ts : option (list (string * Gate.ToolConfig))) :
  opt_tools o = Some ts ->
  (o = None /\ ts = None) \/
  (exists tsv ts', o = Some (VDict tsv) /\ ts = Some ts' /\ decode_tools tsv = Some ts').
Proof.
  destruct o as [[| | | | |tsv]|]; try discriminate.
  - cbn [opt_tools]. destruct (decode_tools tsv) as [ts'|] eqn:E; [|discriminate].
    intros H. injection H as <-. right. exists tsv, ts'. repeat split. exact E.
  - intros H. injection H as <-. left. split; reflexivity.
Qed.

Lemma category_enabled_decode (d : list (string * value)) (cat : string)
    (c : option Gate.CategoryConfig) :
  opt_category (lookup cat d) = Some c ->
  category_enabled (VDict d) cat = Ok (Gate.is_enabled c).
Proof.
  intros H. unfold category_enabled. cbn [get].
  destruct (opt_category_inv _ _ H) as [[Ho ->] | [sec [e [ts [Ho [-> [He _]]]]]]];
    rewrite Ho; cbn [get].
  - reflexivity.
  - rewrite (switch_entry sec "enabled" e (VBool true) He). reflexivity.
Qed.

Lemma tools_of_decode (d : list (string * value)) (cat : string)
    (c : option Gate.CategoryConfig) :
  opt_category (lookup cat d) = Some c ->
  match Gate.tools_of cat c with
  | Ok ts => exists tsv, tools_of (VDict d) cat = Ok (VDict tsv) /\
                         decode_tools tsv = Some ts
  | Raise e => tools_of (VDict d) cat = Raise e
  end.
Proof.
  intros H. unfold tools_of. cbn [subscript].
  destruct (opt_category_inv _ _ H) as [[Ho ->] | [sec [e [ts [Ho [-> [_ Ht]]]]]]];
    rewrite Ho.
  - reflexivity.
  - cbn [Gate.tools_of Gate.tools get].
    destruct (opt_tools_inv _ _ Ht) as [[Hl ->] | [tsv [ts' [Hl [-> Hd]]]]]; rewrite Hl.
    + exists []. split; reflexivity.
    + exists tsv. split; [reflexivity | exact Hd].
Qed.

Lemma tool_enabled_decode (tsv : list (string * value))
    (ts : list (string * Gate.ToolConfig)) (name : string) :
  decode_tools tsv = Some ts ->
  tool_enabled (VDict tsv) name = Ok (Gate.tool_enabled ts name).
Proof.
  intros H. pose proof (decode_tools_lookup tsv ts name H) as Hl.
  unfold tool_enabled, Gate.tool_enabled. cbn [get].
  destruct (lookup name tsv) as [v|].
  - destruct Hl as [t [Ht ->]].
    destruct (decode_tool_inv v t Ht) as [tv [-> [He _]]]. cbn [get].
    rewrite (switch_entry tv "enabled" (Gate.enabled t) (VBool true) He). reflexivity.
  - rewrite Hl. reflexivity.
Qed.

Lemma tool_config_decode (d : list (string * value)) (cat name : string)
    (c : option Gate.CategoryConfig) :
  opt_category (lookup cat d) = Some c ->
  match Gate.tool_config cat c name with
  | Ok t => exists tv, tool_config (VDict d) cat name = Ok tv /\ decode_tool tv = Some t
  | Raise e => tool_config (VDict d) cat name = Raise e
  end.
Proof.
  intros H. unfold tool_config. cbn [subscript].
  destruct (opt_category_inv _ _ H) as [[Ho ->] | [sec [e [ts [Ho [-> [_ Ht]]]]]]];
    rewrite Ho.
  - reflexivity.
  - cbn [Gate.tool_config Gate.tools subscript].
    destruct (opt_tools_inv _ _ Ht) as [[Hl ->] | [tsv [ts' [Hl [-> Hd]]]]]; rewrite Hl.
    + reflexivity.
    + cbn [subscript]. pose proof (decode_tools_lookup tsv ts' name Hd) as Hn.
      destruct (lookup name tsv) as [v|].
      * destruct Hn as [t [Hv ->]]. exists v. split; [reflexivity | exact Hv].
      * rewrite Hn. reflexivity.
Qed.

(** *** The checks on such documents *)

Lemma refines_ret {A} (a : A) : refines (ret a) (ret a).
Proof. intros r. reflexivity. Qed.

Lemma refines_bind {A B} (m : M results A) (m' : M Gate.results A)
    (k : A -> M results B) (k' : A -> M Gate.results B) :
  refines m m' -> (forall a, refines (k a) (k' a)) -> refines (bind m k) (bind m' k').
Proof.
  intros Hm Hk r. unfold bind. rewrite (Hm r).
  destruct (m' r) as [[a|e] s]; cbn [fst snd]; [apply Hk | reflexivity].
Qed.

Lemma refines_when (b : bool) (m : M results unit) (m' : M Gate.results unit) :
  refines m m' -> refines (when b m) (when b m').
Proof.
  intros H. destruct b; [exact H | apply refines_ret].
Qed.

Lemma pass_gate_refines gate_name reason :
  refines (_pass_gate gate_name reason) (Gate._pass_gate gate_name reason).
Proof. intros r. reflexivity. Qed.

(** A [lift] that returns is the rest of the method. *)
Lemma bind_lift_ok {S A B} (a : A) (k : A -> M S B) : bind (lift (Ok a)) k = k a.
Proof. reflexivity. Qed.

Lemma check_eslint_security_refines (d : list (string * value)) (cfg : Gate.Config)
    (inp : Gate.Inputs) :
  opt_category (lookup "sast" d) = Some (Gate.sast cfg) ->
  refines (_check_eslint_security (VDict d) inp) (Gate._check_eslint_security cfg inp).
Proof.
  intros H r. unfold _check_eslint_security, Gate._check_eslint_security.
  destruct (Gate.eslint_results inp) as [loaded|]; [|reflexivity].
  unfold try_except.
  destruct loaded as [data|e]; [|reflexivity].
  rewrite !bind_lift_ok.
  destruct (iter data) as [rs|e]; [|reflexivity].
  rewrite !bind_lift_ok.
  destruct (Gate.count_results rs 0) as [high_count|e]; [|reflexivity].
  rewrite !bind_lift_ok.
  pose proof (tool_config_decode d "sast" "eslint_security" _ H) as Ht.
  destruct (Gate.tool_config "sast" (Gate.sast cfg) "eslint_security") as [t|e].
  - destruct Ht as [tv [-> Hd]].
    destruct (decode_tool_inv tv t Hd) as [tf [-> [_ [Hfc [Hfh [Hmi _]]]]]].
    rewrite !bind_lift_ok. cbn [get]. rewrite !bind_lift_ok.
    rewrite (switch_entry tf "fail_on_critical" _ VNone Hfc).
    cbn [truthy Z.ltb Z.compare]. rewrite !andb_false_r.
    rewrite (switch_entry tf "fail_on_high" _ VNone Hfh). cbn [truthy].
    rewrite (threshold_entry tf "max_issues" _ 0 Hmi). cbn [gt as_int].
    rewrite !bind_lift_ok.
    destruct (Gate.get_or (Gate.fail_on_high t) false && (0 <? high_count));
      [reflexivity|].
    destruct (Gate.get_or (Gate.max_issues t) 0 <? high_count); reflexivity.
  - rewrite Ht. reflexivity.
Qed.

Lemma check_npm_audit_refines (d : list (string * value)) (cfg : Gate.Config)
    (inp : Gate.Inputs) :
  opt_category (lookup "dependencies" d) = Some (Gate.dependencies cfg) ->
  refines (_check_npm_audit (VDict d) inp) (Gate._check_npm_audit cfg inp).
Proof.
  intros H r. unfold _check_npm_audit, Gate._check_npm_audit.
  destruct (Gate.audit_files inp) as [|f fs]; [reflexivity|].
  cbv zeta.
  set (totals := snd (for_each (f :: fs) Gate.count_audit_file (0, 0))).
  pose proof (tool_config_decode d "dependencies" "npm_audit" _ H) as Ht.
  destruct (Gate.tool_config "dependencies" (Gate.dependencies cfg) "npm_audit") as [t|e].
  - destruct Ht as [tv [-> Hd]].
    destruct (decode_tool_inv tv t Hd) as [tf [-> [_ [Hfc [Hfh [_ [Hmc Hmh]]]]]]].
    rewrite !bind_lift_ok. cbn [get]. rewrite !bind_lift_ok.
    rewrite (switch_entry tf "fail_on_critical" _ VNone Hfc).
    rewrite (switch_entry tf "fail_on_high" _ VNone Hfh). cbn [truthy].
    rewrite (threshold_entry tf "max_critical" _ 0 Hmc).
    rewrite (threshold_entry tf "max_high" _ 0 Hmh).
    cbn [gt as_int].
    destruct (Gate.get_or (Gate.fail_on_critical t) false),
             (Gate.get_or (Gate.max_critical t) 0 <? fst totals),
             (Gate.get_or (Gate.fail_on_high t) false),
             (Gate.get_or (Gate.max_high t) 0 <? snd totals); reflexivity.
  - rewrite Ht. reflexivity.
Qed.

(** The shape of the five category checks. *)
Ltac category_refines Hcat :=
  intros r;
  match goal with
  | |- context [category_enabled (VDict ?d) ?cat] =>
      rewrite (category_enabled_decode d cat _ Hcat);
      pose proof (tools_of_decode d cat _ Hcat)
  end;
  rewrite bind_lift_ok;
  match goal with
  | |- context [Gate.is_enabled ?c] => destruct (Gate.is_enabled c)
  end; cbn [negb]; [|reflexivity];
  match goal with
  | H : match Gate.tools_of ?cat ?c with _ => _ end |- _ =>
      destruct (Gate.tools_of cat c);
      [destruct H as [? [-> ?]] | rewrite H; reflexivity]
  end;
  rewrite !bind_lift_ok;
  repeat match goal with
         | Hd : decode_tools ?tsv = Some ?ts
           |- context [tool_enabled (VDict ?tsv) ?name] =>
             rewrite (tool_enabled_decode tsv ts name Hd)
         end;
  rewrite ?bind_lift_ok;
  revert r.

Ltac refines_steps leaf :=
  repeat first [ apply refines_bind; [|intros ?]
               | apply refines_when
               | apply pass_gate_refines
               | leaf ].

Lemma check_sast_gates_refines (d : list (string * value)) (cfg : Gate.Config)
    (inp : Gate.Inputs) :
  opt_category (lookup "sast" d) = Some (Gate.sast cfg) ->
  refines (check_sast_gates (VDict d) inp) (Gate.check_sast_gates cfg inp).
Proof.
  intros H. unfold check_sast_gates, Gate.check_sast_gates.
  category_refines H.
  refines_steps ltac:(idtac; apply check_eslint_security_refines; exact H).
Qed.

Lemma check_dependency_gates_refines (d : list (string * value)) (cfg : Gate.Config)
    (inp : Gate.Inputs) :
  opt_category (lookup "dependencies" d) = Some (Gate.dependencies cfg) ->
  refines (check_dependency_gates (VDict d) inp) (Gate.check_dependency_gates cfg inp).
Proof.
  intros H. unfold check_dependency_gates, Gate.check_dependency_gates.
  category_refines H.
  refines_steps ltac:(idtac; apply check_npm_audit_refines; exact H).
Qed.

Lemma check_container_gates_refines (d : list (string * value)) (cfg : Gate.Config) :
  opt_category (lookup "containers" d) = Some (Gate.containers cfg) ->
  refines (check_container_gates (VDict d)) (Gate.check_container_gates cfg).
Proof.
  intros H. unfold check_container_gates, Gate.check_container_gates.
  category_refines H.
  refines_steps ltac:(idtac; fail).
Qed.

Lemma check_iac_gates_refines (d : list (string * value)) (cfg : Gate.Config) :
  opt_category (lookup "iac" d) = Some (Gate.iac cfg) ->
  refines (check_iac_gates (VDict d)) (Gate.check_iac_gates cfg).
Proof.
  intros H. unfold check_iac_gates, Gate.check_iac_gates.
  category_refines H.
  refines_steps ltac:(idtac; fail).
Qed.

Lemma check_secrets_gates_refines (d : list (string * value)) (cfg : Gate.Config) :
  opt_category (lookup "secrets" d) = Some (Gate.secrets cfg) ->
  refines (check_secrets_gates (VDict d)) (Gate.check_secrets_gates cfg).
Proof.
  intros H. unfold check_secrets_gates, Gate.check_secrets_gates.
  category_refines H.
  refines_steps ltac:(idtac; fail).
Qed.

(** The weights and the ceiling of a document with entries of the expected
    types are those of the configuration. *)
Lemma debt_entries (d : list (string * value)) (cfg : Gate.Config) :
  opt_debt (lookup "security_debt" d) = Some (Gate.security_debt_config cfg) ->
  exists sd sc,
    entry d "security_debt" (VDict []) = VDict sd /\
    entry sd "scoring" scoring_defaults = VDict sc /\
    entry sc "critical" (VInt 50) = VInt (Gate.weight cfg Gate.scoring_critical 50) /\
    entry sc "high" (VInt 20) = VInt (Gate.weight cfg Gate.scoring_high 20) /\
    entry sc "medium" (VInt 5) = VInt (Gate.weight cfg Gate.scoring_medium 5) /\
    entry sc "low" (VInt 1) = VInt (Gate.weight cfg Gate.scoring_low 1) /\
    entry sd "max_total_debt" (VInt 100) = VInt (Gate.max_debt_of cfg).
Proof.
  unfold Gate.weight, Gate.max_debt_of, entry. intros H.
  destruct (lookup "security_debt" d) as [[| | | | |sd]|]; try discriminate H.
  - cbn [opt_debt] in H.
    destruct (opt_scoring (lookup "scoring" sd)) as [s|] eqn:Es; [|discriminate H].
    destruct (opt_int (lookup "max_total_debt" sd)) as [m|] eqn:Em; [|discriminate H].
    injection H as <-. cbn [Gate.scoring Gate.max_total_debt].
    exists sd.
    destruct (lookup "scoring" sd) as [[| | | | |sc]|]; try discriminate Es.
    + cbn [opt_scoring] in Es.
      destruct (opt_int (lookup "critical" sc)) as [wc|] eqn:Ec; [|discriminate Es].
      destruct (opt_int (lookup "high" sc)) as [wh|] eqn:Eh; [|discriminate Es].
      destruct (opt_int (lookup "medium" sc)) as [wm|] eqn:Emd; [|discriminate Es].
      destruct (opt_int (lookup "low" sc)) as [wl|] eqn:El; [|discriminate Es].
      destruct (opt_int (lookup "info" sc)) as [wi|]; [|discriminate Es].
      injection Es as <-.
      cbn [Gate.scoring_critical Gate.scoring_high Gate.scoring_medium Gate.scoring_low].
      exists sc. split; [reflexivity|]. split; [reflexivity|].
      split; [apply threshold_entry; exact Ec|].
      split; [apply threshold_entry; exact Eh|].
      split; [apply threshold_entry; exact Emd|].
      split; [apply threshold_entry; exact El|].
      apply threshold_entry; exact Em.
    + injection Es as <-. eexists. split; [reflexivity|]. split; [reflexivity|].
      repeat (split; [reflexivity|]). apply threshold_entry; exact Em.
  - injection H as <-. exists []. eexists. repeat (split; [reflexivity|]). reflexivity.
Qed.

Lemma calculate_security_debt_refines (d : list (string * value)) (cfg : Gate.Config) :
  opt_debt (lookup "security_debt" d) = Some (Gate.security_debt_config cfg) ->
  refines (calculate_security_debt (VDict d)) (Gate.calculate_security_debt cfg).
Proof.
  intros H r.
  destruct (debt_entries d cfg H) as [sd [sc [H1 [H2 [H3 [H4 [H5 [H6 H7]]]]]]]].
  rewrite (calculate_security_debt_run d sd sc _ _ _ _ _ (of_gate r) H1 H2 H3 H4 H5 H6 H7).
  unfold Gate.calculate_security_debt, bind, read, Gate.set_security_debt, modify.
  cbn [of_gate critical_issues high_issues medium_issues low_issues fst snd].
  fold (Gate.debt_of cfg r).
  destruct (Gate.max_debt_of cfg <? Gate.debt_of cfg r); reflexivity.
Qed.

Lemma check_global_thresholds_refines (d : list (string * value)) (cfg : Gate.Config) :
  opt_global (lookup "global" d) = Some (Gate.global cfg) ->
  refines (check_global_thresholds (VDict d)) (Gate.check_global_thresholds cfg).
Proof.
  intros H r. unfold check_global_thresholds, Gate.check_global_thresholds.
  cbn [get]. rewrite !bind_lift_ok.
  destruct (lookup "global" d) as [[| | | | |g]|]; try discriminate H.
  - cbn [opt_global] in H.
    destruct (opt_bool (lookup "fail_on_critical" g)) as [c|] eqn:Ec; [|discriminate H].
    destruct (opt_int (lookup "fail_on_high_threshold" g)) as [h|] eqn:Eh; [|discriminate H].
    injection H as <-.
    cbn [get Gate.global_fail_on_critical Gate.fail_on_high_threshold].
    rewrite !bind_lift_ok.
    rewrite (switch_entry g "fail_on_critical" c (VBool true) Ec).
    rewrite (threshold_entry g "fail_on_high_threshold" h 5 Eh).
    cbn [truthy]. unfold bind, read. cbn [of_gate critical_issues high_issues].
    destruct (Gate.get_or c true && (0 <? Gate.critical_issues r));
      unfold when, _fail_gate, Gate._fail_gate, modify, ret, lift;
      cbn [gt as_int high_issues Gate.high_issues of_gate];
      destruct (Gate.get_or h 5 <? Gate.high_issues r); reflexivity.
  - injection H as <-. cbn [get lookup]. rewrite !bind_lift_ok.
    cbn [truthy]. unfold bind, read. cbn [of_gate critical_issues high_issues].
    destruct (true && (0 <? Gate.critical_issues r));
      unfold when, _fail_gate, Gate._fail_gate, modify, ret, lift;
      cbn [gt as_int high_issues Gate.high_issues of_gate];
      destruct (5 <? Gate.high_issues r); reflexivity.
Qed.

(** With an integer for the debt the report is built. *)
Lemma generate_report_returns (r : Gate.results) :
  exists rep, generate_report (of_gate r) = (Ok rep, of_gate r).
Proof.
  unfold generate_report, _generate_recommendations, bind, read, lift, ret.
  cbn [of_gate security_debt gt as_int]. eexists. reflexivity.
Qed.

Lemma decode_inv (config : value) (cfg : Gate.Config) :
  decode config = Some cfg ->
  exists d, config = VDict d /\
    opt_category (lookup "sast" d) = Some (Gate.sast cfg) /\
    opt_category (lookup "dependencies" d) = Some (Gate.dependencies cfg) /\
    opt_category (lookup "containers" d) = Some (Gate.containers cfg) /\
    opt_category (lookup "iac" d) = Some (Gate.iac cfg) /\
    opt_category (lookup "secrets" d) = Some (Gate.secrets cfg) /\
    opt_debt (lookup "security_debt" d) = Some (Gate.security_debt_config cfg) /\
    opt_global (lookup "global" d) = Some (Gate.global cfg).
Proof.
  destruct config as [| | | | |d]; try discriminate. unfold decode.
  destruct (opt_category (lookup "sast" d)) as [sa|] eqn:E1; [|discriminate].
  destruct (opt_category (lookup "dependencies" d)) as [de|] eqn:E2; [|discriminate].
  destruct (opt_category (lookup "containers" d)) as [co|] eqn:E3; [|discriminate].
  destruct (opt_category (lookup "iac" d)) as [ia|] eqn:E4; [|discriminate].
  destruct (opt_category (lookup "secrets" d)) as [se|] eqn:E5; [|discriminate].
  destruct (opt_debt (lookup "security_debt" d)) as [sd|] eqn:E6; [|discriminate].
  destruct (opt_global (lookup "global" d)) as [gl|] eqn:E7; [|discriminate].
  intros H. injection H as <-. exists d. repeat split; assumption.
Qed.

(** On a document whose entries have the expected types, the script does
    what [Gate] says of the configuration the document is: the same outcome
    and the same results. *)
Lemma run_all_checks_refines (config : value) (cfg : Gate.Config) (inp : Gate.Inputs) :
  decode config = Some cfg ->
  refines (run_all_checks config inp) (Gate.run_all_checks cfg inp).
Proof.
  intros H.
  destruct (decode_inv config cfg H) as [d [-> [H1 [H2 [H3 [H4 [H5 [H6 H7]]]]]]]].
  unfold run_all_checks, Gate.run_all_checks.
  apply refines_bind; [apply check_sast_gates_refines; exact H1 | intros _].
  apply refines_bind; [apply check_dependency_gates_refines; exact H2 | intros _].
  apply refines_bind; [apply check_container_gates_refines; exact H3 | intros _].
  apply refines_bind; [apply check_iac_gates_refines; exact H4 | intros _].
  apply refines_bind; [apply check_secrets_gates_refines; exact H5 | intros _].
  apply refines_bind; [apply calculate_security_debt_refines; exact H6 | intros _].
  apply refines_bind; [apply check_global_thresholds_refines; exact H7 | intros _].
  intros r. unfold bind at 1.
  destruct (generate_report_returns r) as [rep ->]. reflexivity.
Qed.

(** *** Runs that return *)

(** X21: a configuration document whose entries have the types the script
    expects (sections and tool entries are mappings, switches are booleans,
    thresholds and weights are integers), with its five category sections,
    and with the entry of NPM Audit when there are audit files to read,
    makes the run of a fresh object return a verdict, whatever the result
    files hold: malformed result files never make the run raise. *)
Theorem run_returns_with_complete_configuration
    (config : value) (cfg : Gate.Config) (inp : Gate.Inputs) :
  decode config = Some cfg ->
  Gate.has_all_sections cfg = true ->
  Gate.npm_audit_ready cfg inp = true ->
  exists verdict, fst (run config inp) = Ok verdict.
Proof.
  intros Hdecode Hall Hnpm.
  destruct (GateFacts.run_all_checks_returns cfg inp Gate.initial_results Hall Hnpm)
    as [verdict Hv].
  exists verdict. unfold run.
  change initial_results with (of_gate Gate.initial_results).
  rewrite (run_all_checks_refines config cfg inp Hdecode Gate.initial_results).
  exact Hv.
Qed.

(** The theorem at the sample document and result files: the run returns,
    with a failed verdict. *)
Lemma run_returns_with_complete_configuration_witness :
  exists verdict, fst (run sample_document Gate.sample_results) = Ok verdict.
Proof.
  destruct (decode sample_document) as [cfg|] eqn:E; [|discriminate E].
  apply (run_returns_with_complete_configuration sample_document cfg Gate.sample_results E).
  - vm_compute in E. injection E as <-. reflexivity.
  - vm_compute in E. injection E as <-. reflexivity.
Defined.

(** The types matter: with the five sections and a null entry for a tool,
    the run raises. *)
Example null_tool_entry_raises :
  decode null_tool_document = None /\
  fst (run null_tool_document Gate.no_results) = Raise (AttributeError "NoneType" "get").
Proof.
  split; reflexivity.
Qed.

End GateDocFacts.
